(** * Dell-Assistant: the support control loop, its oracle adapter and the
      PDF fallback miner

    A shallow embedding of [chatbot_backend] (graph.py, state.py, stream.py,
    agents/*.py, config.py, schemas.py) and the properties of its control
    loop.

    Conventions of the embedding.
    - Python [int] is [Z]; counters of a [Counter] are [nat].
    - Python [str] is [string]; a character is a code point below 256 (the
      dash of the three banner titles is kept as its UTF-8 bytes).
    - A node of the LangGraph graph returns a partial dict; it is a list of
      field assignments ([Assign]) merged into the state by [merge], lists
      annotated with a reducer being appended.
    - Everything a node obtains from outside (the line typed by the user, the
      outcome of each LLM attempt, the search backend, the PDF directory) is
      read from a [World]; a session is driven by one [World] per executed
      node, so a list of worlds is a sequence of oracle and user behaviours.
    - Effects (rows appended to the two CSV files, the user-facing text that
      is printed, the LLM invocations and sleeps of the retry loop) are
      accumulated in order in the [out] field of a configuration. *)

From Stdlib Require Import List String Ascii ZArith Lia Bool Arith PeanoNat.
From Stdlib Require Import DecimalString.
Import ListNotations.

Open Scope string_scope.

(** ** Python strings *)

Module Py.

Definition LF : string := String (ascii_of_nat 10) EmptyString.
Definition DQUOTE : ascii := ascii_of_nat 34.
Definition BACKSLASH : ascii := ascii_of_nat 92.

(** [str.isspace] on one character (code points below 256). *)
Definition isspace (c : ascii) : bool :=
  let n := nat_of_ascii c in
  (((9 <=? n) && (n <=? 13)) || ((28 <=? n) && (n <=? 32))
   || (n =? 133) || (n =? 160))%nat.

(** [str.lower] on one character (code points below 256). *)
Definition lower_char (c : ascii) : ascii :=
  let n := nat_of_ascii c in
  if (((65 <=? n) && (n <=? 90))
      || ((192 <=? n) && (n <=? 222) && negb (n =? 215)))%nat
  then ascii_of_nat (n + 32) else c.

Fixpoint lower (s : string) : string :=
  match s with
  | EmptyString => EmptyString
  | String c r => String (lower_char c) (lower r)
  end.

Fixpoint lstrip (s : string) : string :=
  match s with
  | EmptyString => EmptyString
  | String c r => if isspace c then lstrip r else s
  end.

Fixpoint rev (s : string) : string :=
  match s with
  | EmptyString => EmptyString
  | String c r => rev r ++ String c EmptyString
  end.

Definition rstrip (s : string) : string := rev (lstrip (rev s)).

Definition strip (s : string) : string := rstrip (lstrip s).

(** Truth value of a string: [if s], [not s]. *)
Definition truthy (s : string) : bool :=
  match s with EmptyString => false | _ => true end.

Definition startswith (s p : string) : bool := String.prefix p s.

Definition endswith (s suf : string) : bool :=
  let n := String.length s in
  let m := String.length suf in
  (m <=? n)%nat && (substring (n - m) m s =? suf).

(** [str(n)] for an [int]. *)
Definition str_of_Z (z : Z) : string := NilZero.string_of_int (Z.to_int z).

(** [sep.join(parts)]. *)
Fixpoint join (sep : string) (parts : list string) : string :=
  match parts with
  | [] => ""
  | [p] => p
  | p :: rest => p ++ sep ++ join sep rest
  end.

(** [s[:n]]. *)
Definition take (n : nat) (s : string) : string := substring 0 n s.

(** [s[n:]]. *)
Fixpoint drop (n : nat) (s : string) : string :=
  match n, s with
  | O, _ => s
  | S n', String _ r => drop n' r
  | S _, EmptyString => EmptyString
  end.

Fixpoint map_chars (f : ascii -> ascii) (s : string) : string :=
  match s with
  | EmptyString => EmptyString
  | String c r => String (f c) (map_chars f r)
  end.

(** [s * n] *)
Fixpoint times (s : string) (n : nat) : string :=
  match n with
  | O => ""
  | S n' => s ++ times s n'
  end.

(** [str(b)] for a [bool]. *)
Definition str_of_bool (b : bool) : string := if b then "True" else "False".

End Py.

(** ** The retry loop around every LLM call

    Each agent module repeats the same loop:
<<
    response = None
    for attempt in range(MAX_RETRIES):
        try:
            response = structured_llm.invoke(messages)
            break
        except (APIConnectionError, APITimeoutError, RateLimitError) as e:
            if attempt < MAX_RETRIES - 1:
                time.sleep(RETRY_DELAYS[attempt])
            else: ...
        except Exception as e:
            break
>> *)

Inductive Exn : Type :=
| APIConnectionError
| APITimeoutError
| RateLimitError
| OtherException (msg : string).

(** Outcome of one [structured_llm.invoke(messages)]. *)
Inductive Outcome (A : Type) : Type :=
| Returns (a : A)
| Raises (e : Exn).
Arguments Returns {A} a.
Arguments Raises {A} e.

(** The first [except] clause. *)
Definition is_transient (e : Exn) : bool :=
  match e with
  | APIConnectionError | APITimeoutError | RateLimitError => true
  | OtherException _ => false
  end.

Definition MAX_RETRIES : nat := 3.
Definition RETRY_DELAYS : list Z := [1; 2; 4]%Z.

(** The oracle seen by one call site during one node execution: the outcome
    of its [attempt]-th invocation (0-based). *)
Definition Oracle (A : Type) : Type := nat -> Outcome A.

(** What the loop does besides computing [response]: the calls of
    [structured_llm.invoke] and of [time.sleep], in order. *)
Inductive RetryEvent : Type :=
| Invoke
| SleepFor (seconds : Z).

(** Result of the loop: the final value of [response] and its events. *)
Record Retried (A : Type) : Type := mkRetried {
  response : option A;
  events : list RetryEvent
}.
Arguments mkRetried {A} _ _.
Arguments response {A} _.
Arguments events {A} _.

Fixpoint retry_loop {A : Type} (invoke : Oracle A) (attempts : list nat)
  : Retried A :=
  match attempts with
  | [] => mkRetried None []
  | attempt :: rest =>
      match invoke attempt with
      | Returns r => mkRetried (Some r) [Invoke]
      | Raises e =>
          if is_transient e then
            if (attempt <? MAX_RETRIES - 1)%nat then
              let r := retry_loop invoke rest in
              mkRetried (response r)
                (Invoke :: SleepFor (nth attempt RETRY_DELAYS 0%Z) :: events r)
            else
              let r := retry_loop invoke rest in
              mkRetried (response r) (Invoke :: events r)
          else mkRetried None [Invoke]
      end
  end.

(** [for attempt in range(MAX_RETRIES)]. *)
Definition call_llm {A : Type} (invoke : Oracle A) : Retried A :=
  retry_loop invoke (seq 0 MAX_RETRIES).

(** The events of [k] transient failures followed by one more call. *)
Fixpoint failed_attempts (k : nat) (from : nat) : list RetryEvent :=
  match k with
  | O => [Invoke]
  | S k' =>
      Invoke :: SleepFor (nth from RETRY_DELAYS 0%Z)
        :: failed_attempts k' (S from)
  end.

Definition RetryEvent_eq_dec (a b : RetryEvent) : {a = b} + {a <> b}.
Proof. decide equality; apply Z.eq_dec. Defined.

(** Number of calls of [structured_llm.invoke] among the events. *)
Definition calls (l : list RetryEvent) : nat :=
  count_occ RetryEvent_eq_dec l Invoke.

(** An oracle that follows a finite script and then keeps giving [last]. *)
Definition scripted {A : Type} (script : list (Outcome A)) (last : Outcome A)
  : Oracle A :=
  fun attempt => nth attempt script last.

(** ** schemas.py: the structured responses *)

Record InformationGathererResponse : Type := {
  ig_has_enough_info : bool;
  follow_up_question : string;
  ig_reasoning : string;
  ig_classified_question : string
}.

Record ContextSufficiencyAssessment : Type := {
  is_sufficient : bool;
  csa_information_gap : string;
  csa_reasoning : string
}.

Record FormulatedAnswer : Type := {
  answer : string;
  confidence : string;
  sources_used : string
}.

Record UserFeedback : Type := {
  is_satisfied : bool;
  is_uncertain : bool
}.

Record RAGRetrieverQuery : Type := {
  search_query : string;
  rq_reasoning : string
}.

Record ClarificationAssessment : Type := {
  is_actionable : bool;
  ca_information_gap : string;
  ca_reasoning : string
}.

Record TOCAnalysis : Type := {
  has_toc : bool;
  relevant_pages : list Z;
  most_relevant_section_title : string;
  toc_reasoning : string
}.

(** ** state.py: the session state *)

Inductive Message : Type :=
| HumanMessage (content : string)
| AIMessage (content : string)
| SystemMessage (content : string).

(** One entry of [rag_history], a dict with keys query, context, urls. *)
Record RagEntry : Type := {
  query : string;
  context : string;
  urls : list string
}.

Record AgentState : Type := mkState {
  chat_id : string;
  messages : list Message;
  product_name : string;
  classified_question : string;
  gatherer_attempts : Z;
  has_enough_info : bool;
  rag_history : list RagEntry;
  retrieval_attempts : Z;
  is_context_sufficient : bool;
  information_gap : string;
  final_answer : string;
  escalated_to_human : bool;
  pdf_fallback_used : bool;
  user_satisfied : bool;
  feedback_collected : bool;
  clarification_used : bool;
  user_clarification : string;
  clarification_is_actionable : bool;
  feedback_uncertain : bool
}.

(** The reducer of [rag_history]. *)
Definition add_rag_history (existing new : option (list RagEntry))
  : list RagEntry :=
  let existing := match existing with None => [] | Some e => e end in
  match new with
  | None => existing
  | Some n => existing ++ n
  end.

(** The reducer of [messages] for messages without an id: they are appended. *)
Definition add_messages (existing new : list Message) : list Message :=
  existing ++ new.

(** One key of the dict a node returns. *)
Inductive Assign : Type :=
| Set_messages (v : list Message)
| Set_product_name (v : string)
| Set_classified_question (v : string)
| Set_gatherer_attempts (v : Z)
| Set_has_enough_info (v : bool)
| Set_rag_history (v : list RagEntry)
| Set_retrieval_attempts (v : Z)
| Set_is_context_sufficient (v : bool)
| Set_information_gap (v : string)
| Set_final_answer (v : string)
| Set_escalated_to_human (v : bool)
| Set_pdf_fallback_used (v : bool)
| Set_user_satisfied (v : bool)
| Set_feedback_collected (v : bool)
| Set_clarification_used (v : bool)
| Set_user_clarification (v : string)
| Set_clarification_is_actionable (v : bool)
| Set_feedback_uncertain (v : bool).

Definition Update : Type := list Assign.

Definition apply_assign (s : AgentState) (a : Assign) : AgentState :=
  let '(mkState cid ms pn cq ga he rh ra cs ig fa es pf us fc cu uc ci fu) :=
    s in
  match a with
  | Set_messages v =>
      mkState cid (add_messages ms v) pn cq ga he rh ra cs ig fa es pf us fc
              cu uc ci fu
  | Set_product_name v =>
      mkState cid ms v cq ga he rh ra cs ig fa es pf us fc cu uc ci fu
  | Set_classified_question v =>
      mkState cid ms pn v ga he rh ra cs ig fa es pf us fc cu uc ci fu
  | Set_gatherer_attempts v =>
      mkState cid ms pn cq v he rh ra cs ig fa es pf us fc cu uc ci fu
  | Set_has_enough_info v =>
      mkState cid ms pn cq ga v rh ra cs ig fa es pf us fc cu uc ci fu
  | Set_rag_history v =>
      mkState cid ms pn cq ga he (add_rag_history (Some rh) (Some v)) ra cs ig
              fa es pf us fc cu uc ci fu
  | Set_retrieval_attempts v =>
      mkState cid ms pn cq ga he rh v cs ig fa es pf us fc cu uc ci fu
  | Set_is_context_sufficient v =>
      mkState cid ms pn cq ga he rh ra v ig fa es pf us fc cu uc ci fu
  | Set_information_gap v =>
      mkState cid ms pn cq ga he rh ra cs v fa es pf us fc cu uc ci fu
  | Set_final_answer v =>
      mkState cid ms pn cq ga he rh ra cs ig v es pf us fc cu uc ci fu
  | Set_escalated_to_human v =>
      mkState cid ms pn cq ga he rh ra cs ig fa v pf us fc cu uc ci fu
  | Set_pdf_fallback_used v =>
      mkState cid ms pn cq ga he rh ra cs ig fa es v us fc cu uc ci fu
  | Set_user_satisfied v =>
      mkState cid ms pn cq ga he rh ra cs ig fa es pf v fc cu uc ci fu
  | Set_feedback_collected v =>
      mkState cid ms pn cq ga he rh ra cs ig fa es pf us v cu uc ci fu
  | Set_clarification_used v =>
      mkState cid ms pn cq ga he rh ra cs ig fa es pf us fc v uc ci fu
  | Set_user_clarification v =>
      mkState cid ms pn cq ga he rh ra cs ig fa es pf us fc cu v ci fu
  | Set_clarification_is_actionable v =>
      mkState cid ms pn cq ga he rh ra cs ig fa es pf us fc cu uc v fu
  | Set_feedback_uncertain v =>
      mkState cid ms pn cq ga he rh ra cs ig fa es pf us fc cu uc ci v
  end.

(** Merging the dict returned by a node into the state. *)
Definition merge (s : AgentState) (u : Update) : AgentState :=
  fold_left apply_assign u s.

(** stream.py: [initial_state]. *)
Definition initial_state (cid : string) : AgentState :=
  {| chat_id := cid;
     messages := [];
     product_name := "";
     classified_question := "";
     gatherer_attempts := 0;
     has_enough_info := false;
     rag_history := [];
     retrieval_attempts := 0;
     is_context_sufficient := false;
     information_gap := "";
     final_answer := "";
     escalated_to_human := false;
     pdf_fallback_used := false;
     user_satisfied := false;
     feedback_collected := false;
     clarification_used := false;
     user_clarification := "";
     clarification_is_actionable := false;
     feedback_uncertain := false |}.

(** config.py *)
Definition MAX_GATHERER_ATTEMPTS : Z := 3.
Definition MAX_RETRIEVAL_ATTEMPTS : Z := 3.
Definition PDF_TOC_PAGE_THRESHOLD : Z := 10.

(** ** What a node reads from outside *)

(** A PDF document: the text of its pages, in order. *)
Definition Pdf : Type := list string.

Record World : Type := {
  (** the line returned by [input(..)], before [.strip()] *)
  typed : string;
  (** the slug chosen through the product prompts of [product_selector_node]
      (the fuzzy matching of tools/product_selector.py is not modelled) *)
  selected_product : string;
  gatherer_llm : Oracle InformationGathererResponse;
  retriever_llm : Oracle RAGRetrieverQuery;
  quality_llm : Oracle ContextSufficiencyAssessment;
  formulator_llm : Oracle FormulatedAnswer;
  feedback_llm : Oracle UserFeedback;
  clarification_llm : Oracle ClarificationAssessment;
  toc_llm : Oracle TOCAnalysis;
  (** tools/rag_search.py: [rag_search(product_name, query)] *)
  rag_search : string -> string -> string * list string;
  (** the files of [PDF_DIR], by file name *)
  pdf_dir : string -> option Pdf
}.

(** ** Effects *)

Record LogRow : Type := {
  log_chat_id : string;
  log_product : string;
  log_question : string;
  log_status : string;
  log_escalated : bool;
  log_gatherer_attempts : Z;
  log_retrieval_attempts : Z;
  log_user_satisfied : bool;
  log_feedback_uncertain : bool;
  log_feedback_collected : bool
}.

Record TicketRow : Type := {
  ticket_chat_id : string;
  ticket_product : string;
  ticket_question : string;
  ticket_answer_given : string;
  ticket_escalated : bool;
  ticket_description : string
}.

(** [Print] records the [print] calls of the nodes of graph.py and the
    question printed by the feedback collector; the prompts of [input] and
    the diagnostic dumps of the agents are not recorded. The timestamp column
    of the two CSV files is left out. *)
Inductive Output : Type :=
| Print (text : string)
| Llm (e : RetryEvent)
| write_support_log (row : LogRow)
| write_ticket (row : TicketRow).

Definition NodeResult : Type := (Update * list Output)%type.

Definition llm_effects {A : Type} (r : Retried A) : list Output :=
  map Llm (events r).

(** ** agents/information_gatherer.py *)

(** Of what the agent nodes print, only the question of the feedback
    collector is recorded; the dumps printed around each LLM call (the INPUT
    messages, the retry notices and the OUTPUT response) are left out of
    [Output]. The calls and sleeps of the retry loop are recorded. *)

Definition information_gatherer_node (w : World) (state : AgentState)
  : NodeResult :=
  let r := call_llm (gatherer_llm w) in
  (match response r with
   | None =>
       [ Set_has_enough_info false;
         Set_gatherer_attempts (gatherer_attempts state + 1);
         Set_messages
           [AIMessage
              "Could you please provide more details about your issue?"] ]
   | Some resp =>
       if negb (ig_has_enough_info resp) then
         [ Set_has_enough_info false;
           Set_gatherer_attempts (gatherer_attempts state + 1);
           Set_messages [AIMessage (follow_up_question resp)] ]
       else
         [ Set_has_enough_info true;
           Set_classified_question (ig_classified_question resp);
           Set_messages
             [AIMessage
                ("Understood. Issue: " ++ ig_classified_question resp)] ]
   end, llm_effects r).

(** ** agents/rag_retriever.py *)

Definition rag_retriever_node (w : World) (state : AgentState) : NodeResult :=
  let product_name := product_name state in
  let classified_question := classified_question state in
  let r := call_llm (retriever_llm w) in
  (match response r with
   | None =>
       let fallback_query := product_name ++ " " ++ classified_question in
       let '(context, urls) := rag_search w product_name fallback_query in
       [ Set_rag_history
           [{| query := fallback_query; context := context; urls := urls |}];
         Set_messages
           [AIMessage
              ("RAG search completed (fallback). Query: " ++ fallback_query)] ]
   | Some resp =>
       let '(context, urls) := rag_search w product_name (search_query resp) in
       [ Set_rag_history
           [{| query := search_query resp;
               context := context;
               urls := urls |}];
         Set_messages
           [AIMessage ("RAG search completed. Query: " ++ search_query resp)] ]
   end, llm_effects r).

(** ** agents/quality_checker.py *)

Definition quality_checker_node (w : World) (state : AgentState)
  : NodeResult :=
  let r := call_llm (quality_llm w) in
  let new_retrieval_attempts := (retrieval_attempts state + 1)%Z in
  (match response r with
   | None =>
       [ Set_is_context_sufficient false;
         Set_retrieval_attempts new_retrieval_attempts;
         Set_information_gap
           "Unable to assess context quality due to LLM error";
         Set_messages
           [AIMessage
              "Context assessment failed. Attempting another search."] ]
   | Some assessment =>
       if negb (is_sufficient assessment) then
         [ Set_is_context_sufficient false;
           Set_retrieval_attempts new_retrieval_attempts;
           Set_information_gap (csa_information_gap assessment);
           Set_messages
             [AIMessage
                ("Context insufficient. Information gap: "
                 ++ csa_information_gap assessment)] ]
       else
         [ Set_is_context_sufficient true;
           Set_retrieval_attempts new_retrieval_attempts;
           Set_information_gap "" ]
   end, llm_effects r).

(** ** agents/answer_formulator.py *)

Definition fallback_answer : string :=
  "I apologise, but I am currently unable to formulate a response. "
  ++ "Please try again later or contact Dell support directly.".

Definition answer_formulator_node (w : World) (state : AgentState)
  : NodeResult :=
  let r := call_llm (formulator_llm w) in
  (match response r with
   | None =>
       [ Set_final_answer fallback_answer;
         Set_messages [AIMessage fallback_answer] ]
   | Some formulated =>
       [ Set_final_answer (answer formulated);
         Set_messages [AIMessage (answer formulated)] ]
   end, llm_effects r).

(** ** agents/feedback_collector.py *)

Definition feedback_collector_node (w : World) (state : AgentState)
  : NodeResult :=
  let user_input := Py.strip (typed w) in
  let r := call_llm (feedback_llm w) in
  (match response r with
   | None =>
       [ Set_user_satisfied true;
         Set_feedback_collected true;
         Set_feedback_uncertain true;
         Set_messages [HumanMessage user_input] ]
   | Some feedback =>
       if is_uncertain feedback then
         [ Set_user_satisfied true;
           Set_feedback_collected true;
           Set_feedback_uncertain true;
           Set_messages [HumanMessage user_input] ]
       else
         [ Set_user_satisfied (is_satisfied feedback);
           Set_feedback_collected true;
           Set_feedback_uncertain false;
           Set_messages [HumanMessage user_input] ]
   end,
   Print "Was this information sufficient? (yes/no)" :: llm_effects r).

(** ** agents/clarification_assessor.py *)

Definition clarification_assessor_node (w : World) (state : AgentState)
  : NodeResult :=
  let r := call_llm (clarification_llm w) in
  (match response r with
   | None =>
       [ Set_clarification_is_actionable false;
         Set_clarification_used true ]
   | Some resp =>
       let result :=
         [ Set_clarification_is_actionable (is_actionable resp);
           Set_clarification_used true ] in
       if is_actionable resp then
         (result ++ [ Set_information_gap (ca_information_gap resp);
                      Set_retrieval_attempts 0 ])%list
       else result
   end, llm_effects r).

(** ** agents/pdf_fallback.py *)

(** The first [re.sub]: a leading http:// or https:// is removed. *)
Definition strip_scheme (url : string) : string :=
  if Py.startswith url "http://" then Py.drop 7 url
  else if Py.startswith url "https://" then Py.drop 8 url
  else url.

(** The second [re.sub], on one character: a backslash, slash, colon, star,
    question mark, double quote, angle bracket or bar becomes an
    underscore. *)
Definition sanitise_char (c : ascii) : ascii :=
  if existsb (Ascii.eqb c)
       [Py.BACKSLASH; "/"; ":"; "*"; "?"; Py.DQUOTE; "<"; ">"; "|"]%char
  then "_"%char else c.

Definition _sanitise_url_for_filename (url : string) : string :=
  let base := strip_scheme url in
  let base := Py.map_chars sanitise_char base in
  let base := Py.take 240 base in
  base.

(** Returns the name of the file inside [PDF_DIR]. *)
Definition _find_pdf_on_disk (w : World) (url : string) : option string :=
  let base := _sanitise_url_for_filename url in
  let candidate := base ++ "-1.pdf" in
  match pdf_dir w candidate with
  | Some _ => Some candidate
  | None => None
  end.

(** [fitz.open(str(pdf_path))] on a path returned by [_find_pdf_on_disk]. *)
Definition fitz_open (w : World) (pdf_path : string) : Pdf :=
  match pdf_dir w pdf_path with
  | Some doc => doc
  | None => []
  end.

(** A [Counter]: a dict, which keeps its keys in insertion order. *)
Definition Counter : Type := list (string * nat).

(** [url_counts[url] += 1] *)
Fixpoint counter_incr (url : string) (c : Counter) : Counter :=
  match c with
  | [] => [(url, 1)]
  | (k, n) :: rest =>
      if String.eqb k url then (k, S n) :: rest
      else (k, n) :: counter_incr url rest
  end.

(** [max(items, key=itemgetter(1))], which [most_common(1)] comes down to:
    the running best is replaced only by a strictly greater count. *)
Fixpoint max_by_count (best : string * nat) (items : Counter)
  : string * nat :=
  match items with
  | [] => best
  | item :: rest =>
      max_by_count (if (snd best <? snd item)%nat then item else best) rest
  end.

Definition most_common_1 (c : Counter) : list (string * nat) :=
  match c with
  | [] => []
  | first :: rest => [max_by_count first rest]
  end.

Definition is_pdf_url (url : string) : bool :=
  Py.endswith (Py.lower url) ".pdf".

Definition count_url (c : Counter) (url : string) : Counter :=
  if is_pdf_url url then counter_incr url c else c.

Definition count_entry (c : Counter) (entry : RagEntry) : Counter :=
  fold_left count_url (urls entry) c.

Definition url_counts (rag_history : list RagEntry) : Counter :=
  fold_left count_entry rag_history [].

Definition _get_most_frequent_pdf_url (rag_history : list RagEntry)
  : option string :=
  match most_common_1 (url_counts rag_history) with
  | [] => None
  | top :: _ => Some (fst top)
  end.

(** [range(lo, hi)] *)
Definition range (lo hi : Z) : list Z :=
  map (fun i => (lo + Z.of_nat i)%Z) (seq 0 (Z.to_nat (hi - lo))).

Definition _get_page_count (doc : Pdf) : Z := Z.of_nat (List.length doc).

(** The pages [_extract_pages_text] keeps, with their text: those of
    [page_numbers] that exist in the document and are not blank. *)
Fixpoint extracted_pages (doc : Pdf) (page_numbers : list Z)
  : list (Z * string) :=
  match page_numbers with
  | [] => []
  | page_num :: rest =>
      let idx := (page_num - 1)%Z in
      if ((0 <=? idx) && (idx <? Z.of_nat (List.length doc)))%Z then
        let page_text := nth (Z.to_nat idx) doc "" in
        if Py.truthy (Py.strip page_text)
        then (page_num, page_text) :: extracted_pages doc rest
        else extracted_pages doc rest
      else extracted_pages doc rest
  end.

Definition page_part (p : Z * string) : string :=
  "--- Page " ++ Py.str_of_Z (fst p) ++ " ---" ++ Py.LF ++ snd p.

Definition _extract_pages_text (doc : Pdf) (page_numbers : list Z) : string :=
  Py.join (Py.LF ++ Py.LF) (map page_part (extracted_pages doc page_numbers)).

Definition small_pdf_answer (pdf_url : string) (page_count : Z)
  (extracted_text : string) : string :=
  "We could not find an exact answer to your query after multiple "
  ++ "search attempts, but the following document may contain useful "
  ++ "information." ++ Py.LF ++ Py.LF
  ++ "Source: " ++ pdf_url ++ Py.LF
  ++ "Pages: all (" ++ Py.str_of_Z page_count ++ " pages)" ++ Py.LF ++ Py.LF
  ++ extracted_text.

Definition section_answer (pdf_url section_note pages_str
  extracted_text : string) : string :=
  "We could not find an exact answer to your query after multiple "
  ++ "search attempts, but the following section from a related document "
  ++ "may contain useful information." ++ Py.LF ++ Py.LF
  ++ "Source: " ++ pdf_url ++ Py.LF
  ++ section_note
  ++ "Pages: " ++ pages_str ++ Py.LF ++ Py.LF
  ++ extracted_text.

Definition pdf_fallback_node (w : World) (state : AgentState) : NodeResult :=
  let rag_history := rag_history state in
  (* Step 1: the most frequently referenced PDF URL *)
  match _get_most_frequent_pdf_url rag_history with
  | None => ([Set_pdf_fallback_used false], [])
  | Some pdf_url =>
  (* Step 2: the local file *)
  match _find_pdf_on_disk w pdf_url with
  | None => ([Set_pdf_fallback_used false], [])
  | Some pdf_path =>
  let doc := fitz_open w pdf_path in
  (* Step 3: the page count *)
  let page_count := _get_page_count doc in
  if (page_count <=? PDF_TOC_PAGE_THRESHOLD)%Z then
    let all_pages := range 1 (page_count + 1) in
    let extracted_text := _extract_pages_text doc all_pages in
    if negb (Py.truthy (Py.strip extracted_text)) then
      ([Set_pdf_fallback_used false], [])
    else
      let fallback_answer :=
        small_pdf_answer pdf_url page_count extracted_text in
      ([ Set_pdf_fallback_used true;
         Set_final_answer fallback_answer;
         Set_messages [AIMessage fallback_answer] ], [])
  else
  (* Step 4: large PDF, look for a table of contents in the first pages *)
  let first_pages_text :=
    _extract_pages_text doc (range 1 (PDF_TOC_PAGE_THRESHOLD + 1)) in
  if negb (Py.truthy (Py.strip first_pages_text)) then
    ([Set_pdf_fallback_used false], [])
  else
  let r := call_llm (toc_llm w) in
  match response r with
  | None => ([Set_pdf_fallback_used false], llm_effects r)
  | Some toc_analysis =>
  if negb (has_toc toc_analysis) then
    ([Set_pdf_fallback_used false], llm_effects r)
  else
  match relevant_pages toc_analysis with
  | [] => ([Set_pdf_fallback_used false], llm_effects r)
  | _ :: _ =>
  let extracted_text :=
    _extract_pages_text doc (relevant_pages toc_analysis) in
  if negb (Py.truthy (Py.strip extracted_text)) then
    ([Set_pdf_fallback_used false], llm_effects r)
  else
    let section_note :=
      if Py.truthy (most_relevant_section_title toc_analysis)
      then "Relevant section: " ++ most_relevant_section_title toc_analysis
           ++ Py.LF
      else "" in
    let pages_str :=
      Py.join ", " (map Py.str_of_Z (relevant_pages toc_analysis)) in
    let fallback_answer :=
      section_answer pdf_url section_note pages_str extracted_text in
    ([ Set_pdf_fallback_used true;
       Set_final_answer fallback_answer;
       Set_messages [AIMessage fallback_answer] ], llm_effects r)
  end end end end.

(** ** graph.py: the nodes *)

(** The product prompts: the slug is read from the world. The list of
    matches and the selected product that the node prints are not recorded;
    the choice among the candidates, which raises on an empty candidate
    list, is [choose_slug] below. *)

Definition product_selector_node (w : World) (state : AgentState)
  : NodeResult :=
  let slug := selected_product w in
  let question := Py.strip (typed w) in
  ([ Set_product_name slug; Set_messages [HumanMessage question] ], []).

(** [for msg in reversed(state["messages"]): if isinstance(msg, AIMessage)] *)
Fixpoint last_ai_from (reversed : list Message) : option string :=
  match reversed with
  | [] => None
  | AIMessage content :: _ => Some content
  | _ :: rest => last_ai_from rest
  end.

Definition ask_user_for_details_node (w : World) (state : AgentState)
  : NodeResult :=
  let last_ai := last_ai_from (List.rev (messages state)) in
  let user_input := Py.strip (typed w) in
  ([ Set_messages [HumanMessage user_input] ],
   match last_ai with
   | Some content => [Print (Py.LF ++ "Agent: " ++ content)]
   | None => []
   end).

Definition rule : string := Py.times "=" 60.

Definition banner (title body : string) : list Output :=
  [ Print (Py.LF ++ rule); Print title; Print rule; Print body;
    Print (rule ++ Py.LF) ].

Definition present_answer_node (w : World) (state : AgentState)
  : NodeResult :=
  let answer := final_answer state in
  ([ Set_escalated_to_human false ],
   banner "Dell Technical Support — Answer" answer).

Definition ask_for_clarification_node (w : World) (state : AgentState)
  : NodeResult :=
  let user_input := Py.strip (typed w) in
  (if negb (Py.truthy user_input) then
     [ Set_user_clarification "";
       Set_clarification_is_actionable false;
       Set_clarification_used true ]
   else [ Set_user_clarification user_input ],
   [ Print ("Do you have any additional information that might help? "
            ++ "(or press Enter to skip)") ]).

Definition present_fallback_answer_node (w : World) (state : AgentState)
  : NodeResult :=
  let answer := final_answer state in
  ([ Set_escalated_to_human false ],
   banner "Dell Technical Support — Additional Information" answer).

Definition notice : string :=
  "We were unable to find a sufficient answer to your query after "
  ++ "multiple attempts. Your case has been escalated to a human support "
  ++ "agent who will be in touch shortly.".

Definition escalate_node (w : World) (state : AgentState) : NodeResult :=
  ([ Set_escalated_to_human true; Set_final_answer notice ],
   banner "Dell Technical Support — Escalation Notice" notice).

Definition log_pre_feedback_node (w : World) (state : AgentState)
  : NodeResult :=
  let escalated := escalated_to_human state in
  let status := if escalated then "escalated" else "pending_feedback" in
  ([],
   [ write_support_log
       {| log_chat_id := chat_id state;
          log_product := product_name state;
          log_question := classified_question state;
          log_status := status;
          log_escalated := escalated;
          log_gatherer_attempts := gatherer_attempts state;
          log_retrieval_attempts := retrieval_attempts state;
          log_user_satisfied := false;
          log_feedback_uncertain := false;
          log_feedback_collected := false |} ]).

Definition ticket_text (product question : string) (escalated : bool)
  (gatherer_attempts retrieval_attempts : Z) : string :=
  "Customer was not satisfied with the support provided. "
  ++ "Product: " ++ product ++ ". Question: " ++ question ++ ". "
  ++ "Escalated: " ++ Py.str_of_bool escalated ++ ". "
  ++ "Gatherer attempts: " ++ Py.str_of_Z gatherer_attempts ++ ". "
  ++ "Retrieval attempts: " ++ Py.str_of_Z retrieval_attempts ++ ".".

Definition log_result_node (w : World) (state : AgentState) : NodeResult :=
  let chat_id := chat_id state in
  let product := product_name state in
  let question := classified_question state in
  let escalated := escalated_to_human state in
  let user_satisfied := user_satisfied state in
  let feedback_uncertain := feedback_uncertain state in
  let gatherer_attempts := gatherer_attempts state in
  let retrieval_attempts := retrieval_attempts state in
  let final_answer := final_answer state in
  let status :=
    if escalated then "escalated"
    else if user_satisfied then "success"
    else "failure" in
  ([],
   ([ write_support_log
        {| log_chat_id := chat_id;
           log_product := product;
           log_question := question;
           log_status := status;
           log_escalated := escalated;
           log_gatherer_attempts := gatherer_attempts;
           log_retrieval_attempts := retrieval_attempts;
           log_user_satisfied := user_satisfied;
           log_feedback_uncertain := feedback_uncertain;
           log_feedback_collected := negb escalated |} ]
    ++ (if negb user_satisfied then
          let description :=
            ticket_text product question escalated gatherer_attempts
                        retrieval_attempts in
          [ write_ticket
              {| ticket_chat_id := chat_id;
                 ticket_product := product;
                 ticket_question := question;
                 ticket_answer_given := final_answer;
                 ticket_escalated := escalated;
                 ticket_description := description |} ]
        else [])
    ++ [ Print "Session logged successfully." ])%list).

(** ** graph.py: routing *)

Inductive Node : Type :=
| product_selector
| information_gatherer
| ask_user_for_details
| rag_retriever
| quality_checker
| answer_formulator
| present_answer
| escalate
| pdf_fallback
| present_fallback_answer
| ask_for_clarification
| clarification_assessor
| log_pre_feedback
| collect_feedback
| log_result
| END.

Definition Node_eq_dec (a b : Node) : {a = b} + {a <> b}.
Proof. decide equality. Defined.

Definition Node_eqb (a b : Node) : bool :=
  if Node_eq_dec a b then true else false.

Definition route_after_gatherer (state : AgentState) : Node :=
  if has_enough_info state then rag_retriever
  else if (gatherer_attempts state >=? MAX_GATHERER_ATTEMPTS)%Z
  then rag_retriever
  else ask_user_for_details.

Definition route_after_quality_checker (state : AgentState) : Node :=
  if is_context_sufficient state then answer_formulator
  else if (retrieval_attempts state >=? MAX_RETRIEVAL_ATTEMPTS)%Z
  then pdf_fallback
  else rag_retriever.

Definition route_after_present_answer (state : AgentState) : Node :=
  if clarification_used state then log_pre_feedback
  else ask_for_clarification.

Definition route_after_clarification (state : AgentState) : Node :=
  if negb (Py.truthy (user_clarification state)) then log_pre_feedback
  else clarification_assessor.

Definition route_after_clarification_assessor (state : AgentState) : Node :=
  if clarification_is_actionable state then rag_retriever
  else log_pre_feedback.

Definition route_after_log_pre_feedback (state : AgentState) : Node :=
  if escalated_to_human state then log_result else collect_feedback.

Definition route_after_pdf_fallback (state : AgentState) : Node :=
  if pdf_fallback_used state then present_fallback_answer else escalate.

(** [build_graph]: the function of each node. *)
Definition node_fn (n : Node) : World -> AgentState -> NodeResult :=
  match n with
  | product_selector => product_selector_node
  | information_gatherer => information_gatherer_node
  | ask_user_for_details => ask_user_for_details_node
  | rag_retriever => rag_retriever_node
  | quality_checker => quality_checker_node
  | answer_formulator => answer_formulator_node
  | present_answer => present_answer_node
  | escalate => escalate_node
  | pdf_fallback => pdf_fallback_node
  | present_fallback_answer => present_fallback_answer_node
  | ask_for_clarification => ask_for_clarification_node
  | clarification_assessor => clarification_assessor_node
  | log_pre_feedback => log_pre_feedback_node
  | collect_feedback => feedback_collector_node
  | log_result => log_result_node
  | END => fun _ _ => ([], [])
  end.

(** [build_graph]: the edges; a routing function reads the state after the
    node's update has been merged. *)
Definition edge (n : Node) (state : AgentState) : Node :=
  match n with
  | product_selector => information_gatherer
  | information_gatherer => route_after_gatherer state
  | ask_user_for_details => information_gatherer
  | rag_retriever => quality_checker
  | quality_checker => route_after_quality_checker state
  | pdf_fallback => route_after_pdf_fallback state
  | present_fallback_answer => log_pre_feedback
  | answer_formulator => present_answer
  | present_answer => route_after_present_answer state
  | ask_for_clarification => route_after_clarification state
  | clarification_assessor => route_after_clarification_assessor state
  | escalate => log_pre_feedback
  | log_pre_feedback => route_after_log_pre_feedback state
  | collect_feedback => log_result
  | log_result => END
  | END => END
  end.

(** ** Running a session *)

Record Config : Type := mkConfig {
  at_node : Node;            (** the node about to run *)
  st : AgentState;
  out : list Output
}.

Definition step (w : World) (c : Config) : Config :=
  match at_node c with
  | END => c
  | n =>
      let '(update, effects) := node_fn n w (st c) in
      let s' := merge (st c) update in
      mkConfig (edge n s') s' (out c ++ effects)
  end.

(** [app.invoke(initial_state)], the edge from [START]. *)
Definition start (cid : string) : Config :=
  mkConfig product_selector (initial_state cid) [].

Definition run (ws : list World) (c : Config) : Config :=
  fold_left (fun c w => step w c) ws c.

(** The nodes executed along a run, in order. *)
Fixpoint executed (ws : list World) (c : Config) : list Node :=
  match ws with
  | [] => []
  | w :: rest =>
      match at_node c with
      | END => []
      | n => n :: executed rest (step w c)
      end
  end.

Definition tickets (c : Config) : list TicketRow :=
  flat_map (fun o => match o with write_ticket t => [t] | _ => [] end) (out c).

Definition support_log (c : Config) : list LogRow :=
  flat_map (fun o => match o with write_support_log r => [r] | _ => [] end)
           (out c).

(** ** Sample oracles and worlds *)

Definition always {A : Type} (a : A) : Oracle A := fun _ => Returns a.

Definition never {A : Type} (e : Exn) : Oracle A := fun _ => Raises e.

(** A world where every LLM call times out, the search finds nothing and
    [PDF_DIR] is empty. *)
Definition dead_world (line : string) : World :=
  {| typed := line;
     selected_product := "general";
     gatherer_llm := never APITimeoutError;
     retriever_llm := never APITimeoutError;
     quality_llm := never APITimeoutError;
     formulator_llm := never APITimeoutError;
     feedback_llm := never APITimeoutError;
     clarification_llm := never APITimeoutError;
     toc_llm := never APITimeoutError;
     rag_search := fun _ _ => ("", []);
     pdf_dir := fun _ => None |}.


(** ** Vocabulary for the statements about the PDF fallback *)

(** The PDF locators of the history, in the order the loops of
    [_get_most_frequent_pdf_url] meet them. *)
Definition pdf_urls (rag_history : list RagEntry) : list string :=
  filter is_pdf_url (flat_map urls rag_history).

Definition occurrences (l : list string) (url : string) : nat :=
  count_occ string_dec l url.

(** [c[url]] *)
Fixpoint counter_get (url : string) (c : Counter) : nat :=
  match c with
  | [] => 0
  | (k, n) :: rest => if String.eqb k url then n else counter_get url rest
  end.

Definition counter_keys (c : Counter) : list string := map fst c.

(** The counter after [url_counts[url] += 1] for each [url] of [l]. *)
Definition tally (l : list string) : Counter :=
  fold_left (fun c url => counter_incr url c) l [].


(** A page text that [_extract_pages_text] keeps: [page_text.strip()] is not
    empty. *)
Definition has_text (page_text : string) : bool :=
  Py.truthy (Py.strip page_text).

(** The pages of a document with their 1-based numbers. *)
Definition numbered (doc : Pdf) : list (Z * string) :=
  combine (range 1 (_get_page_count doc + 1)) doc.

(** A string made of whitespace only (possibly empty). *)
Fixpoint all_space (s : string) : bool :=
  match s with
  | EmptyString => true
  | String c r => Py.isspace c && all_space r
  end.

(** ** Sample data *)

Definition manual_url : string := "https://www.dell.com/manuals/xps-13.PDF".

Definition manual_file : string := "www.dell.com_manuals_xps-13.PDF-1.pdf".

Definition manual_history : list RagEntry :=
  [ {| query := "xps 13 bios setup";
       context := "[1] BIOS";
       urls := ["https://www.dell.com/support/kb/000123"; manual_url] |} ].

(** A world whose [PDF_DIR] holds one file, the manual, where every LLM call
    but the table-of-contents one times out. *)
Definition library_world (doc : Pdf) (toc : Oracle TOCAnalysis) : World :=
  {| typed := "";
     selected_product := "xps-13";
     gatherer_llm := never APITimeoutError;
     retriever_llm := never APITimeoutError;
     quality_llm := never APITimeoutError;
     formulator_llm := never APITimeoutError;
     feedback_llm := never APITimeoutError;
     clarification_llm := never APITimeoutError;
     toc_llm := toc;
     rag_search := fun _ _ => ("[1] BIOS", flat_map urls manual_history);
     pdf_dir := fun name =>
                  if String.eqb name manual_file then Some doc else None |}.

Definition state_with_history (h : list RagEntry) : AgentState :=
  merge (initial_state "session-1") [Set_rag_history h].

Definition short_manual : Pdf :=
  [ "Safety notes"; "   "; "Press F2 to open the BIOS setup" ].

Definition blank_manual : Pdf := [ " "; Py.LF ].


(** A page number that [_extract_pages_text] keeps: it lies in the document
    and the page has text. *)
Definition page_available (doc : Pdf) (page_num : Z) : bool :=
  ((1 <=? page_num) && (page_num <=? _get_page_count doc))%Z
  && has_text (nth (Z.to_nat (page_num - 1)) doc "").

Definition long_manual : Pdf := repeat "Dell XPS 13 service manual" 50.

(** An answer of the table-of-contents oracle that names 21 pages. *)
Definition greedy_toc : TOCAnalysis :=
  {| has_toc := true;
     relevant_pages := range 11 32;
     most_relevant_section_title := "Troubleshooting";
     toc_reasoning := "several sections apply" |}.

(** An answer of the table-of-contents oracle that names pages 15 to 22. *)
Definition modest_toc : TOCAnalysis :=
  {| has_toc := true;
     relevant_pages := range 15 23;
     most_relevant_section_title := "BIOS setup";
     toc_reasoning := "section 4 covers the setup program" |}.


(** ** Invariants of the control loop *)

(** Nothing of the closing feedback step has been recorded. *)
Definition no_feedback (s : AgentState) : Prop :=
  user_satisfied s = false /\ feedback_collected s = false
  /\ feedback_uncertain s = false.

(** The largest values of [gatherer_attempts] and [retrieval_attempts] a
    node can be entered with. *)
Definition attempts_bound (n : Node) : Z * Z :=
  match n with
  | product_selector | information_gatherer | ask_user_for_details =>
      (MAX_GATHERER_ATTEMPTS - 1, 0)%Z
  | rag_retriever | quality_checker =>
      (MAX_GATHERER_ATTEMPTS, MAX_RETRIEVAL_ATTEMPTS - 1)%Z
  | _ => (MAX_GATHERER_ATTEMPTS, MAX_RETRIEVAL_ATTEMPTS)
  end.

Definition loop_inv (c : Config) : Prop :=
  (0 <= gatherer_attempts (st c) <= fst (attempts_bound (at_node c)))%Z
  /\ (0 <= retrieval_attempts (st c) <= snd (attempts_bound (at_node c)))%Z
  /\ match at_node c with
     | log_result | END =>
         escalated_to_human (st c) = true -> user_satisfied (st c) = false
     | collect_feedback =>
         no_feedback (st c) /\ escalated_to_human (st c) = false
     | _ => no_feedback (st c)
     end.


(** The tickets among some effects. *)
Definition tickets_of (effects : list Output) : list TicketRow :=
  flat_map (fun o => match o with write_ticket t => [t] | _ => [] end)
           effects.

(** The row [log_result_node] hands to [write_ticket]. *)
Definition ticket_for (s : AgentState) : TicketRow :=
  {| ticket_chat_id := chat_id s;
     ticket_product := product_name s;
     ticket_question := classified_question s;
     ticket_answer_given := final_answer s;
     ticket_escalated := escalated_to_human s;
     ticket_description :=
       ticket_text (product_name s) (classified_question s)
                   (escalated_to_human s) (gatherer_attempts s)
                   (retrieval_attempts s) |}.


(** The gatherer call of this world does not report enough information:
    the oracle says so, or the call fails. *)
Definition gatherer_insufficient (w : World) : bool :=
  match response (call_llm (gatherer_llm w)) with
  | Some resp => negb (ig_has_enough_info resp)
  | None => true
  end.

(** The nodes after the information-gathering loop. *)
Definition past_gathering (n : Node) : bool :=
  match n with
  | product_selector | information_gatherer | ask_user_for_details => false
  | _ => true
  end.

(** Number of executions of a node along a run. *)
Definition times_executed (n : Node) (ws : list World) (c : Config) : nat :=
  count_occ Node_eq_dec (executed ws c) n.


(** A world where the gatherer, the retriever and the quality checker
    succeed at once; the formulator and the feedback classifier are
    parameters. *)
Definition support_world (line : string)
  (formulator : Oracle FormulatedAnswer) (feedback : Oracle UserFeedback)
  : World :=
  {| typed := line;
     selected_product := "xps-13";
     gatherer_llm :=
       always {| ig_has_enough_info := true;
                 follow_up_question := "";
                 ig_reasoning := "model and symptom are given";
                 ig_classified_question := "XPS 13 does not power on" |};
     retriever_llm :=
       always {| search_query := "xps 13 no power";
                 rq_reasoning := "symptom" |};
     quality_llm :=
       always {| is_sufficient := true;
                 csa_information_gap := "";
                 csa_reasoning := "covers the symptom" |};
     formulator_llm := formulator;
     feedback_llm := feedback;
     clarification_llm := never APITimeoutError;
     toc_llm := never APITimeoutError;
     rag_search := fun _ _ => ("[1] Power issues", [manual_url]);
     pdf_dir := fun _ => None |}.

Definition good_answer : Oracle FormulatedAnswer :=
  always {| answer := "Hold the power button for 15 seconds.";
            confidence := "high";
            sources_used := "[1]" |}.

(** A formulator that succeeds with an empty answer. *)
Definition empty_answer : Oracle FormulatedAnswer :=
  always {| answer := ""; confidence := "low"; sources_used := "" |}.

Definition uncertain_feedback : Oracle UserFeedback :=
  always {| is_satisfied := true; is_uncertain := true |}.

(** A session: the question, then the user skips the clarification and
    gives a closing remark. *)
Definition session (question remark : string)
  (formulator : Oracle FormulatedAnswer) (feedback : Oracle UserFeedback)
  : list World :=
  (support_world question formulator feedback
   :: repeat (support_world "" formulator feedback) 7
   ++ [ support_world remark formulator feedback;
        support_world "" formulator feedback ])%list.


(** ** Termination measure and the answer invariant *)

Definition retrieval_left (s : AgentState) : nat :=
  Z.to_nat (MAX_RETRIEVAL_ATTEMPTS - 1 - retrieval_attempts s).

Definition gather_left (s : AgentState) : nat :=
  Z.to_nat (MAX_GATHERER_ATTEMPTS - 1 - gatherer_attempts s).

(** A bound on the number of nodes a configuration still executes. *)
Definition steps_left (c : Config) : nat :=
  let s := st c in
  let clarification := if clarification_used s then 0 else 10 in
  (match at_node c with
   | END => 0
   | log_result => 1
   | collect_feedback => 2
   | log_pre_feedback => 3
   | escalate => 4
   | present_fallback_answer => 4
   | pdf_fallback => 5
   | present_answer => 4 + clarification
   | answer_formulator => 5 + clarification
   | quality_checker => 6 + clarification + 2 * retrieval_left s
   | rag_retriever => 7 + clarification + 2 * retrieval_left s
   | clarification_assessor => 12
   | ask_for_clarification => 13
   | information_gatherer =>
       8 + clarification + 2 * retrieval_left s + 2 * gather_left s
   | ask_user_for_details =>
       9 + clarification + 2 * retrieval_left s + 2 * gather_left s
   | product_selector =>
       9 + clarification + 2 * retrieval_left s + 2 * gather_left s
   end)%nat.

(** The formulator call of this world does not return an empty answer. *)
Definition answers_nonempty (w : World) : bool :=
  match response (call_llm (formulator_llm w)) with
  | Some formulated => Py.truthy (answer formulated)
  | None => true
  end.

(** The nodes entered after an answer or an escalation notice was stored. *)
Definition answered (n : Node) : bool :=
  match n with
  | present_answer | present_fallback_answer | ask_for_clarification
  | clarification_assessor | log_pre_feedback | collect_feedback
  | log_result | END => true
  | _ => false
  end.

(** The nodes that can be entered with [escalated_to_human] set. *)
Definition after_escalation (n : Node) : bool :=
  match n with
  | log_pre_feedback | log_result | END => true
  | _ => false
  end.

Definition answer_inv (c : Config) : Prop :=
  (answered (at_node c) = true -> final_answer (st c) <> "")
  /\ (escalated_to_human (st c) = true ->
      after_escalation (at_node c) = true /\ final_answer (st c) = notice).


(** A world for the rounds that follow an actionable clarification: the
    clarification is judged actionable and the quality checker finds the
    context insufficient. *)
Definition second_round_world (line : string) : World :=
  {| typed := line;
     selected_product := "xps-13";
     gatherer_llm := never APITimeoutError;
     retriever_llm :=
       always {| search_query := "xps 13 three beeps";
                 rq_reasoning := "new detail" |};
     quality_llm :=
       always {| is_sufficient := false;
                 csa_information_gap := "beep code table";
                 csa_reasoning := "no beep codes in the context" |};
     formulator_llm := good_answer;
     feedback_llm := uncertain_feedback;
     clarification_llm :=
       always {| is_actionable := true;
                 ca_information_gap := "meaning of three beeps";
                 ca_reasoning := "the beeps were not mentioned before" |};
     toc_llm := never APITimeoutError;
     rag_search := fun _ _ => ("", []);
     pdf_dir := fun _ => None |}.

(** A session whose first answer is followed by an actionable clarification
    and three insufficient retrieval rounds. *)
Definition clarified_session : list World :=
  (support_world "It does not power on" good_answer uncertain_feedback
   :: repeat (support_world "" good_answer uncertain_feedback) 5
   ++ repeat (second_round_world "It beeps three times") 12)%list.


(** ** Further vocabulary: the retry loop *)

(** Seconds spent in [time.sleep]. *)
Fixpoint sleep_total (l : list RetryEvent) : Z :=
  match l with
  | [] => 0
  | Invoke :: rest => sleep_total rest
  | SleepFor seconds :: rest => seconds + sleep_total rest
  end.

(** Number of calls of [time.sleep] among the events. *)
Fixpoint sleep_count (l : list RetryEvent) : nat :=
  match l with
  | [] => 0
  | Invoke :: rest => sleep_count rest
  | SleepFor _ :: rest => S (sleep_count rest)
  end.


(** ** Further vocabulary: outcomes of a session *)

(** The common beginning of the two answers built by [pdf_fallback_node]. *)
Definition fallback_preamble : string :=
  "We could not find an exact answer to your query after multiple "
  ++ "search attempts, but the following ".

(** The nodes that can be entered with [pdf_fallback_used] set. *)
Definition after_fallback (n : Node) : bool :=
  match n with
  | present_fallback_answer | log_pre_feedback | collect_feedback
  | log_result | END => true
  | _ => false
  end.

(** The retrieval loop was left on its last attempt, judged insufficient. *)
Definition exhausted (s : AgentState) : Prop :=
  retrieval_attempts s = MAX_RETRIEVAL_ATTEMPTS
  /\ is_context_sufficient s = false.

Definition outcome_inv (c : Config) : Prop :=
  (escalated_to_human (st c) = true ->
   after_escalation (at_node c) = true
   /\ final_answer (st c) = notice
   /\ pdf_fallback_used (st c) = false
   /\ exhausted (st c))
  /\ (pdf_fallback_used (st c) = true ->
      after_fallback (at_node c) = true
      /\ escalated_to_human (st c) = false
      /\ Py.startswith (final_answer (st c)) fallback_preamble = true
      /\ exhausted (st c))
  /\ (at_node c = pdf_fallback -> exhausted (st c))
  /\ (at_node c = escalate ->
      exhausted (st c) /\ pdf_fallback_used (st c) = false).


(** The clarification round is over or under assessment: the prompt for a
    clarification cannot come again. *)
Definition clarification_settled (c : Config) : Prop :=
  (clarification_used (st c) = true \/ at_node c = clarification_assessor)
  /\ at_node c <> ask_for_clarification.


(** ** Further vocabulary: the support log *)

(** The support-log rows among some effects. *)
Definition logs_of (effects : list Output) : list LogRow :=
  flat_map (fun o => match o with write_support_log r => [r] | _ => [] end)
           effects.

(** What the preliminary row of a session must look like. *)
Definition first_row_ok (s : AgentState) (r : LogRow) : Prop :=
  log_feedback_collected r = false
  /\ log_user_satisfied r = false
  /\ log_feedback_uncertain r = false
  /\ log_escalated r = escalated_to_human s
  /\ log_status r
     = (if escalated_to_human s then "escalated" else "pending_feedback").

(** What the final row of a session must look like. *)
Definition final_row_ok (s : AgentState) (r : LogRow) : Prop :=
  log_feedback_collected r = negb (escalated_to_human s)
  /\ log_user_satisfied r = user_satisfied s
  /\ log_feedback_uncertain r = feedback_uncertain s
  /\ log_escalated r = escalated_to_human s
  /\ log_status r
     = (if escalated_to_human s then "escalated"
        else if user_satisfied s then "success" else "failure").

Definition log_inv (c : Config) : Prop :=
  match at_node c with
  | collect_feedback | log_result =>
      tickets c = []
      /\ exists r1, support_log c = [r1] /\ first_row_ok (st c) r1
  | END =>
      tickets c = (if user_satisfied (st c) then [] else [ticket_for (st c)])
      /\ exists r1 r2,
          support_log c = [r1; r2]
          /\ first_row_ok (st c) r1 /\ final_row_ok (st c) r2
  | _ => tickets c = [] /\ support_log c = []
  end.


(** ** Further vocabulary: file names *)

(** The characters a Windows file name cannot hold, as listed in the
    character class of [_sanitise_url_for_filename]. *)
Definition windows_invalid : list ascii :=
  [Py.BACKSLASH; "/"; ":"; "*"; "?"; Py.DQUOTE; "<"; ">"; "|"]%char.

Definition chars (s : string) : list ascii := list_ascii_of_string s.

(** ** download_and_embed_data/scrape_relevant_urls.py: saving a PDF

    The part of [_scrape_pages] that stores a downloaded PDF (its own
    [_sanitise_url_for_filename] is, line by line, the one of
    agents/pdf_fallback.py):
<<
    base_file_name = _sanitise_url_for_filename(url)
    file_attempt = 1
    while True:
        pdf_filename = f"{base_file_name}-{file_attempt}.pdf"
        pdf_path = PDF_DIR / pdf_filename
        if not pdf_path.exists():
            with open(pdf_path, "wb") as f:
                f.write(pdf_bytes)
            break
        file_attempt += 1
>>
    A file is identified with the document [fitz] reads from it. The loop
    has no bound of its own; [fuel] bounds the number of names tried. *)

Definition Directory : Type := string -> option Pdf.

Definition pdf_filename (base_file_name : string) (file_attempt : Z)
  : string :=
  base_file_name ++ "-" ++ Py.str_of_Z file_attempt ++ ".pdf".

Definition write_file (dir : Directory) (name : string) (doc : Pdf)
  : Directory :=
  fun n => if String.eqb n name then Some doc else dir n.

Fixpoint save_pdf_from (fuel : nat) (dir : Directory)
  (base_file_name : string) (file_attempt : Z) (doc : Pdf)
  : option Directory :=
  match fuel with
  | O => None
  | S fuel' =>
      let name := pdf_filename base_file_name file_attempt in
      match dir name with
      | None => Some (write_file dir name doc)
      | Some _ =>
          save_pdf_from fuel' dir base_file_name (file_attempt + 1) doc
      end
  end.

Definition save_pdf (fuel : nat) (dir : Directory) (url : string) (doc : Pdf)
  : option Directory :=
  save_pdf_from fuel dir (_sanitise_url_for_filename url) 1 doc.

(** The same world with another content of [PDF_DIR]. *)
Definition with_pdf_dir (w : World) (dir : Directory) : World :=
  {| typed := typed w;
     selected_product := selected_product w;
     gatherer_llm := gatherer_llm w;
     retriever_llm := retriever_llm w;
     quality_llm := quality_llm w;
     formulator_llm := formulator_llm w;
     feedback_llm := feedback_llm w;
     clarification_llm := clarification_llm w;
     toc_llm := toc_llm w;
     rag_search := rag_search w;
     pdf_dir := dir |}.


(** ** tools/rag_search.py: [_normalise_product_name] *)

Definition is_dash (c : ascii) : bool := Ascii.eqb c "-".

(** The complement of the character class of the first [re.sub]: a lower
    case letter, a digit or a hyphen. *)
Definition is_slug_char (c : ascii) : bool :=
  let n := nat_of_ascii c in
  (((97 <=? n) && (n <=? 122)) || ((48 <=? n) && (n <=? 57)))%nat
  || is_dash c.

(** [s.replace(" ", "-")] *)
Definition spaces_to_dashes (s : string) : string :=
  Py.map_chars (fun c => if Ascii.eqb c " " then "-"%char else c) s.

(** Removing every character outside the class. *)
Fixpoint keep_slug_chars (s : string) : string :=
  match s with
  | EmptyString => EmptyString
  | String c r =>
      if is_slug_char c then String c (keep_slug_chars r)
      else keep_slug_chars r
  end.

(** The second [re.sub]: every run of hyphens becomes one hyphen. *)
Fixpoint collapse_dashes (s : string) : string :=
  match s with
  | EmptyString => EmptyString
  | String c r =>
      match r with
      | String d _ =>
          if is_dash c && is_dash d then collapse_dashes r
          else String c (collapse_dashes r)
      | EmptyString => String c EmptyString
      end
  end.

(** [s.lstrip("-")] *)
Fixpoint lstrip_dashes (s : string) : string :=
  match s with
  | EmptyString => EmptyString
  | String c r => if is_dash c then lstrip_dashes r else s
  end.

(** [s.rstrip("-")] *)
Fixpoint rstrip_dashes (s : string) : string :=
  match s with
  | EmptyString => EmptyString
  | String c r =>
      match rstrip_dashes r with
      | EmptyString => if is_dash c then EmptyString else String c EmptyString
      | r' => String c r'
      end
  end.

(** [s.strip("-")] *)
Definition strip_dashes (s : string) : string :=
  rstrip_dashes (lstrip_dashes s).

Definition _normalise_product_name (name : string) : string :=
  let normalised := spaces_to_dashes (Py.lower name) in
  let normalised := keep_slug_chars normalised in
  let normalised := strip_dashes (collapse_dashes normalised) in
  normalised.

(** A product slug as the vector store holds it: lower case letters, digits
    and single hyphens, with no hyphen at either end. *)
Fixpoint all_slug_chars (s : string) : bool :=
  match s with
  | EmptyString => true
  | String c r => is_slug_char c && all_slug_chars r
  end.

Fixpoint no_double_dash (s : string) : bool :=
  match s with
  | EmptyString => true
  | String c r =>
      match r with
      | String d _ => negb (is_dash c && is_dash d) && no_double_dash r
      | EmptyString => true
      end
  end.

Definition no_leading_dash (s : string) : bool :=
  match s with
  | EmptyString => true
  | String c _ => negb (is_dash c)
  end.

Fixpoint ends_with_dash (s : string) : bool :=
  match s with
  | EmptyString => false
  | String c r =>
      match r with
      | EmptyString => is_dash c
      | String _ _ => ends_with_dash r
      end
  end.

Definition is_slug (s : string) : bool :=
  all_slug_chars s && no_double_dash s && no_leading_dash s
  && negb (ends_with_dash s).


(** ** Further vocabulary: the cost of a session *)

(** Calls of [structured_llm.invoke] among some effects. *)
Fixpoint llm_calls (effects : list Output) : nat :=
  match effects with
  | [] => 0
  | Llm Invoke :: rest => S (llm_calls rest)
  | _ :: rest => llm_calls rest
  end.

(** Seconds of [time.sleep] among some effects. *)
Fixpoint slept_seconds (effects : list Output) : Z :=
  match effects with
  | [] => 0
  | Llm (SleepFor seconds) :: rest => seconds + slept_seconds rest
  | _ :: rest => slept_seconds rest
  end.

(** The nodes that run the retry loop. *)
Definition llm_node (n : Node) : bool :=
  match n with
  | information_gatherer | rag_retriever | quality_checker
  | answer_formulator | pdf_fallback | clarification_assessor
  | collect_feedback => true
  | _ => false
  end.

(** A bound on the number of nodes with an LLM call that a configuration
    still executes. *)
Definition llm_nodes_left (c : Config) : nat :=
  let s := st c in
  let answer := if clarification_used s then 2 else 10 in
  (match at_node c with
   | END | log_result => 0
   | collect_feedback | log_pre_feedback => 1
   | escalate | present_fallback_answer => 1
   | pdf_fallback => 2
   | present_answer => answer - 1
   | answer_formulator => answer
   | quality_checker => 1 + 2 * retrieval_left s + answer
   | rag_retriever => 2 + 2 * retrieval_left s + answer
   | clarification_assessor | ask_for_clarification => 9
   | information_gatherer | ask_user_for_details | product_selector =>
       3 + gather_left s + 2 * retrieval_left s + answer
   end)%nat.

(** An oracle that times out, hits the rate limit and then answers. *)
Definition third_time_lucky {A : Type} (a : A) : Oracle A :=
  scripted [Raises APITimeoutError; Raises RateLimitError] (Returns a).

(** A world where every LLM call succeeds at its third attempt; the
    gatherer never has enough information, the clarification is
    actionable, and the quality checker answers [sufficient]. *)
Definition patient_world (line : string) (sufficient : bool) : World :=
  {| typed := line;
     selected_product := "xps-13";
     gatherer_llm :=
       third_time_lucky
         {| ig_has_enough_info := false;
            follow_up_question := "Which lights are on?";
            ig_reasoning := "no symptom given";
            ig_classified_question := "" |};
     retriever_llm :=
       third_time_lucky {| search_query := "xps 13 no power";
                           rq_reasoning := "symptom" |};
     quality_llm :=
       third_time_lucky {| is_sufficient := sufficient;
                           csa_information_gap := "power LED codes";
                           csa_reasoning := "" |};
     formulator_llm :=
       third_time_lucky {| answer := "Hold the power button.";
                           confidence := "medium";
                           sources_used := "[1]" |};
     feedback_llm :=
       third_time_lucky {| is_satisfied := true; is_uncertain := false |};
     clarification_llm :=
       third_time_lucky {| is_actionable := true;
                           ca_information_gap := "LED blink pattern";
                           ca_reasoning := "new detail" |};
     toc_llm := third_time_lucky modest_toc;
     rag_search := fun _ _ => ("[1] Power issues", [manual_url]);
     pdf_dir := fun _ => None |}.

(** The longest session in LLM calls: three gatherer rounds, three
    retrieval rounds before the first answer and three more after an
    actionable clarification, every call succeeding at its third attempt. *)
Definition costly_session : list World :=
  let w := patient_world "it is dead" in
  ([ w false; w false; w false; w false; w false; w false ]
   ++ [ w false; w false; w false; w false; w false; w true ]
   ++ [ w true; w true; w true; w true ]
   ++ [ w false; w false; w false; w false; w false; w true ]
   ++ [ w true; w true; w true; w true; w true ])%list.


(** ** Further vocabulary: what retrieval starts from and what it feeds *)

Definition pipeline_inv (c : Config) : Prop :=
  let s := st c in
  (has_enough_info s = false -> classified_question s = "")
  /\ (past_gathering (at_node c) = false -> has_enough_info s = false)
  /\ (past_gathering (at_node c) = true ->
      has_enough_info s = true
      \/ gatherer_attempts s = MAX_GATHERER_ATTEMPTS)
  /\ (retrieval_attempts s
      + (if Node_eq_dec (at_node c) quality_checker then 1 else 0)
      <= Z.of_nat (List.length (rag_history s)))%Z
  /\ (at_node c = answer_formulator \/ at_node c = present_answer ->
      is_context_sufficient s = true /\ information_gap s = ""
      /\ (1 <= retrieval_attempts s)%Z).


(** ** Further vocabulary: what the user is shown *)

(** In the nodes that follow a presentation, the stored answer has been
    printed. *)
Definition shown_inv (c : Config) : Prop :=
  match at_node c with
  | ask_for_clarification | clarification_assessor | log_pre_feedback
  | collect_feedback | log_result | END =>
      In (Print (final_answer (st c))) (out c)
  | _ => True
  end.

(** ** graph.py: the choice of the product in [product_selector_node]

    [int_of] stands for Python's [int(choice)], with [None] for a
    [ValueError]; [candidates] is the list returned by
    [get_product_candidates]. The result is [None] when [candidates[idx]]
    raises an [IndexError]. *)

Definition choose_index (int_of : string -> option Z) (choice : string)
  (candidates : list string) : Z :=
  if (choice =? "") || (choice =? "1") then 0%Z
  else
    match int_of choice with
    | Some v =>
        let idx := (v - 1)%Z in
        if negb ((0 <=? idx) && (idx <? Z.of_nat (List.length candidates)))%Z
        then 0%Z else idx
    | None => 0%Z
    end.

Definition choose_slug (int_of : string -> option Z)
  (product_line choice_line : string) (candidates : list string)
  : option string :=
  let raw := Py.strip product_line in
  if Py.lower raw =? "general" then Some "general"
  else
    let choice := Py.strip choice_line in
    let idx := choose_index int_of choice candidates in
    nth_error candidates (Z.to_nat idx).


(** ** Further vocabulary: call sites and extracted text *)

(** The calls and sleeps of the retry loop among some effects, in order. *)
Definition llm_trace (effects : list Output) : list RetryEvent :=
  flat_map (fun o => match o with Llm e => [e] | _ => [] end) effects.

(** The part of an extract that belongs to one page: the page marker, a
    line feed and the text of the page. *)
Definition page_block (doc : Pdf) (page_num : Z) : string :=
  "--- Page " ++ Py.str_of_Z page_num ++ " ---" ++ Py.LF
  ++ nth (Z.to_nat (page_num - 1)) doc "".

(** The blocks of some pages, separated by an empty line. *)
Definition blocks_of (doc : Pdf) (page_numbers : list Z) : string :=
  Py.join (Py.LF ++ Py.LF) (map (page_block doc) page_numbers).

(** The attempt fails with one of the three transient errors. *)
Definition fails_transiently {A : Type} (o : Oracle A) (attempt : nat)
  : bool :=
  match o attempt with
  | Raises e => is_transient e
  | Returns _ => false
  end.

(** A world whose retriever and formulator succeed at the third attempt and
    whose quality checker fails with a non-transient error. *)
Definition flaky_world : World :=
  {| typed := "It does not power on";
     selected_product := "xps-13";
     gatherer_llm := never APITimeoutError;
     retriever_llm :=
       third_time_lucky {| search_query := "xps 13 no power";
                           rq_reasoning := "symptom" |};
     quality_llm := never (OtherException "validation error");
     formulator_llm :=
       third_time_lucky {| answer := "Hold the power button.";
                           confidence := "medium";
                           sources_used := "[1]" |};
     feedback_llm := never APITimeoutError;
     clarification_llm := never APITimeoutError;
     toc_llm := never APITimeoutError;
     rag_search := fun _ q => ("[1] " ++ q, [manual_url]);
     pdf_dir := fun _ => None |}.

(* ================================================================== *)
(** * Properties *)
(* ================================================================== *)

(** ** The retry loop *)

Section RetryLoop.

Context {A : Type}.
Variable o : Oracle A.

Lemma call_llm_unfold :
  call_llm o = retry_loop o [0; 1; 2]%nat.
Proof. reflexivity. Qed.

(** Two transient failures, then a value. *)
Lemma retry_two_failures_then_success (e0 e1 : Exn) (v : A) :
  o 0%nat = Raises e0 -> is_transient e0 = true ->
  o 1%nat = Raises e1 -> is_transient e1 = true ->
  o 2%nat = Returns v ->
  call_llm o =
    mkRetried (Some v) [Invoke; SleepFor 1; Invoke; SleepFor 2; Invoke].
Proof.
  intros H0 T0 H1 T1 H2.
  rewrite call_llm_unfold. simpl.
  rewrite H0, T0, H1, T1, H2. reflexivity.
Qed.

(** Three transient failures: no value, and no sleep after the last one. *)
Lemma retry_three_failures (e0 e1 e2 : Exn) :
  o 0%nat = Raises e0 -> is_transient e0 = true ->
  o 1%nat = Raises e1 -> is_transient e1 = true ->
  o 2%nat = Raises e2 -> is_transient e2 = true ->
  call_llm o = mkRetried None [Invoke; SleepFor 1; Invoke; SleepFor 2; Invoke].
Proof.
  intros H0 T0 H1 T1 H2 T2.
  rewrite call_llm_unfold. simpl.
  rewrite H0, T0, H1, T1, H2, T2. reflexivity.
Qed.

(** A non-transient error at attempt [k], after [k] transient failures: the
    loop stops there, whatever the oracle would have answered later. *)
Lemma retry_fatal (k : nat) (e : Exn) :
  (k < MAX_RETRIES)%nat ->
  (forall j, (j < k)%nat -> exists t, o j = Raises t /\ is_transient t = true) ->
  o k = Raises e -> is_transient e = false ->
  call_llm o = mkRetried None (failed_attempts k 0).
Proof.
  intros Hk Hbefore Hat Hfatal.
  rewrite call_llm_unfold.
  unfold MAX_RETRIES in Hk.
  destruct k as [|[|[|k]]]; try lia.
  - simpl. rewrite Hat, Hfatal. reflexivity.
  - destruct (Hbefore 0%nat) as (t0 & E0 & T0); [lia|].
    simpl. rewrite E0, T0, Hat, Hfatal. reflexivity.
  - destruct (Hbefore 0%nat) as (t0 & E0 & T0); [lia|].
    destruct (Hbefore 1%nat) as (t1 & E1 & T1); [lia|].
    simpl. rewrite E0, T0, E1, T1, Hat, Hfatal. reflexivity.
Qed.

(** The loop makes at most [MAX_RETRIES] calls. *)
Lemma retry_calls_bounded :
  (calls (events (call_llm o)) <= MAX_RETRIES)%nat.
Proof.
  rewrite call_llm_unfold. unfold MAX_RETRIES, calls. cbn.
  destruct (o 0%nat) as [|e0]; cbn; [lia|].
  destruct (is_transient e0); cbn; [|lia].
  destruct (o 1%nat) as [|e1]; cbn; [lia|].
  destruct (is_transient e1); cbn; [|lia].
  destruct (o 2%nat) as [|e2]; cbn; [lia|].
  destruct (is_transient e2); cbn; lia.
Qed.

End RetryLoop.

(** ** The fallback of each call site *)

Section Fallbacks.

Variable w : World.
Variable s : AgentState.

Lemma gatherer_fallback :
  response (call_llm (gatherer_llm w)) = None ->
  fst (information_gatherer_node w s) =
    [ Set_has_enough_info false;
      Set_gatherer_attempts (gatherer_attempts s + 1);
      Set_messages
        [AIMessage "Could you please provide more details about your issue?"] ].
Proof. intros H. unfold information_gatherer_node. rewrite H. reflexivity. Qed.

Lemma retriever_fallback :
  response (call_llm (retriever_llm w)) = None ->
  let fallback_query := product_name s ++ " " ++ classified_question s in
  let found := rag_search w (product_name s) fallback_query in
  fst (rag_retriever_node w s) =
    [ Set_rag_history
        [{| query := fallback_query;
            context := fst found;
            urls := snd found |}];
      Set_messages
        [AIMessage
           ("RAG search completed (fallback). Query: " ++ fallback_query)] ].
Proof.
  intros H. unfold rag_retriever_node. rewrite H. cbn.
  destruct (rag_search w _ _). reflexivity.
Qed.

Lemma quality_fallback :
  response (call_llm (quality_llm w)) = None ->
  fst (quality_checker_node w s) =
    [ Set_is_context_sufficient false;
      Set_retrieval_attempts (retrieval_attempts s + 1);
      Set_information_gap "Unable to assess context quality due to LLM error";
      Set_messages
        [AIMessage "Context assessment failed. Attempting another search."] ].
Proof. intros H. unfold quality_checker_node. rewrite H. reflexivity. Qed.

Lemma formulator_fallback :
  response (call_llm (formulator_llm w)) = None ->
  fst (answer_formulator_node w s) =
    [ Set_final_answer fallback_answer;
      Set_messages [AIMessage fallback_answer] ].
Proof. intros H. unfold answer_formulator_node. rewrite H. reflexivity. Qed.

Lemma feedback_fallback :
  response (call_llm (feedback_llm w)) = None ->
  fst (feedback_collector_node w s) =
    [ Set_user_satisfied true;
      Set_feedback_collected true;
      Set_feedback_uncertain true;
      Set_messages [HumanMessage (Py.strip (typed w))] ].
Proof. intros H. unfold feedback_collector_node. rewrite H. reflexivity. Qed.

Lemma clarification_fallback :
  response (call_llm (clarification_llm w)) = None ->
  fst (clarification_assessor_node w s) =
    [ Set_clarification_is_actionable false;
      Set_clarification_used true ].
Proof.
  intros H. unfold clarification_assessor_node. rewrite H. reflexivity.
Qed.

(** The table-of-contents call is only made for a document of more than
    [PDF_TOC_PAGE_THRESHOLD] pages; when it fails the node gives up. *)
Lemma toc_fallback :
  response (call_llm (toc_llm w)) = None ->
  fst (pdf_fallback_node w s) = [Set_pdf_fallback_used false]
  \/ exists pdf_url pdf_path,
       _get_most_frequent_pdf_url (rag_history s) = Some pdf_url
       /\ _find_pdf_on_disk w pdf_url = Some pdf_path
       /\ (_get_page_count (fitz_open w pdf_path) <= PDF_TOC_PAGE_THRESHOLD)%Z.
Proof.
  intros H. unfold pdf_fallback_node.
  destruct (_get_most_frequent_pdf_url (rag_history s)) as [url|];
    [|left; reflexivity].
  destruct (_find_pdf_on_disk w url) as [path|] eqn:Hdisk;
    [|left; reflexivity].
  destruct (_get_page_count (fitz_open w path) <=? PDF_TOC_PAGE_THRESHOLD)%Z
    eqn:Hsmall.
  - right. exists url, path.
    split; [reflexivity|]. split; [exact Hdisk|]. now apply Z.leb_le.
  - left. rewrite H.
    destruct (negb (Py.truthy (Py.strip _))); reflexivity.
Qed.

End Fallbacks.

(** ** The loop as each call site runs it *)

Lemma llm_trace_effects {A : Type} (r : Retried A) :
  llm_trace (llm_effects r) = events r.
Proof.
  unfold llm_effects, llm_trace.
  induction (events r) as [|e l IH]; [reflexivity|].
  cbn [map flat_map app]. now rewrite IH.
Qed.

Lemma extract_no_pages (doc : Pdf) : _extract_pages_text doc [] = "".
Proof. reflexivity. Qed.

Section CallSites.

Variable w : World.
Variable s : AgentState.

Lemma gatherer_success (resp : InformationGathererResponse) :
  response (call_llm (gatherer_llm w)) = Some resp ->
  fst (information_gatherer_node w s) =
    if ig_has_enough_info resp
    then [ Set_has_enough_info true;
           Set_classified_question (ig_classified_question resp);
           Set_messages
             [AIMessage
                ("Understood. Issue: " ++ ig_classified_question resp)] ]
    else [ Set_has_enough_info false;
           Set_gatherer_attempts (gatherer_attempts s + 1);
           Set_messages [AIMessage (follow_up_question resp)] ].
Proof.
  intros H. unfold information_gatherer_node. rewrite H.
  destruct (ig_has_enough_info resp); reflexivity.
Qed.

Lemma retriever_success (resp : RAGRetrieverQuery) :
  response (call_llm (retriever_llm w)) = Some resp ->
  let found := rag_search w (product_name s) (search_query resp) in
  fst (rag_retriever_node w s) =
    [ Set_rag_history
        [{| query := search_query resp;
            context := fst found;
            urls := snd found |}];
      Set_messages
        [AIMessage ("RAG search completed. Query: " ++ search_query resp)] ].
Proof.
  intros H. unfold rag_retriever_node. rewrite H. cbn.
  destruct (rag_search w _ _). reflexivity.
Qed.

Lemma quality_success (assessment : ContextSufficiencyAssessment) :
  response (call_llm (quality_llm w)) = Some assessment ->
  fst (quality_checker_node w s) =
    if is_sufficient assessment
    then [ Set_is_context_sufficient true;
           Set_retrieval_attempts (retrieval_attempts s + 1);
           Set_information_gap "" ]
    else [ Set_is_context_sufficient false;
           Set_retrieval_attempts (retrieval_attempts s + 1);
           Set_information_gap (csa_information_gap assessment);
           Set_messages
             [AIMessage
                ("Context insufficient. Information gap: "
                 ++ csa_information_gap assessment)] ].
Proof.
  intros H. unfold quality_checker_node. rewrite H.
  destruct (is_sufficient assessment); reflexivity.
Qed.

Lemma formulator_success (formulated : FormulatedAnswer) :
  response (call_llm (formulator_llm w)) = Some formulated ->
  fst (answer_formulator_node w s) =
    [ Set_final_answer (answer formulated);
      Set_messages [AIMessage (answer formulated)] ].
Proof. intros H. unfold answer_formulator_node. rewrite H. reflexivity. Qed.

Lemma feedback_success (feedback : UserFeedback) :
  response (call_llm (feedback_llm w)) = Some feedback ->
  fst (feedback_collector_node w s) =
    [ Set_user_satisfied
        (if is_uncertain feedback then true else is_satisfied feedback);
      Set_feedback_collected true;
      Set_feedback_uncertain (is_uncertain feedback);
      Set_messages [HumanMessage (Py.strip (typed w))] ].
Proof.
  intros H. unfold feedback_collector_node. rewrite H.
  destruct (is_uncertain feedback); reflexivity.
Qed.

Lemma clarification_success (resp : ClarificationAssessment) :
  response (call_llm (clarification_llm w)) = Some resp ->
  fst (clarification_assessor_node w s) =
    if is_actionable resp
    then [ Set_clarification_is_actionable true;
           Set_clarification_used true;
           Set_information_gap (ca_information_gap resp);
           Set_retrieval_attempts 0 ]
    else [ Set_clarification_is_actionable false;
           Set_clarification_used true ].
Proof.
  intros H. unfold clarification_assessor_node. rewrite H.
  destruct (is_actionable resp); reflexivity.
Qed.

Lemma toc_call_site (pdf_url pdf_path : string) :
  _get_most_frequent_pdf_url (rag_history s) = Some pdf_url ->
  _find_pdf_on_disk w pdf_url = Some pdf_path ->
  (PDF_TOC_PAGE_THRESHOLD < _get_page_count (fitz_open w pdf_path))%Z ->
  Py.truthy (Py.strip (_extract_pages_text (fitz_open w pdf_path)
                         (range 1 (PDF_TOC_PAGE_THRESHOLD + 1)))) = true ->
  llm_trace (snd (pdf_fallback_node w s)) = events (call_llm (toc_llm w))
  /\ forall toc,
       response (call_llm (toc_llm w)) = Some toc ->
       let extracted_text :=
         _extract_pages_text (fitz_open w pdf_path) (relevant_pages toc) in
       let section_note :=
         if Py.truthy (most_relevant_section_title toc)
         then "Relevant section: " ++ most_relevant_section_title toc
              ++ Py.LF
         else "" in
       let fallback_answer :=
         section_answer pdf_url section_note
           (Py.join ", " (map Py.str_of_Z (relevant_pages toc)))
           extracted_text in
       fst (pdf_fallback_node w s) =
         if has_toc toc && Py.truthy (Py.strip extracted_text)
         then [ Set_pdf_fallback_used true;
                Set_final_answer fallback_answer;
                Set_messages [AIMessage fallback_answer] ]
         else [Set_pdf_fallback_used false].
Proof.
  intros Hurl Hdisk Hlarge Hfirst.
  apply Z.leb_gt in Hlarge.
  unfold pdf_fallback_node. rewrite Hurl, Hdisk, Hlarge, Hfirst.
  cbn [negb]. split.
  - destruct (response (call_llm (toc_llm w))) as [toc|];
      [|apply llm_trace_effects].
    destruct (has_toc toc); cbn [negb]; [|apply llm_trace_effects].
    destruct (relevant_pages toc); [apply llm_trace_effects|].
    destruct (negb _); apply llm_trace_effects.
  - intros toc Hresp. rewrite Hresp. cbv zeta.
    destruct (has_toc toc); cbn [negb andb]; [|reflexivity].
    destruct (relevant_pages toc) as [|p ps] eqn:Hp; [reflexivity|].
    destruct (Py.truthy (Py.strip (_extract_pages_text _ (p :: ps))));
      reflexivity.
Qed.

Lemma site_traces :
  llm_trace (snd (information_gatherer_node w s))
  = events (call_llm (gatherer_llm w))
  /\ llm_trace (snd (rag_retriever_node w s))
     = events (call_llm (retriever_llm w))
  /\ llm_trace (snd (quality_checker_node w s))
     = events (call_llm (quality_llm w))
  /\ llm_trace (snd (answer_formulator_node w s))
     = events (call_llm (formulator_llm w))
  /\ llm_trace (snd (feedback_collector_node w s))
     = events (call_llm (feedback_llm w))
  /\ llm_trace (snd (clarification_assessor_node w s))
     = events (call_llm (clarification_llm w)).
Proof. repeat split; apply llm_trace_effects. Qed.

End CallSites.

(** C4. Every call site runs the same loop [call_llm]. With two transient
    failures followed by a success the loop returns the success value, having
    slept 1s and then 2s between its three calls. With three transient
    failures it returns no value after the same two sleeps. With a
    non-transient error at attempt [k] it makes no further call and returns
    no value. Whenever the loop returns no value, each of the seven call
    sites returns its fixed fallback update. Each call site runs the loop
    once on its own oracle: the calls and sleeps it performs are exactly the
    events of that loop, and when the loop returns a value the update of the
    site is built from that value. *)
Theorem oracle_adapter_contract :
  (forall (A : Type) (o : Oracle A),
      (forall e0 e1 v,
          o 0%nat = Raises e0 -> is_transient e0 = true ->
          o 1%nat = Raises e1 -> is_transient e1 = true ->
          o 2%nat = Returns v ->
          call_llm o =
            mkRetried (Some v)
                      [Invoke; SleepFor 1; Invoke; SleepFor 2; Invoke])
      /\ (forall e0 e1 e2,
          o 0%nat = Raises e0 -> is_transient e0 = true ->
          o 1%nat = Raises e1 -> is_transient e1 = true ->
          o 2%nat = Raises e2 -> is_transient e2 = true ->
          call_llm o =
            mkRetried None [Invoke; SleepFor 1; Invoke; SleepFor 2; Invoke])
      /\ (forall k e,
          (k < MAX_RETRIES)%nat ->
          (forall j, (j < k)%nat ->
                     exists t, o j = Raises t /\ is_transient t = true) ->
          o k = Raises e -> is_transient e = false ->
          call_llm o = mkRetried None (failed_attempts k 0)))
  /\ (forall (w : World) (s : AgentState),
      (response (call_llm (gatherer_llm w)) = None ->
       fst (information_gatherer_node w s) =
         [ Set_has_enough_info false;
           Set_gatherer_attempts (gatherer_attempts s + 1);
           Set_messages
             [AIMessage
                "Could you please provide more details about your issue?"] ])
      /\ (response (call_llm (retriever_llm w)) = None ->
          exists q,
            q = product_name s ++ " " ++ classified_question s
            /\ fst (rag_retriever_node w s) =
                 [ Set_rag_history
                     [{| query := q;
                         context := fst (rag_search w (product_name s) q);
                         urls := snd (rag_search w (product_name s) q) |}];
                   Set_messages
                     [AIMessage
                        ("RAG search completed (fallback). Query: " ++ q)] ])
      /\ (response (call_llm (quality_llm w)) = None ->
          fst (quality_checker_node w s) =
            [ Set_is_context_sufficient false;
              Set_retrieval_attempts (retrieval_attempts s + 1);
              Set_information_gap
                "Unable to assess context quality due to LLM error";
              Set_messages
                [AIMessage
                   "Context assessment failed. Attempting another search."] ])
      /\ (response (call_llm (formulator_llm w)) = None ->
          fst (answer_formulator_node w s) =
            [ Set_final_answer fallback_answer;
              Set_messages [AIMessage fallback_answer] ])
      /\ (response (call_llm (feedback_llm w)) = None ->
          fst (feedback_collector_node w s) =
            [ Set_user_satisfied true;
              Set_feedback_collected true;
              Set_feedback_uncertain true;
              Set_messages [HumanMessage (Py.strip (typed w))] ])
      /\ (response (call_llm (clarification_llm w)) = None ->
          fst (clarification_assessor_node w s) =
            [ Set_clarification_is_actionable false;
              Set_clarification_used true ])
      /\ (response (call_llm (toc_llm w)) = None ->
          fst (pdf_fallback_node w s) = [Set_pdf_fallback_used false]
          \/ exists pdf_url pdf_path,
               _get_most_frequent_pdf_url (rag_history s) = Some pdf_url
               /\ _find_pdf_on_disk w pdf_url = Some pdf_path
               /\ (_get_page_count (fitz_open w pdf_path)
                   <= PDF_TOC_PAGE_THRESHOLD)%Z))
  /\ (forall (w : World) (s : AgentState),
      llm_trace (snd (information_gatherer_node w s))
      = events (call_llm (gatherer_llm w))
      /\ llm_trace (snd (rag_retriever_node w s))
         = events (call_llm (retriever_llm w))
      /\ llm_trace (snd (quality_checker_node w s))
         = events (call_llm (quality_llm w))
      /\ llm_trace (snd (answer_formulator_node w s))
         = events (call_llm (formulator_llm w))
      /\ llm_trace (snd (feedback_collector_node w s))
         = events (call_llm (feedback_llm w))
      /\ llm_trace (snd (clarification_assessor_node w s))
         = events (call_llm (clarification_llm w)))
  /\ (forall (w : World) (s : AgentState),
      (forall resp,
          response (call_llm (gatherer_llm w)) = Some resp ->
          fst (information_gatherer_node w s) =
            if ig_has_enough_info resp
            then [ Set_has_enough_info true;
                   Set_classified_question (ig_classified_question resp);
                   Set_messages
                     [AIMessage
                        ("Understood. Issue: "
                         ++ ig_classified_question resp)] ]
            else [ Set_has_enough_info false;
                   Set_gatherer_attempts (gatherer_attempts s + 1);
                   Set_messages [AIMessage (follow_up_question resp)] ])
      /\ (forall resp,
          response (call_llm (retriever_llm w)) = Some resp ->
          let found := rag_search w (product_name s) (search_query resp) in
          fst (rag_retriever_node w s) =
            [ Set_rag_history
                [{| query := search_query resp;
                    context := fst found;
                    urls := snd found |}];
              Set_messages
                [AIMessage
                   ("RAG search completed. Query: " ++ search_query resp)] ])
      /\ (forall assessment,
          response (call_llm (quality_llm w)) = Some assessment ->
          fst (quality_checker_node w s) =
            if is_sufficient assessment
            then [ Set_is_context_sufficient true;
                   Set_retrieval_attempts (retrieval_attempts s + 1);
                   Set_information_gap "" ]
            else [ Set_is_context_sufficient false;
                   Set_retrieval_attempts (retrieval_attempts s + 1);
                   Set_information_gap (csa_information_gap assessment);
                   Set_messages
                     [AIMessage
                        ("Context insufficient. Information gap: "
                         ++ csa_information_gap assessment)] ])
      /\ (forall formulated,
          response (call_llm (formulator_llm w)) = Some formulated ->
          fst (answer_formulator_node w s) =
            [ Set_final_answer (answer formulated);
              Set_messages [AIMessage (answer formulated)] ])
      /\ (forall feedback,
          response (call_llm (feedback_llm w)) = Some feedback ->
          fst (feedback_collector_node w s) =
            [ Set_user_satisfied
                (if is_uncertain feedback then true
                 else is_satisfied feedback);
              Set_feedback_collected true;
              Set_feedback_uncertain (is_uncertain feedback);
              Set_messages [HumanMessage (Py.strip (typed w))] ])
      /\ (forall resp,
          response (call_llm (clarification_llm w)) = Some resp ->
          fst (clarification_assessor_node w s) =
            if is_actionable resp
            then [ Set_clarification_is_actionable true;
                   Set_clarification_used true;
                   Set_information_gap (ca_information_gap resp);
                   Set_retrieval_attempts 0 ]
            else [ Set_clarification_is_actionable false;
                   Set_clarification_used true ]))
  /\ (forall (w : World) (s : AgentState) (pdf_url pdf_path : string),
      _get_most_frequent_pdf_url (rag_history s) = Some pdf_url ->
      _find_pdf_on_disk w pdf_url = Some pdf_path ->
      (PDF_TOC_PAGE_THRESHOLD < _get_page_count (fitz_open w pdf_path))%Z ->
      Py.truthy (Py.strip (_extract_pages_text (fitz_open w pdf_path)
                             (range 1 (PDF_TOC_PAGE_THRESHOLD + 1)))) = true ->
      llm_trace (snd (pdf_fallback_node w s)) = events (call_llm (toc_llm w))
      /\ forall toc,
           response (call_llm (toc_llm w)) = Some toc ->
           let extracted_text :=
             _extract_pages_text (fitz_open w pdf_path) (relevant_pages toc)
           in
           let section_note :=
             if Py.truthy (most_relevant_section_title toc)
             then "Relevant section: " ++ most_relevant_section_title toc
                  ++ Py.LF
             else "" in
           let fallback_answer :=
             section_answer pdf_url section_note
               (Py.join ", " (map Py.str_of_Z (relevant_pages toc)))
               extracted_text in
           fst (pdf_fallback_node w s) =
             if has_toc toc && Py.truthy (Py.strip extracted_text)
             then [ Set_pdf_fallback_used true;
                    Set_final_answer fallback_answer;
                    Set_messages [AIMessage fallback_answer] ]
             else [Set_pdf_fallback_used false]).
Proof.
  split; [|split; [|split; [|split]]].
  - intros A o. repeat split.
    + intros. eapply retry_two_failures_then_success; eassumption.
    + intros. eapply retry_three_failures; eassumption.
    + intros. eapply retry_fatal; eassumption.
  - intros w s. repeat split.
    + apply gatherer_fallback.
    + intros H. eexists. split; [reflexivity|].
      now apply retriever_fallback.
    + apply quality_fallback.
    + apply formulator_fallback.
    + apply feedback_fallback.
    + apply clarification_fallback.
    + apply toc_fallback.
  - intros w s. apply site_traces.
  - intros w s. split; [|split; [|split; [|split; [|split]]]].
    + apply gatherer_success.
    + apply retriever_success.
    + apply quality_success.
    + apply formulator_success.
    + apply feedback_success.
    + apply clarification_success.
  - intros w s pdf_url pdf_path. apply toc_call_site.
Qed.

(** A retriever whose oracle times out, is rate-limited and then answers:
    the node makes three calls with sleeps of 1s and 2s and searches with
    the returned query. A quality checker whose oracle fails with a schema
    error makes one call and returns its fallback. *)
Lemma oracle_adapter_contract_witness :
  let s := initial_state "session-1" in
  (llm_trace (snd (rag_retriever_node flaky_world s))
   = [Invoke; SleepFor 1; Invoke; SleepFor 2; Invoke]
   /\ fst (rag_retriever_node flaky_world s)
      = [ Set_rag_history
            [{| query := "xps 13 no power";
                context := "[1] xps 13 no power";
                urls := [manual_url] |}];
          Set_messages
            [AIMessage "RAG search completed. Query: xps 13 no power"] ])
  /\ (llm_trace (snd (quality_checker_node flaky_world s)) = [Invoke]
      /\ fst (quality_checker_node flaky_world s)
         = [ Set_is_context_sufficient false;
             Set_retrieval_attempts 1;
             Set_information_gap
               "Unable to assess context quality due to LLM error";
             Set_messages
               [AIMessage
                  "Context assessment failed. Attempting another search."] ]).
Proof.
  intros s.
  destruct oracle_adapter_contract as (Hloop & Hfall & Htrace & Hvalue & _).
  destruct (Hloop _ (retriever_llm flaky_world)) as (Hthird & _ & _).
  specialize (Hthird APITimeoutError RateLimitError
                {| search_query := "xps 13 no power";
                   rq_reasoning := "symptom" |}
                eq_refl eq_refl eq_refl eq_refl eq_refl).
  destruct (Hloop _ (quality_llm flaky_world)) as (_ & _ & Hfatal).
  specialize (Hfatal 0%nat (OtherException "validation error")
                ltac:(unfold MAX_RETRIES; lia)
                ltac:(intros j Hj; lia) eq_refl eq_refl).
  destruct (Htrace flaky_world s) as (_ & Hr & Hq & _).
  destruct (Hvalue flaky_world s) as (_ & Hrv & _).
  destruct (Hfall flaky_world s) as (_ & _ & Hqf & _).
  split; split.
  - rewrite Hr, Hthird. reflexivity.
  - rewrite (Hrv _ (f_equal response Hthird)). reflexivity.
  - rewrite Hq, Hfatal. reflexivity.
  - rewrite (Hqf (f_equal response Hfatal)). reflexivity.
Defined.

(** ** The most frequent PDF locator *)

Lemma fold_count_url (l : list string) (c : Counter) :
  fold_left count_url l c =
  fold_left (fun c url => counter_incr url c) (filter is_pdf_url l) c.
Proof.
  revert c. induction l as [|u l IH]; intros c; [reflexivity|].
  cbn [fold_left filter]. unfold count_url at 2.
  destruct (is_pdf_url u); cbn [fold_left]; apply IH.
Qed.

Lemma fold_count_entry (h : list RagEntry) (c : Counter) :
  fold_left count_entry h c = fold_left count_url (flat_map urls h) c.
Proof.
  revert c. induction h as [|e h IH]; intros c; [reflexivity|].
  cbn [fold_left flat_map]. rewrite fold_left_app, IH. reflexivity.
Qed.

Lemma url_counts_tally (h : list RagEntry) :
  url_counts h = tally (pdf_urls h).
Proof.
  unfold url_counts, tally, pdf_urls.
  now rewrite fold_count_entry, fold_count_url.
Qed.

Lemma tally_snoc (l : list string) (u : string) :
  tally (l ++ [u]) = counter_incr u (tally l).
Proof. unfold tally. now rewrite fold_left_app. Qed.

Lemma counter_incr_get (u k : string) (c : Counter) :
  counter_get k (counter_incr u c) =
  if String.eqb u k then S (counter_get k c) else counter_get k c.
Proof.
  induction c as [|[k' n] c IH]; cbn.
  - destruct (String.eqb u k); reflexivity.
  - destruct (String.eqb k' u) eqn:Eu; cbn.
    + apply String.eqb_eq in Eu. subst k'.
      destruct (String.eqb u k); reflexivity.
    + rewrite IH. destruct (String.eqb k' k) eqn:Ek; [|reflexivity].
      apply String.eqb_eq in Ek. subst k'.
      rewrite String.eqb_sym in Eu. now rewrite Eu.
Qed.

Lemma counter_incr_keys_old (u : string) (c : Counter) :
  In u (counter_keys c) -> counter_keys (counter_incr u c) = counter_keys c.
Proof.
  unfold counter_keys.
  induction c as [|[k n] c IH]; cbn [counter_incr map fst In]; [tauto|].
  intros Hin. destruct (String.eqb k u) eqn:Eu; [reflexivity|].
  apply String.eqb_neq in Eu. cbn [map fst]. f_equal. apply IH.
  destruct Hin; [contradiction|assumption].
Qed.

Lemma counter_incr_keys_new (u : string) (c : Counter) :
  ~ In u (counter_keys c) ->
  counter_keys (counter_incr u c) = (counter_keys c ++ [u])%list.
Proof.
  unfold counter_keys.
  induction c as [|[k n] c IH]; cbn [counter_incr map fst In app];
    [reflexivity|].
  intros Hout. destruct (String.eqb k u) eqn:Eu.
  - apply String.eqb_eq in Eu. tauto.
  - cbn [map fst]. f_equal. apply IH. tauto.
Qed.

Lemma tally_get (l : list string) (k : string) :
  counter_get k (tally l) = occurrences l k.
Proof.
  unfold occurrences.
  induction l as [|u l IH] using rev_ind; [reflexivity|].
  rewrite tally_snoc, counter_incr_get, IH, count_occ_app. cbn.
  destruct (string_dec u k) as [->|Hne].
  - rewrite String.eqb_refl. lia.
  - apply String.eqb_neq in Hne. rewrite Hne. lia.
Qed.

Lemma tally_keys (l : list string) (k : string) :
  In k (counter_keys (tally l)) <-> In k l.
Proof.
  induction l as [|u l IH] using rev_ind; [reflexivity|].
  rewrite tally_snoc, in_app_iff.
  destruct (in_dec string_dec u (counter_keys (tally l))) as [Hin|Hout].
  - rewrite counter_incr_keys_old, IH by exact Hin. split; [tauto|].
    intros [H|[<-|[]]]; [exact H|]. now apply IH.
  - rewrite counter_incr_keys_new, in_app_iff, IH by exact Hout. reflexivity.
Qed.

Lemma tally_NoDup (l : list string) : NoDup (counter_keys (tally l)).
Proof.
  induction l as [|u l IH] using rev_ind; [constructor|].
  rewrite tally_snoc.
  destruct (in_dec string_dec u (counter_keys (tally l))) as [Hin|Hout].
  - now rewrite counter_incr_keys_old.
  - rewrite counter_incr_keys_new by exact Hout.
    apply NoDup_app; [exact IH|repeat constructor; intros []|].
    intros x Hx [<-|[]]. contradiction.
Qed.

Lemma counter_get_In (c : Counter) (k : string) (n : nat) :
  NoDup (counter_keys c) -> In (k, n) c -> counter_get k c = n.
Proof.
  unfold counter_keys.
  induction c as [|[k' n'] c IH]; cbn; [tauto|].
  intros Hnd [Heq|Hin].
  - inversion Heq; subst. now rewrite String.eqb_refl.
  - inversion Hnd as [|? ? Hnotin Hnd']; subst.
    destruct (String.eqb k' k) eqn:E.
    + apply String.eqb_eq in E. subst k'.
      exfalso. apply Hnotin. now apply (in_map fst) in Hin.
    + now apply IH.
Qed.

(** The keys of the counter come in the order of their first occurrence:
    whatever precedes the first occurrence of a key in the list is a key
    placed before it in the counter. *)
Lemma tally_order (l : list string) :
  forall ks1 k ks2,
    counter_keys (tally l) = (ks1 ++ k :: ks2)%list ->
    exists pre post,
      l = (pre ++ k :: post)%list /\ ~ In k pre
      /\ forall v, In v pre -> In v ks1.
Proof.
  induction l as [|u l IH] using rev_ind; intros ks1 k ks2 Hk.
  - destruct ks1; discriminate.
  - rewrite tally_snoc in Hk.
    destruct (in_dec string_dec u (counter_keys (tally l))) as [Hin|Hout].
    + rewrite counter_incr_keys_old in Hk by exact Hin.
      destruct (IH _ _ _ Hk) as (pre & post & -> & Hpre & Hsub).
      exists pre, (post ++ [u])%list. rewrite <- app_assoc. auto.
    + rewrite counter_incr_keys_new in Hk by exact Hout.
      destruct ks2 as [|x ks2 _] using rev_ind.
      * apply app_inj_tail in Hk. destruct Hk as [Hks <-].
        exists l, []. split; [reflexivity|]. split.
        -- intros Hl. apply Hout. now apply tally_keys.
        -- intros v Hv. rewrite <- Hks. now apply tally_keys.
      * change (ks1 ++ k :: ks2 ++ [x])%list
          with (ks1 ++ (k :: ks2) ++ [x])%list in Hk.
        rewrite app_assoc in Hk.
        apply app_inj_tail in Hk. destruct Hk as [Hks _].
        destruct (IH _ _ _ Hks) as (pre & post & -> & Hpre & Hsub).
        exists pre, (post ++ [u])%list. rewrite <- app_assoc. auto.
Qed.

(** [max] returns the first item whose count is maximal. *)
Lemma max_by_count_first (items pre mid : Counter) (best : string * nat) :
  (forall y, In y pre -> (snd y < snd best)%nat) ->
  (forall y, In y mid -> (snd y <= snd best)%nat) ->
  exists l1 l2,
    (pre ++ best :: mid ++ items
     = l1 ++ max_by_count best items :: l2)%list
    /\ (forall y, In y l1 -> (snd y < snd (max_by_count best items))%nat)
    /\ (forall y, In y l2 -> (snd y <= snd (max_by_count best items))%nat).
Proof.
  revert pre mid best.
  induction items as [|item items IH]; intros pre mid best Hpre Hmid.
  - exists pre, mid. rewrite app_nil_r. auto.
  - cbn [max_by_count]. destruct (snd best <? snd item)%nat eqn:Hlt.
    + apply Nat.ltb_lt in Hlt.
      destruct (IH (pre ++ best :: mid)%list [] item) as (l1 & l2 & E & H1 & H2).
      * intros y Hy. apply in_app_iff in Hy. destruct Hy as [Hy|[<-|Hy]].
        -- specialize (Hpre y Hy). lia.
        -- exact Hlt.
        -- specialize (Hmid y Hy). lia.
      * intros y [].
      * exists l1, l2. split; [|auto].
        rewrite <- E. rewrite <- app_assoc. reflexivity.
    + apply Nat.ltb_ge in Hlt.
      destruct (IH pre (mid ++ [item])%list best) as (l1 & l2 & E & H1 & H2).
      * exact Hpre.
      * intros y Hy. apply in_app_iff in Hy. destruct Hy as [Hy|[<-|[]]]; auto.
      * exists l1, l2. split; [|auto].
        rewrite <- E. rewrite <- app_assoc. reflexivity.
Qed.

Lemma most_frequent_none (h : list RagEntry) :
  _get_most_frequent_pdf_url h = None <-> pdf_urls h = [].
Proof.
  unfold _get_most_frequent_pdf_url. rewrite url_counts_tally.
  split.
  - intros H. destruct (pdf_urls h) as [|u l]; [reflexivity|].
    assert (Hin : In u (counter_keys (tally (u :: l))))
      by (apply tally_keys; now left).
    destruct (tally (u :: l)); [destruct Hin|discriminate].
  - intros ->. reflexivity.
Qed.

Lemma most_frequent_some (h : list RagEntry) (u : string) :
  _get_most_frequent_pdf_url h = Some u ->
  exists pre post,
    pdf_urls h = (pre ++ u :: post)%list
    /\ ~ In u pre
    /\ (forall v, In v pre ->
                  (occurrences (pdf_urls h) v < occurrences (pdf_urls h) u)%nat)
    /\ (forall v, (occurrences (pdf_urls h) v
                   <= occurrences (pdf_urls h) u)%nat).
Proof.
  unfold _get_most_frequent_pdf_url. rewrite url_counts_tally.
  set (l := pdf_urls h).
  destruct (tally l) as [|first rest] eqn:Ht; [discriminate|].
  cbn [most_common_1]. intros Hu. injection Hu as Hu.
  destruct (max_by_count_first rest [] [] first) as (l1 & l2 & E & H1 & H2);
    [intros y []..|].
  cbn [app] in E. rewrite <- Ht in E.
  set (b := max_by_count first rest) in *.
  assert (Hnd : NoDup (counter_keys (tally l))) by apply tally_NoDup.
  assert (Hcount : forall y, In y (tally l) -> snd y = occurrences l (fst y)).
  { intros [k n] Hy. cbn. rewrite <- tally_get. symmetry.
    now apply counter_get_In. }
  assert (Hb : snd b = occurrences l u).
  { rewrite <- Hu. apply Hcount. rewrite E. apply in_elt. }
  assert (Hkeys : counter_keys (tally l)
                  = (counter_keys l1 ++ u :: counter_keys l2)%list).
  { unfold counter_keys. rewrite E, map_app. cbn. now rewrite Hu. }
  destruct (tally_order l _ _ _ Hkeys) as (pre & post & El & Hpre & Hsub).
  exists pre, post. split; [exact El|]. split; [exact Hpre|]. split.
  - intros v Hv. apply Hsub in Hv. unfold counter_keys in Hv.
    apply in_map_iff in Hv. destruct Hv as (y & <- & Hy).
    rewrite <- Hb, <- (Hcount y).
    + now apply H1.
    + rewrite E. apply in_or_app. now left.
  - intros v. destruct (in_dec string_dec v l) as [Hin|Hout].
    + apply tally_keys in Hin. unfold counter_keys in Hin.
      apply in_map_iff in Hin. destruct Hin as (y & <- & Hy).
      rewrite <- Hb, <- (Hcount y Hy).
      rewrite E in Hy. apply in_app_iff in Hy.
      destruct Hy as [Hy|[<-|Hy]]; [apply H1 in Hy; lia|lia|now apply H2].
    + unfold occurrences.
      rewrite (proj1 (count_occ_not_In string_dec l v) Hout). lia.
Qed.

(** ** Which locators count as PDF *)

Lemma lower_length (s : string) : String.length (Py.lower s) = String.length s.
Proof. induction s; cbn; congruence. Qed.

Lemma lower_app (s t : string) :
  Py.lower (s ++ t) = Py.lower s ++ Py.lower t.
Proof. induction s; cbn; congruence. Qed.

Lemma lower_substring (s : string) (k m : nat) :
  substring k m (Py.lower s) = Py.lower (substring k m s).
Proof.
  revert k m. induction s as [|c s IH]; intros [|k] [|m]; cbn;
    try reflexivity; try apply IH.
  now rewrite IH.
Qed.

Lemma substring_split (s : string) (k m : nat) :
  (k + m = String.length s)%nat ->
  s = substring 0 k s ++ substring k m s.
Proof.
  revert k m. induction s as [|c s IH]; intros k m H; cbn in H.
  - destruct k, m; try discriminate. reflexivity.
  - destruct k as [|k].
    + cbn in H. subst m. cbn. f_equal.
      specialize (IH 0%nat (String.length s) eq_refl).
      destruct s; [reflexivity|]. cbn in IH |- *. exact IH.
    + cbn. f_equal. apply IH. lia.
Qed.

Lemma substring_suffix (p t : string) :
  substring (String.length p) (String.length t) (p ++ t) = t.
Proof.
  induction p as [|c p IH]; cbn.
  - induction t as [|d t IHt]; cbn; [reflexivity|]. now rewrite IHt.
  - exact IH.
Qed.

Lemma app_length_string (s t : string) :
  String.length (s ++ t) = (String.length s + String.length t)%nat.
Proof. induction s; cbn; congruence. Qed.

Lemma endswith_iff (s suf : string) :
  Py.endswith s suf = true <-> exists p, s = p ++ suf.
Proof.
  unfold Py.endswith. rewrite andb_true_iff, Nat.leb_le, String.eqb_eq.
  split.
  - intros [Hle Hsub].
    exists (substring 0 (String.length s - String.length suf) s).
    rewrite <- Hsub at 2. apply substring_split. lia.
  - intros [p ->]. rewrite app_length_string. split; [lia|].
    replace (String.length p + String.length suf - String.length suf)%nat
      with (String.length p) by lia.
    apply substring_suffix.
Qed.

Lemma lower_char_inv (c : ascii) :
  (Py.lower_char c = "."%char -> c = "."%char)
  /\ (Py.lower_char c = "p"%char -> c = "p"%char \/ c = "P"%char)
  /\ (Py.lower_char c = "d"%char -> c = "d"%char \/ c = "D"%char)
  /\ (Py.lower_char c = "f"%char -> c = "f"%char \/ c = "F"%char).
Proof.
  destruct c as [[] [] [] [] [] [] [] []]; vm_compute;
    repeat split; intros H; try discriminate H; auto.
Qed.

(** A locator counts when its last four characters are a dot and the
    letters p, d, f in either case. *)
Lemma is_pdf_url_iff (url : string) :
  is_pdf_url url = true <->
  exists p a b c,
    url = p ++ String "." (String a (String b (String c "")))
    /\ (a = "p" \/ a = "P")%char
    /\ (b = "d" \/ b = "D")%char
    /\ (c = "f" \/ c = "F")%char.
Proof.
  unfold is_pdf_url. rewrite endswith_iff. split.
  - intros [p Hp].
    assert (Hlen : (4 <= String.length url)%nat).
    { rewrite <- lower_length, Hp, app_length_string. cbn. lia. }
    pose proof (substring_split url (String.length url - 4) 4 ltac:(lia))
      as Hsplit.
    set (pre := substring 0 (String.length url - 4) url) in *.
    set (suf := substring (String.length url - 4) 4 url) in *.
    assert (Hsuf : Py.lower suf = ".pdf").
    { unfold suf. rewrite <- lower_substring, Hp.
      replace (String.length url - 4)%nat with (String.length p).
      - apply (substring_suffix p ".pdf").
      - rewrite <- (lower_length url), Hp, app_length_string. cbn. lia. }
    destruct suf as [|x [|a [|b [|c [|? ?]]]]]; try discriminate Hsuf.
    cbn in Hsuf. injection Hsuf as Hx Ha Hb Hc.
    apply (proj1 (lower_char_inv x)) in Hx. subst x.
    exists pre, a, b, c. split; [exact Hsplit|].
    split; [now apply (lower_char_inv a)|].
    split; [now apply (lower_char_inv b)|now apply (lower_char_inv c)].
  - intros (p & a & b & c & -> & Ha & Hb & Hc).
    exists (Py.lower p). rewrite lower_app. f_equal.
    destruct Ha as [-> | ->], Hb as [-> | ->], Hc as [-> | ->]; reflexivity.
Qed.

(** C5. The miner returns nothing exactly when the history holds no locator
    ending in .pdf (in any letter case). Otherwise it returns a PDF locator
    [u] of the history whose number of occurrences among the PDF locators is
    the highest, and every locator met before the first occurrence of [u]
    occurs strictly less often: among tied locators the one first seen
    wins. *)
Theorem most_frequent_pdf_url_spec (rag_history : list RagEntry) :
  (_get_most_frequent_pdf_url rag_history = None
   <-> forall e url, In e rag_history -> In url (urls e) ->
                     is_pdf_url url = false)
  /\ (forall u,
      _get_most_frequent_pdf_url rag_history = Some u ->
      (exists e, In e rag_history /\ In u (urls e))
      /\ (exists p a b c,
             u = p ++ String "." (String a (String b (String c "")))
             /\ (a = "p" \/ a = "P")%char
             /\ (b = "d" \/ b = "D")%char
             /\ (c = "f" \/ c = "F")%char)
      /\ exists pre post,
          pdf_urls rag_history = (pre ++ u :: post)%list
          /\ ~ In u pre
          /\ (forall v, In v pre ->
                (occurrences (pdf_urls rag_history) v
                 < occurrences (pdf_urls rag_history) u)%nat)
          /\ (forall v,
                (occurrences (pdf_urls rag_history) v
                 <= occurrences (pdf_urls rag_history) u)%nat)).
Proof.
  split.
  - rewrite most_frequent_none. unfold pdf_urls. split.
    + intros Hnil e url He Hurl.
      destruct (is_pdf_url url) eqn:Hpdf; [|reflexivity].
      assert (Hin : In url (filter is_pdf_url (flat_map urls rag_history))).
      { apply filter_In. split; [|exact Hpdf].
        apply in_flat_map. now exists e. }
      rewrite Hnil in Hin. destruct Hin.
    + intros Hall.
      destruct (filter is_pdf_url (flat_map urls rag_history)) as [|u l] eqn:E;
        [reflexivity|].
      assert (Hin : In u (filter is_pdf_url (flat_map urls rag_history)))
        by (rewrite E; now left).
      apply filter_In in Hin. destruct Hin as [Hin Hpdf].
      apply in_flat_map in Hin. destruct Hin as (e & He & Hu).
      rewrite (Hall e u He Hu) in Hpdf. discriminate.
  - intros u Hu.
    destruct (most_frequent_some _ _ Hu) as (pre & post & E & Hpre & Hlt & Hle).
    assert (Hin : In u (pdf_urls rag_history)) by (rewrite E; apply in_elt).
    unfold pdf_urls in Hin. apply filter_In in Hin. destruct Hin as [Hin Hpdf].
    split; [now apply in_flat_map|].
    split; [now apply is_pdf_url_iff|].
    exists pre, post. auto.
Qed.

(** ** Blank text *)

Lemma string_app_assoc (a b c : string) : (a ++ b) ++ c = a ++ b ++ c.
Proof. induction a; cbn; congruence. Qed.

Lemma lstrip_empty_iff (s : string) :
  Py.lstrip s = "" <-> all_space s = true.
Proof.
  induction s as [|c s IH]; cbn; [tauto|].
  destruct (Py.isspace c); cbn; [exact IH|]. split; discriminate.
Qed.

Lemma lstrip_app_nonspace (s : string) (c : ascii) :
  Py.isspace c = false -> Py.lstrip (s ++ String c "") <> "".
Proof.
  intros Hc. induction s as [|d s IH]; cbn.
  - rewrite Hc. discriminate.
  - destruct (Py.isspace d); [exact IH|discriminate].
Qed.

Lemma rev_empty (s : string) : Py.rev s = "" -> s = "".
Proof.
  destruct s as [|c s]; [reflexivity|]. cbn.
  destruct (Py.rev s); discriminate.
Qed.

Lemma lstrip_head (s : string) :
  Py.lstrip s = "" \/ exists c r, Py.lstrip s = String c r
                                  /\ Py.isspace c = false.
Proof.
  induction s as [|c s IH]; cbn; [now left|].
  destruct (Py.isspace c) eqn:Hc; [exact IH|].
  right. now exists c, s.
Qed.

(** [s.strip()] is empty exactly when [s] is whitespace only. *)
Lemma strip_truthy (s : string) :
  Py.truthy (Py.strip s) = negb (all_space s).
Proof.
  unfold Py.strip, Py.rstrip.
  destruct (lstrip_head s) as [E|(c & r & E & Hc)].
  - rewrite E. apply lstrip_empty_iff in E. now rewrite E.
  - assert (Hns : all_space s = false).
    { destruct (all_space s) eqn:Hs; [|reflexivity].
      apply lstrip_empty_iff in Hs. congruence. }
    rewrite Hns, E. cbn [Py.rev negb].
    destruct (Py.rev (Py.lstrip (Py.rev r ++ String c ""))) eqn:Hrev;
      [|reflexivity].
    apply rev_empty in Hrev. now apply lstrip_app_nonspace in Hrev.
Qed.

(** ** The text of an extraction *)

Lemma page_in_range (doc : Pdf) (p : Z) :
  ((0 <=? p - 1) && (p - 1 <? Z.of_nat (List.length doc)))%Z
  = ((1 <=? p) && (p <=? _get_page_count doc))%Z.
Proof.
  unfold _get_page_count. f_equal.
  - apply eq_true_iff_eq. rewrite !Z.leb_le. lia.
  - apply eq_true_iff_eq. rewrite Z.leb_le, Z.ltb_lt. lia.
Qed.

Lemma extracted_parts (doc : Pdf) (page_numbers : list Z) :
  map page_part (extracted_pages doc page_numbers)
  = map (page_block doc) (filter (page_available doc) page_numbers).
Proof.
  induction page_numbers as [|p ps IH]; [reflexivity|].
  cbn [extracted_pages filter]. unfold page_available at 1.
  rewrite page_in_range.
  destruct ((1 <=? p) && (p <=? _get_page_count doc))%Z;
    cbn [andb]; [|exact IH].
  unfold has_text.
  destruct (Py.truthy (Py.strip (nth (Z.to_nat (p - 1)) doc "")));
    cbn [map]; now rewrite IH.
Qed.

(** What [_extract_pages_text] returns: the blocks of the requested pages
    that exist and have text, in the order of the request. *)
Lemma extract_pages_text_blocks (doc : Pdf) (page_numbers : list Z) :
  _extract_pages_text doc page_numbers
  = blocks_of doc (filter (page_available doc) page_numbers).
Proof.
  unfold _extract_pages_text, blocks_of. now rewrite extracted_parts.
Qed.

Lemma in_range (lo hi p : Z) : In p (range lo hi) -> (lo <= p < hi)%Z.
Proof.
  unfold range. intros H. apply in_map_iff in H.
  destruct H as (i & <- & Hi). apply in_seq in Hi. lia.
Qed.

Lemma available_all_pages (doc : Pdf) :
  filter (page_available doc) (range 1 (_get_page_count doc + 1))
  = filter (fun p => has_text (nth (Z.to_nat (p - 1)) doc ""))
           (range 1 (_get_page_count doc + 1)).
Proof.
  apply filter_ext_in. intros p Hp. apply in_range in Hp.
  unfold page_available.
  replace ((1 <=? p) && (p <=? _get_page_count doc))%Z with true;
    [reflexivity|].
  symmetry. apply andb_true_iff. split; apply Z.leb_le; lia.
Qed.

Lemma filter_all {A : Type} (f : A -> bool) (l : list A) :
  forallb f l = true -> filter f l = l.
Proof.
  induction l as [|a l IH]; [reflexivity|].
  cbn. destruct (f a); [|discriminate]. cbn. intros H. now rewrite IH.
Qed.

(** ** The small-document branch of the fallback *)

Lemma range_from_1 (n : nat) :
  range 1 (Z.of_nat n + 1) = map (fun i => (1 + Z.of_nat i)%Z) (seq 0 n).
Proof.
  unfold range. replace (Z.to_nat (Z.of_nat n + 1 - 1)) with n by lia.
  reflexivity.
Qed.

Lemma extracted_pages_all (rest pre : Pdf) :
  let numbers :=
    map (fun i => (1 + Z.of_nat i)%Z) (seq (List.length pre) (List.length rest))
  in
  extracted_pages (pre ++ rest)%list numbers =
  filter (fun p => has_text (snd p)) (combine numbers rest).
Proof.
  revert pre. induction rest as [|t rest IH]; intros pre; [reflexivity|].
  cbn [List.length seq map combine filter extracted_pages snd].
  replace (1 + Z.of_nat (List.length pre) - 1)%Z
    with (Z.of_nat (List.length pre)) by lia.
  rewrite Nat2Z.id, nth_middle.
  assert (Hin : ((0 <=? Z.of_nat (List.length pre))
                 && (Z.of_nat (List.length pre)
                     <? Z.of_nat (List.length (pre ++ t :: rest)%list)))%Z
                = true).
  { rewrite length_app. cbn [List.length].
    apply andb_true_iff. split; [apply Z.leb_le|apply Z.ltb_lt]; lia. }
  rewrite Hin. unfold has_text at 1.
  specialize (IH (pre ++ [t])%list).
  rewrite <- app_assoc, length_app in IH. cbn [List.length app] in IH.
  replace (List.length pre + 1)%nat with (S (List.length pre)) in IH by lia.
  cbv zeta in IH. rewrite IH.
  destruct (Py.truthy (Py.strip t)); reflexivity.
Qed.

Lemma extracted_pages_whole (doc : Pdf) :
  extracted_pages doc (range 1 (_get_page_count doc + 1)) =
  filter (fun p => has_text (snd p)) (numbered doc).
Proof.
  unfold numbered, _get_page_count. rewrite range_from_1.
  apply (extracted_pages_all doc []).
Qed.

Lemma merge_pdf_fallback_unused (s : AgentState) :
  pdf_fallback_used (merge s [Set_pdf_fallback_used false]) = false.
Proof. destruct s; reflexivity. Qed.

Lemma merge_pdf_fallback_answer (s : AgentState) (a : string) :
  let s' := merge s [ Set_pdf_fallback_used true; Set_final_answer a;
                      Set_messages [AIMessage a] ] in
  pdf_fallback_used s' = true /\ final_answer s' = a.
Proof. destruct s; split; reflexivity. Qed.

Lemma step_pdf_fallback (w : World) (s : AgentState) (o : list Output) :
  step w (mkConfig pdf_fallback s o) =
  let r := pdf_fallback_node w s in
  mkConfig (route_after_pdf_fallback (merge s (fst r))) (merge s (fst r))
           (o ++ snd r).
Proof. unfold step. cbn. destruct (pdf_fallback_node w s). reflexivity. Qed.

(** C6. When the most cited PDF is found on disk and has at most 10 pages,
    the page list handed to the extraction is 1..page_count and the
    extraction keeps every page that has text: the text it returns is made
    of the blocks (page marker, then the text of the page) of the pages of
    1..page_count that have text, in order. If the extracted text is not
    whitespace-only, the node stores the text preceded by the source locator
    and an all-pages line and the loop goes to present_fallback_answer; if it
    is whitespace-only, the node reports pdf_fallback_used = false and the
    loop goes to escalate. *)
Theorem small_pdf_fallback (w : World) (s : AgentState)
  (pdf_url pdf_path : string) :
  _get_most_frequent_pdf_url (rag_history s) = Some pdf_url ->
  _find_pdf_on_disk w pdf_url = Some pdf_path ->
  (_get_page_count (fitz_open w pdf_path) <= PDF_TOC_PAGE_THRESHOLD)%Z ->
  let doc := fitz_open w pdf_path in
  let page_count := _get_page_count doc in
  let all_pages := range 1 (page_count + 1) in
  let extracted_text := _extract_pages_text doc all_pages in
  all_pages = map Z.of_nat (seq 1 (List.length doc))
  /\ extracted_pages doc all_pages
     = filter (fun p => has_text (snd p)) (numbered doc)
  /\ extracted_text
     = blocks_of doc
         (filter (fun p => has_text (nth (Z.to_nat (p - 1)) doc ""))
                 all_pages)
  /\ (all_space extracted_text = false ->
      fst (pdf_fallback_node w s) =
        [ Set_pdf_fallback_used true;
          Set_final_answer (small_pdf_answer pdf_url page_count extracted_text);
          Set_messages
            [AIMessage (small_pdf_answer pdf_url page_count extracted_text)] ]
      /\ (exists head,
             small_pdf_answer pdf_url page_count extracted_text =
             head ++ "Source: " ++ pdf_url ++ Py.LF
             ++ "Pages: all (" ++ Py.str_of_Z page_count ++ " pages)"
             ++ Py.LF ++ Py.LF ++ extracted_text)
      /\ forall o,
          at_node (step w (mkConfig pdf_fallback s o))
          = present_fallback_answer
          /\ final_answer (st (step w (mkConfig pdf_fallback s o)))
             = small_pdf_answer pdf_url page_count extracted_text)
  /\ (all_space extracted_text = true ->
      fst (pdf_fallback_node w s) = [Set_pdf_fallback_used false]
      /\ forall o,
          at_node (step w (mkConfig pdf_fallback s o)) = escalate
          /\ final_answer (st (step w (mkConfig pdf_fallback s o)))
             = final_answer s).
Proof.
  intros Hurl Hdisk Hsmall doc page_count all_pages extracted_text.
  assert (Hnode : pdf_fallback_node w s =
            if negb (Py.truthy (Py.strip extracted_text))
            then ([Set_pdf_fallback_used false], [])
            else ([ Set_pdf_fallback_used true;
                    Set_final_answer
                      (small_pdf_answer pdf_url page_count extracted_text);
                    Set_messages
                      [AIMessage
                         (small_pdf_answer pdf_url page_count extracted_text)] ],
                  [])).
  { unfold pdf_fallback_node. rewrite Hurl, Hdisk.
    apply Z.leb_le in Hsmall. rewrite Hsmall. reflexivity. }
  rewrite strip_truthy, negb_involutive in Hnode.
  split; [|split; [|split; [|split]]].
  - unfold all_pages, page_count, _get_page_count. rewrite range_from_1.
    rewrite <- seq_shift, map_map. apply map_ext. intros i. lia.
  - apply extracted_pages_whole.
  - unfold extracted_text, all_pages, page_count.
    rewrite extract_pages_text_blocks. f_equal. apply available_all_pages.
  - intros Hne. rewrite Hne in Hnode. split; [now rewrite Hnode|]. split.
    + exists ("We could not find an exact answer to your query after multiple "
              ++ "search attempts, but the following document may contain "
              ++ "useful information." ++ Py.LF ++ Py.LF).
      reflexivity.
    + intros o. rewrite step_pdf_fallback, Hnode. cbn [fst snd].
      destruct (merge_pdf_fallback_answer s
                  (small_pdf_answer pdf_url page_count extracted_text))
        as [Hused Hans].
      cbv zeta. cbn [at_node st]. unfold route_after_pdf_fallback.
      rewrite Hused. split; [reflexivity|exact Hans].
  - intros Hblank. rewrite Hblank in Hnode. split; [now rewrite Hnode|].
    intros o. rewrite step_pdf_fallback, Hnode. cbn [fst snd].
    cbv zeta. cbn [at_node st]. unfold route_after_pdf_fallback.
    rewrite merge_pdf_fallback_unused. split; [reflexivity|].
    destruct s; reflexivity.
Qed.

(** A manual of three pages whose second page is blank gives an answer with
    the blocks of pages 1 and 3; a manual whose two pages are blank gives
    no answer and the loop escalates. *)
Lemma small_pdf_fallback_witness :
  let s := state_with_history manual_history in
  (let w := library_world short_manual (never APITimeoutError) in
   at_node (step w (mkConfig pdf_fallback s [])) = present_fallback_answer
   /\ final_answer (st (step w (mkConfig pdf_fallback s [])))
      = small_pdf_answer manual_url 3
          ("--- Page 1 ---" ++ Py.LF ++ "Safety notes" ++ Py.LF ++ Py.LF
           ++ "--- Page 3 ---" ++ Py.LF
           ++ "Press F2 to open the BIOS setup"))
  /\ (let w := library_world blank_manual (never APITimeoutError) in
      at_node (step w (mkConfig pdf_fallback s [])) = escalate
      /\ fst (pdf_fallback_node w s) = [Set_pdf_fallback_used false]).
Proof.
  intros s. split; intros w.
  - assert (Hsmall : (_get_page_count (fitz_open w manual_file)
                      <= PDF_TOC_PAGE_THRESHOLD)%Z)
      by (vm_compute; discriminate).
    destruct (small_pdf_fallback w s manual_url manual_file
                eq_refl eq_refl Hsmall)
      as (_ & _ & Htext & Hfull & _).
    destruct (Hfull eq_refl) as (_ & _ & Hstep).
    destruct (Hstep []) as [Hnode Hanswer].
    split; [exact Hnode|].
    rewrite Hanswer, Htext. reflexivity.
  - assert (Hsmall : (_get_page_count (fitz_open w manual_file)
                      <= PDF_TOC_PAGE_THRESHOLD)%Z)
      by (vm_compute; discriminate).
    destruct (small_pdf_fallback w s manual_url manual_file
                eq_refl eq_refl Hsmall)
      as (_ & _ & _ & _ & Hblank).
    destruct (Hblank eq_refl) as (Hupdate & Hstep).
    split; [exact (proj1 (Hstep []))|exact Hupdate].
Defined.

(** ** The table-of-contents branch of the fallback *)

Lemma extracted_pages_numbers (doc : Pdf) (page_numbers : list Z) :
  map fst (extracted_pages doc page_numbers)
  = filter (page_available doc) page_numbers.
Proof.
  induction page_numbers as [|p ps IH]; [reflexivity|].
  cbn [extracted_pages filter]. unfold page_available at 1, _get_page_count.
  replace ((0 <=? p - 1) && (p - 1 <? Z.of_nat (List.length doc)))%Z
    with ((1 <=? p) && (p <=? Z.of_nat (List.length doc)))%Z.
  - destruct ((1 <=? p) && (p <=? Z.of_nat (List.length doc)))%Z;
      cbn [andb]; [|exact IH].
    unfold has_text.
    destruct (Py.truthy (Py.strip (nth (Z.to_nat (p - 1)) doc "")));
      cbn [map fst]; now rewrite IH.
  - f_equal.
    + apply eq_true_iff_eq. rewrite !Z.leb_le. lia.
    + apply eq_true_iff_eq. rewrite Z.leb_le, Z.ltb_lt. lia.
Qed.

Lemma extracted_pages_text (doc : Pdf) (page_numbers : list Z) :
  forall p t, In (p, t) (extracted_pages doc page_numbers) ->
              t = nth (Z.to_nat (p - 1)) doc "".
Proof.
  induction page_numbers as [|q ps IH]; intros p t; [intros []|].
  cbn [extracted_pages].
  destruct ((0 <=? q - 1) && (q - 1 <? Z.of_nat (List.length doc)))%Z;
    [|apply IH].
  destruct (Py.truthy (Py.strip (nth (Z.to_nat (q - 1)) doc "")));
    [|apply IH].
  intros [Heq|Hin]; [|now apply IH]. now inversion Heq.
Qed.

Lemma extracted_pages_length (doc : Pdf) (page_numbers : list Z) :
  (List.length (extracted_pages doc page_numbers)
   <= List.length page_numbers)%nat.
Proof.
  rewrite <- (length_map fst), extracted_pages_numbers.
  apply filter_length_le.
Qed.

(** C7 (amended). In the branch for a document of more than 10 pages whose
    first pages have text, when the oracle reports a table of contents, the
    pages extracted are exactly the pages of the oracle's list that exist in
    the document and have text, in the oracle's order and with its
    repetitions, and the text returned is made of the blocks (page marker,
    then the text of the page) of these pages. Their number is bounded by
    the length of the oracle's list, so it is at most 20 when the oracle
    lists at most 20 pages, and it is the length of the list when every
    listed page exists and has text; the node itself applies no cap. A
    non-blank extraction is stored as the answer and the loop goes to
    present_fallback_answer, a blank one routes to escalate. *)
Theorem toc_pdf_fallback (w : World) (s : AgentState)
  (pdf_url pdf_path : string) (toc : TOCAnalysis) :
  _get_most_frequent_pdf_url (rag_history s) = Some pdf_url ->
  _find_pdf_on_disk w pdf_url = Some pdf_path ->
  (PDF_TOC_PAGE_THRESHOLD < _get_page_count (fitz_open w pdf_path))%Z ->
  all_space (_extract_pages_text (fitz_open w pdf_path)
               (range 1 (PDF_TOC_PAGE_THRESHOLD + 1))) = false ->
  response (call_llm (toc_llm w)) = Some toc ->
  has_toc toc = true ->
  let doc := fitz_open w pdf_path in
  let pages := relevant_pages toc in
  let extracted_text := _extract_pages_text doc pages in
  let section_note :=
    if Py.truthy (most_relevant_section_title toc)
    then "Relevant section: " ++ most_relevant_section_title toc ++ Py.LF
    else "" in
  let fallback_answer :=
    section_answer pdf_url section_note
      (Py.join ", " (map Py.str_of_Z pages)) extracted_text in
  map fst (extracted_pages doc pages) = filter (page_available doc) pages
  /\ (List.length (extracted_pages doc pages) <= List.length pages)%nat
  /\ ((List.length pages <= 20)%nat ->
      (List.length (extracted_pages doc pages) <= 20)%nat)
  /\ (all_space extracted_text = false ->
      fst (pdf_fallback_node w s) =
        [ Set_pdf_fallback_used true;
          Set_final_answer fallback_answer;
          Set_messages [AIMessage fallback_answer] ]
      /\ forall o,
          at_node (step w (mkConfig pdf_fallback s o))
          = present_fallback_answer)
  /\ (all_space extracted_text = true ->
      fst (pdf_fallback_node w s) = [Set_pdf_fallback_used false]
      /\ forall o, at_node (step w (mkConfig pdf_fallback s o)) = escalate)
  /\ extracted_text = blocks_of doc (filter (page_available doc) pages)
  /\ (List.length (filter (page_available doc) pages)
      <= List.length pages)%nat
  /\ ((List.length pages <= 20)%nat ->
      (List.length (filter (page_available doc) pages) <= 20)%nat)
  /\ (forallb (page_available doc) pages = true ->
      filter (page_available doc) pages = pages
      /\ extracted_text = blocks_of doc pages)
  /\ (all_space extracted_text = false ->
      forall o,
        final_answer (st (step w (mkConfig pdf_fallback s o)))
        = section_answer pdf_url section_note
            (Py.join ", " (map Py.str_of_Z pages))
            (blocks_of doc (filter (page_available doc) pages))).
Proof.
  intros Hurl Hdisk Hlarge Hfirst Hresp Htoc doc pages extracted_text
         section_note fallback_answer.
  pose proof (extracted_pages_length doc pages) as Hlen.
  pose proof (filter_length_le (page_available doc) pages) as Hflen.
  assert (Htext : extracted_text
                  = blocks_of doc (filter (page_available doc) pages))
    by apply extract_pages_text_blocks.
  assert (Hnode : fst (pdf_fallback_node w s) =
            if all_space extracted_text
            then [Set_pdf_fallback_used false]
            else [ Set_pdf_fallback_used true;
                   Set_final_answer fallback_answer;
                   Set_messages [AIMessage fallback_answer] ]).
  { unfold pdf_fallback_node. rewrite Hurl, Hdisk.
    apply Z.leb_gt in Hlarge. rewrite Hlarge.
    rewrite strip_truthy, Hfirst. cbn [negb]. rewrite Hresp, Htoc.
    cbn [negb]. subst extracted_text fallback_answer section_note.
    fold doc. fold pages.
    destruct pages as [|p ps] eqn:Hpages; [reflexivity|].
    rewrite strip_truthy, negb_involutive.
    destruct (all_space (_extract_pages_text doc (p :: ps))); reflexivity. }
  split; [apply extracted_pages_numbers|].
  split; [exact Hlen|]. split; [lia|]. split; [|split].
  - intros Hne. rewrite Hne in Hnode. split; [exact Hnode|].
    intros o. rewrite step_pdf_fallback. cbv zeta. cbn [at_node].
    rewrite Hnode. unfold route_after_pdf_fallback.
    now rewrite (proj1 (merge_pdf_fallback_answer s fallback_answer)).
  - intros Hblank. rewrite Hblank in Hnode. split; [exact Hnode|].
    intros o. rewrite step_pdf_fallback. cbv zeta. cbn [at_node].
    rewrite Hnode. unfold route_after_pdf_fallback.
    now rewrite merge_pdf_fallback_unused.
  - split; [exact Htext|]. split; [exact Hflen|]. split; [lia|]. split.
    + intros Hall. apply filter_all in Hall.
      split; [exact Hall|]. now rewrite Htext, Hall.
    + intros Hne o. rewrite Hne in Hnode.
      rewrite step_pdf_fallback. cbv zeta. cbn [st]. rewrite Hnode.
      rewrite (proj2 (merge_pdf_fallback_answer s fallback_answer)).
      unfold fallback_answer. now rewrite Htext.
Qed.

(** With a 50-page manual and an oracle answer that names pages 15 to 22,
    the answer holds the blocks of these eight pages. *)
Lemma toc_pdf_fallback_witness :
  let w := library_world long_manual (always modest_toc) in
  let s := state_with_history manual_history in
  map fst (extracted_pages long_manual (relevant_pages modest_toc))
  = [15; 16; 17; 18; 19; 20; 21; 22]%Z
  /\ at_node (step w (mkConfig pdf_fallback s [])) = present_fallback_answer
  /\ final_answer (st (step w (mkConfig pdf_fallback s [])))
     = section_answer manual_url ("Relevant section: BIOS setup" ++ Py.LF)
         "15, 16, 17, 18, 19, 20, 21, 22"
         (Py.join (Py.LF ++ Py.LF)
            (map (fun n => "--- Page " ++ n ++ " ---" ++ Py.LF
                           ++ "Dell XPS 13 service manual")
                 ["15"; "16"; "17"; "18"; "19"; "20"; "21"; "22"])).
Proof.
  intros w s.
  assert (Hurl : _get_most_frequent_pdf_url (rag_history s) = Some manual_url)
    by reflexivity.
  assert (Hdisk : _find_pdf_on_disk w manual_url = Some manual_file)
    by reflexivity.
  assert (Hlarge : (PDF_TOC_PAGE_THRESHOLD
                    < _get_page_count (fitz_open w manual_file))%Z)
    by reflexivity.
  assert (Hfirst : all_space (_extract_pages_text (fitz_open w manual_file)
                                (range 1 (PDF_TOC_PAGE_THRESHOLD + 1))) = false)
    by reflexivity.
  assert (Hresp : response (call_llm (toc_llm w)) = Some modest_toc)
    by reflexivity.
  destruct (toc_pdf_fallback w s manual_url manual_file modest_toc
              Hurl Hdisk Hlarge Hfirst Hresp eq_refl)
    as (Hpages & _ & _ & Hfull & _ & _ & _ & _ & _ & Hanswer).
  split; [|split].
  - exact (eq_trans Hpages eq_refl).
  - exact (proj2 (Hfull eq_refl) []).
  - exact (eq_trans (Hanswer eq_refl []) eq_refl).
Defined.

(** C7 as stated fails: with a 50-page manual and an oracle answer that
    names pages 11 to 31, the answer returned by the node is made of the
    blocks of these 21 pages. *)
Lemma toc_page_cap_counterexample :
  ~ (forall (w : World) (s : AgentState) (pdf_url pdf_path : string)
            (toc : TOCAnalysis),
        _get_most_frequent_pdf_url (rag_history s) = Some pdf_url ->
        _find_pdf_on_disk w pdf_url = Some pdf_path ->
        (PDF_TOC_PAGE_THRESHOLD < _get_page_count (fitz_open w pdf_path))%Z ->
        response (call_llm (toc_llm w)) = Some toc ->
        has_toc toc = true ->
        pdf_fallback_used (st (step w (mkConfig pdf_fallback s []))) = true ->
        forall (returned : list Z) (section_note pages_str : string),
          final_answer (st (step w (mkConfig pdf_fallback s [])))
          = section_answer pdf_url section_note pages_str
              (blocks_of (fitz_open w pdf_path) returned) ->
          (List.length returned <= 20)%nat).
Proof.
  intros H.
  specialize (H (library_world long_manual (always greedy_toc))
                (state_with_history manual_history)
                manual_url manual_file greedy_toc
                eq_refl eq_refl eq_refl eq_refl eq_refl eq_refl
                (range 11 32)
                ("Relevant section: Troubleshooting" ++ Py.LF)
                (Py.join ", " (map Py.str_of_Z (range 11 32)))
                eq_refl).
  vm_compute in H. lia.
Qed.

(** ** The control loop: one step *)

Lemma step_unfold (w : World) (c : Config) :
  at_node c <> END ->
  step w c =
  let r := node_fn (at_node c) w (st c) in
  let s' := merge (st c) (fst r) in
  mkConfig (edge (at_node c) s') s' (out c ++ snd r).
Proof.
  intros Hn. unfold step.
  destruct (at_node c); try congruence;
    destruct (node_fn _ w (st c)); reflexivity.
Qed.

Lemma step_END (w : World) (c : Config) : at_node c = END -> step w c = c.
Proof. intros H. unfold step. now rewrite H. Qed.

Lemma run_cons (w : World) (ws : list World) (c : Config) :
  run (w :: ws) c = run ws (step w c).
Proof. reflexivity. Qed.

Lemma run_snoc (ws : list World) (w : World) (c : Config) :
  run (ws ++ [w]) c = step w (run ws c).
Proof. unfold run. now rewrite fold_left_app. Qed.

(** The update of the fallback node has one of two shapes. *)
Lemma pdf_fallback_shape (w : World) (s : AgentState) :
  fst (pdf_fallback_node w s) = [Set_pdf_fallback_used false]
  \/ exists a,
      a <> ""
      /\ fst (pdf_fallback_node w s) =
           [ Set_pdf_fallback_used true; Set_final_answer a;
             Set_messages [AIMessage a] ].
Proof.
  unfold pdf_fallback_node.
  destruct (_get_most_frequent_pdf_url (rag_history s)) as [url|];
    [|now left].
  destruct (_find_pdf_on_disk w url) as [path|]; [|now left].
  destruct (_get_page_count (fitz_open w path) <=? PDF_TOC_PAGE_THRESHOLD)%Z.
  - destruct (negb (Py.truthy (Py.strip _))); [now left|].
    right. eexists. split; [|reflexivity]. discriminate.
  - destruct (negb (Py.truthy (Py.strip _))); [now left|].
    destruct (response (call_llm (toc_llm w))) as [toc|]; [|now left].
    destruct (negb (has_toc toc)); [now left|].
    destruct (relevant_pages toc); [now left|].
    destruct (negb (Py.truthy (Py.strip _))); [now left|].
    right. eexists. split; [|reflexivity]. discriminate.
Qed.

(** ** Invariants *)

Ltac case_oracle :=
  match goal with
  | |- context [response (call_llm ?o)] =>
      destruct (response (call_llm o)) as [?resp|]
  end.

Ltac case_match :=
  match goal with
  | |- context [match ?x with _ => _ end] => destruct x eqn:?
  | |- context [if ?x then _ else _] => destruct x eqn:?
  end.

Lemma loop_inv_start (cid : string) : loop_inv (start cid).
Proof.
  unfold loop_inv, no_feedback. cbn. repeat split; try lia; discriminate.
Qed.

Lemma loop_inv_step (w : World) (c : Config) :
  loop_inv c -> loop_inv (step w c).
Proof.
  destruct c as [n s o].
  destruct (Node_eq_dec n END) as [->|Hn]; [now rewrite step_END|].
  rewrite step_unfold by exact Hn. cbv zeta. cbn [at_node st out].
  unfold loop_inv, no_feedback. cbn [at_node st out].
  destruct (Node_eq_dec n pdf_fallback) as [->|Hp].
  - cbn [node_fn edge attempts_bound fst snd].
    unfold route_after_pdf_fallback.
    destruct (pdf_fallback_shape w s) as [E|(a & _ & E)]; rewrite E;
      destruct s; cbn; intros H; repeat split; try tauto; lia.
  - destruct s; destruct n; try congruence;
      cbn -[Z.add Z.geb Py.strip call_llm];
      unfold route_after_gatherer, route_after_quality_checker,
        route_after_present_answer, route_after_clarification,
        route_after_clarification_assessor, route_after_log_pre_feedback;
      intros (Hg & Hr & Hf);
      repeat (first [case_oracle | case_match];
              cbn -[Z.add Z.geb Py.strip call_llm] in * );
      repeat match goal with
             | H : (_ >=? _)%Z = true |- _ => apply Z.geb_le in H
             | H : (_ >=? _)%Z = false |- _ =>
                 rewrite Z.geb_leb in H; apply Z.leb_gt in H
             end;
      unfold MAX_GATHERER_ATTEMPTS, MAX_RETRIEVAL_ATTEMPTS in *;
      repeat split; try tauto; try lia; try discriminate; try congruence;
      intros; destruct Hf as [_ Hesc]; congruence.
Qed.

Lemma loop_inv_run (ws : list World) (c : Config) :
  loop_inv c -> loop_inv (run ws c).
Proof.
  revert c. induction ws as [|w ws IH]; intros c Hc; [exact Hc|].
  cbn. apply IH. now apply loop_inv_step.
Qed.

Lemma attempts_bound_max (n : Node) :
  (fst (attempts_bound n) <= MAX_GATHERER_ATTEMPTS)%Z
  /\ (snd (attempts_bound n) <= MAX_RETRIEVAL_ATTEMPTS)%Z.
Proof.
  destruct n; cbn; unfold MAX_GATHERER_ATTEMPTS, MAX_RETRIEVAL_ATTEMPTS; lia.
Qed.

(** C2. Whatever the user types and whatever the oracles answer, after any
    number of steps of a session [gatherer_attempts] is at most
    MAX_GATHERER_ATTEMPTS = 3 and [retrieval_attempts] is at most
    MAX_RETRIEVAL_ATTEMPTS = 3; the retrieval loop is entered with at most 2,
    also after the reset to 0 by an actionable clarification. *)
Theorem attempts_never_exceed_maximum (cid : string) (ws : list World) :
  let c := run ws (start cid) in
  (0 <= gatherer_attempts (st c) <= MAX_GATHERER_ATTEMPTS)%Z
  /\ (0 <= retrieval_attempts (st c) <= MAX_RETRIEVAL_ATTEMPTS)%Z
  /\ (MAX_GATHERER_ATTEMPTS = 3 /\ MAX_RETRIEVAL_ATTEMPTS = 3)%Z
  /\ (at_node c = information_gatherer \/ at_node c = ask_user_for_details ->
      (gatherer_attempts (st c) < MAX_GATHERER_ATTEMPTS)%Z)
  /\ (at_node c = rag_retriever \/ at_node c = quality_checker ->
      (retrieval_attempts (st c) < MAX_RETRIEVAL_ATTEMPTS)%Z).
Proof.
  intros c.
  destruct (loop_inv_run ws (start cid) (loop_inv_start cid))
    as (Hg & Hr & _).
  fold c in Hg, Hr.
  destruct (attempts_bound_max (at_node c)) as [Bg Br].
  split; [lia|]. split; [lia|]. split; [split; reflexivity|]. split.
  - intros [E|E]; rewrite E in Hg; cbn in Hg;
      unfold MAX_GATHERER_ATTEMPTS in *; lia.
  - intros [E|E]; rewrite E in Hr; cbn in Hr;
      unfold MAX_RETRIEVAL_ATTEMPTS in *; lia.
Qed.

(** ** Tickets *)

Lemma tickets_app (c : Config) (effects : list Output) :
  tickets (mkConfig (at_node c) (st c) (out c ++ effects))
  = (tickets c ++ tickets_of effects)%list.
Proof. unfold tickets, tickets_of. cbn. apply flat_map_app. Qed.

Lemma tickets_of_llm {A : Type} (r : Retried A) :
  tickets_of (llm_effects r) = [].
Proof.
  unfold llm_effects, tickets_of.
  induction (events r) as [|e l IH]; [reflexivity|exact IH].
Qed.

(** Only the terminal logging node writes tickets. *)
Lemma tickets_of_node (n : Node) (w : World) (s : AgentState) :
  n <> log_result -> tickets_of (snd (node_fn n w s)) = [].
Proof.
  intros Hn. destruct n; try congruence; cbn [node_fn];
    try reflexivity; try apply tickets_of_llm.
  - unfold ask_user_for_details_node. cbn [snd]. now case_match.
  - unfold pdf_fallback_node.
    repeat first [ apply tickets_of_llm | reflexivity | case_match ].
Qed.

(** The terminal logging node writes a ticket exactly when [user_satisfied]
    is false. *)
Lemma tickets_of_log_result (w : World) (s : AgentState) :
  tickets_of (snd (log_result_node w s))
  = if user_satisfied s then [] else [ticket_for s].
Proof.
  unfold log_result_node. cbn [snd]. destruct (user_satisfied s); reflexivity.
Qed.

Lemma step_tickets (w : World) (c : Config) :
  tickets (step w c)
  = (tickets c
     ++ match at_node c with
        | log_result =>
            if user_satisfied (st c) then [] else [ticket_for (st c)]
        | _ => []
        end)%list.
Proof.
  destruct (Node_eq_dec (at_node c) END) as [E|Hn].
  - rewrite step_END, E by exact E. now rewrite app_nil_r.
  - rewrite step_unfold by exact Hn. cbv zeta.
    unfold tickets at 1. cbn [out]. rewrite flat_map_app.
    fold (tickets c). f_equal.
    fold (tickets_of (snd (node_fn (at_node c) w (st c)))).
    destruct (Node_eq_dec (at_node c) log_result) as [E|Hl].
    + rewrite E. apply tickets_of_log_result.
    + rewrite tickets_of_node by exact Hl. destruct (at_node c); congruence.
Qed.

Lemma no_ticket_before_log_result (cid : string) (ws : list World) :
  at_node (run ws (start cid)) <> END -> tickets (run ws (start cid)) = [].
Proof.
  induction ws as [|w ws IH] using rev_ind; [reflexivity|].
  rewrite run_snoc. set (c := run ws (start cid)) in *.
  intros Hn. rewrite step_tickets.
  destruct (Node_eq_dec (at_node c) END) as [E|Hc].
  - rewrite step_END in Hn by exact E. contradiction.
  - rewrite IH by exact Hc.
    destruct (at_node c) eqn:E; try reflexivity.
    exfalso. apply Hn. rewrite step_unfold by congruence.
    cbv zeta. cbn [at_node]. rewrite E. reflexivity.
Qed.

Lemma step_log_result (w : World) (c : Config) :
  at_node c = log_result ->
  at_node (step w c) = END
  /\ st (step w c) = st c
  /\ exists row,
      support_log (step w c) = (support_log c ++ [row])%list
      /\ log_status row =
           (if escalated_to_human (st c) then "escalated"
            else if user_satisfied (st c) then "success" else "failure")
      /\ log_escalated row = escalated_to_human (st c)
      /\ log_user_satisfied row = user_satisfied (st c)
      /\ log_feedback_uncertain row = feedback_uncertain (st c)
      /\ log_feedback_collected row = negb (escalated_to_human (st c)).
Proof.
  intros Hn. rewrite step_unfold by congruence. cbv zeta. rewrite Hn.
  cbn [node_fn log_result_node fst snd merge fold_left at_node st edge].
  split; [reflexivity|]. split; [reflexivity|].
  eexists. split.
  - unfold support_log. cbn [out]. rewrite flat_map_app. f_equal.
    cbn [flat_map app].
    destruct (negb (user_satisfied (st c))); cbn; reflexivity.
  - cbn. repeat split; reflexivity.
Qed.

(** C1 (amended). In every session, no ticket exists before the terminal
    logging stage, and that stage writes a ticket if and only if
    [user_satisfied] is false, whether or not the session was escalated. A
    session that ended by escalation has skipped the feedback step, so its
    [user_satisfied] is still false: its outcome status is escalated and a
    ticket carrying escalated = true is written for it. *)
Theorem ticket_iff_not_satisfied (cid : string) (ws : list World)
  (w : World) :
  let c := run ws (start cid) in
  at_node c = log_result ->
  tickets c = []
  /\ tickets (step w c)
     = (if user_satisfied (st c) then [] else [ticket_for (st c)])
  /\ (escalated_to_human (st c) = true ->
      user_satisfied (st c) = false
      /\ tickets (step w c) = [ticket_for (st c)]
      /\ ticket_escalated (ticket_for (st c)) = true)
  /\ exists row,
      support_log (step w c) = (support_log c ++ [row])%list
      /\ log_status row =
           (if escalated_to_human (st c) then "escalated"
            else if user_satisfied (st c) then "success" else "failure").
Proof.
  intros c Hn.
  assert (Hnone : tickets c = [])
    by (apply no_ticket_before_log_result; fold c; congruence).
  assert (Hstep : tickets (step w c)
                  = if user_satisfied (st c) then [] else [ticket_for (st c)]).
  { rewrite step_tickets, Hnone, Hn. reflexivity. }
  destruct (loop_inv_run ws (start cid) (loop_inv_start cid))
    as (_ & _ & Hfb).
  fold c in Hfb. rewrite Hn in Hfb.
  split; [exact Hnone|]. split; [exact Hstep|]. split.
  - intros Hesc. specialize (Hfb Hesc). split; [exact Hfb|].
    rewrite Hstep, Hfb. split; [reflexivity|exact Hesc].
  - destruct (step_log_result w c Hn) as (_ & _ & row & Hlog & Hstatus & _).
    now exists row.
Qed.

Lemma ticket_iff_not_satisfied_witness :
  let w := dead_world "it does not boot" in
  let c := run (repeat w 15) (start "session-1") in
  tickets (step w c) = [ticket_for (st c)]
  /\ ticket_escalated (ticket_for (st c)) = true.
Proof.
  intros w c.
  destruct (ticket_iff_not_satisfied "session-1" (repeat w 15) w eq_refl)
    as (_ & _ & Hesc & _).
  destruct (Hesc eq_refl) as (_ & Ht & He).
  split; [exact Ht|exact He].
Defined.

(** C1 as stated fails: in a session that ends by escalation the terminal
    logging stage writes a ticket although the session was escalated. *)
Lemma escalated_session_ticket_counterexample :
  ~ (forall (cid : string) (ws : list World) (w : World),
        let c := run ws (start cid) in
        at_node c = log_result ->
        (tickets (step w c) <> tickets c
         <-> user_satisfied (st c) = false
             /\ escalated_to_human (st c) = false)).
Proof.
  intros H.
  specialize (H "session-1" (repeat (dead_world "it does not boot") 15)
                (dead_world "it does not boot") eq_refl).
  destruct H as [H _].
  assert (Hesc : escalated_to_human
                   (st (run (repeat (dead_world "it does not boot") 15)
                            (start "session-1"))) = true) by reflexivity.
  destruct H as [_ H]; [|congruence].
  vm_compute. discriminate.
Qed.

(** ** The information-gathering loop *)

Lemma run_END (ws : list World) (c : Config) :
  at_node c = END -> run ws c = c.
Proof.
  intros H. induction ws as [|w ws IH]; [reflexivity|].
  cbn. now rewrite step_END.
Qed.

Lemma executed_END (ws : list World) (c : Config) :
  at_node c = END -> executed ws c = [].
Proof. intros H. destruct ws; cbn; [reflexivity|now rewrite H]. Qed.

Lemma executed_cons (w : World) (ws : list World) (c : Config) :
  at_node c <> END ->
  executed (w :: ws) c = at_node c :: executed ws (step w c).
Proof. intros H. cbn. destruct (at_node c); congruence. Qed.

Lemma executed_app (a b : list World) (c : Config) :
  executed (a ++ b) c = (executed a c ++ executed b (run a c))%list.
Proof.
  revert c. induction a as [|w a IH]; intros c; [reflexivity|].
  destruct (Node_eq_dec (at_node c) END) as [E|Hn].
  - rewrite !executed_END, run_END by exact E.
    now rewrite executed_END.
  - rewrite <- app_comm_cons, !executed_cons by exact Hn.
    cbn [run fold_left]. rewrite IH. reflexivity.
Qed.

Lemma past_gathering_step (w : World) (c : Config) :
  past_gathering (at_node c) = true ->
  past_gathering (at_node (step w c)) = true.
Proof.
  intros H.
  destruct (Node_eq_dec (at_node c) END) as [E|Hn];
    [now rewrite step_END|].
  rewrite step_unfold by exact Hn. cbv zeta. cbn [at_node].
  destruct (at_node c); try discriminate H; try reflexivity; cbn [edge];
    unfold route_after_quality_checker, route_after_pdf_fallback,
      route_after_present_answer, route_after_clarification,
      route_after_clarification_assessor, route_after_log_pre_feedback;
    repeat case_match; reflexivity.
Qed.

(** Once the loop has left information gathering it never asks for details
    again. *)
Lemma past_gathering_no_ask (ws : list World) (c : Config) :
  past_gathering (at_node c) = true ->
  times_executed ask_user_for_details ws c = 0%nat
  /\ times_executed information_gatherer ws c = 0%nat.
Proof.
  unfold times_executed.
  revert c. induction ws as [|w ws IH]; intros c H; [now split|].
  destruct (Node_eq_dec (at_node c) END) as [E|Hn].
  - rewrite executed_END by exact E. now split.
  - rewrite executed_cons by exact Hn.
    destruct (IH (step w c) (past_gathering_step w c H)) as [Ha Hg].
    cbn [count_occ].
    destruct (Node_eq_dec (at_node c) ask_user_for_details) as [E|_];
      [rewrite E in H; discriminate|].
    destruct (Node_eq_dec (at_node c) information_gatherer) as [E|_];
      [rewrite E in H; discriminate|].
    now split.
Qed.

Lemma step_product_selector (w : World) (c : Config) :
  at_node c = product_selector ->
  at_node (step w c) = information_gatherer
  /\ gatherer_attempts (st (step w c)) = gatherer_attempts (st c)
  /\ classified_question (st (step w c)) = classified_question (st c).
Proof.
  intros Hn. rewrite step_unfold by congruence. cbv zeta. rewrite Hn.
  destruct c as [n s o]. destruct s. cbn. auto.
Qed.

Lemma step_ask_user_for_details (w : World) (c : Config) :
  at_node c = ask_user_for_details ->
  at_node (step w c) = information_gatherer
  /\ gatherer_attempts (st (step w c)) = gatherer_attempts (st c)
  /\ classified_question (st (step w c)) = classified_question (st c).
Proof.
  intros Hn. rewrite step_unfold by congruence. cbv zeta. rewrite Hn.
  destruct c as [n s o]. destruct s. cbn. auto.
Qed.

Lemma step_gatherer_insufficient (w : World) (c : Config) :
  at_node c = information_gatherer ->
  gatherer_insufficient w = true ->
  at_node (step w c)
  = (if (gatherer_attempts (st c) + 1 >=? MAX_GATHERER_ATTEMPTS)%Z
     then rag_retriever else ask_user_for_details)
  /\ gatherer_attempts (st (step w c)) = (gatherer_attempts (st c) + 1)%Z
  /\ classified_question (st (step w c)) = classified_question (st c)
  /\ has_enough_info (st (step w c)) = false.
Proof.
  intros Hn Hw. rewrite step_unfold by congruence. cbv zeta. rewrite Hn.
  unfold gatherer_insufficient in Hw.
  destruct c as [n s o]. destruct s.
  cbn -[Z.add Z.geb call_llm].
  destruct (response (call_llm (gatherer_llm w))) as [resp|].
  - rewrite Hw. cbn -[Z.add Z.geb]. unfold route_after_gatherer.
    cbn -[Z.add Z.geb]. auto.
  - cbn -[Z.add Z.geb]. unfold route_after_gatherer.
    cbn -[Z.add Z.geb]. auto.
Qed.

(** C3 (amended). In a session where the gatherer never obtains enough
    information, the first six nodes executed are product_selector, then
    information_gatherer three times with ask_user_for_details between them:
    ask_user_for_details runs exactly twice and information_gatherer exactly
    three times in the whole session. The loop then goes to rag_retriever
    with gatherer_attempts = 3 and the classified question still empty. *)
Theorem gathering_asks_twice (cid : string) (ws : list World) :
  forallb gatherer_insufficient ws = true ->
  (6 <= List.length ws)%nat ->
  let c := run (firstn 6 ws) (start cid) in
  executed (firstn 6 ws) (start cid)
  = [ product_selector; information_gatherer; ask_user_for_details;
      information_gatherer; ask_user_for_details; information_gatherer ]
  /\ at_node c = rag_retriever
  /\ gatherer_attempts (st c) = MAX_GATHERER_ATTEMPTS
  /\ has_enough_info (st c) = false
  /\ classified_question (st c) = ""
  /\ times_executed ask_user_for_details ws (start cid) = 2%nat
  /\ times_executed information_gatherer ws (start cid) = 3%nat.
Proof.
  intros Hall Hlen.
  destruct ws as [|w1 [|w2 [|w3 [|w4 [|w5 [|w6 rest]]]]]];
    cbn [List.length] in Hlen; try lia.
  cbn [forallb] in Hall.
  repeat (apply andb_true_iff in Hall; destruct Hall as [? Hall]).
  cbn [firstn run fold_left].
  assert (Hrun : run [w1; w2; w3; w4; w5; w6] (start cid)
                 = step w6 (step w5 (step w4 (step w3 (step w2
                     (step w1 (start cid)))))))
    by reflexivity.
  assert (N0 : at_node (start cid) = product_selector) by reflexivity.
  assert (G0 : gatherer_attempts (st (start cid)) = 0%Z) by reflexivity.
  assert (Q0 : classified_question (st (start cid)) = "") by reflexivity.
  remember (start cid) as c0 eqn:E0.
  remember (step w1 c0) as c1 eqn:E1.
  remember (step w2 c1) as c2 eqn:E2.
  remember (step w3 c2) as c3 eqn:E3.
  remember (step w4 c3) as c4 eqn:E4.
  remember (step w5 c4) as c5 eqn:E5.
  remember (step w6 c5) as c6 eqn:E6.
  destruct (step_product_selector w1 c0 N0) as (N1 & G1 & Q1).
  rewrite <- E1 in N1, G1, Q1. rewrite G0 in G1. rewrite Q0 in Q1.
  destruct (step_gatherer_insufficient w2 c1 N1) as (N2 & G2 & Q2 & _);
    [assumption|].
  rewrite <- E2 in N2, G2, Q2. rewrite G1 in N2, G2. rewrite Q1 in Q2.
  cbn in N2, G2.
  destruct (step_ask_user_for_details w3 c2 N2) as (N3 & G3 & Q3).
  rewrite <- E3 in N3, G3, Q3. rewrite G2 in G3. rewrite Q2 in Q3.
  destruct (step_gatherer_insufficient w4 c3 N3) as (N4 & G4 & Q4 & _);
    [assumption|].
  rewrite <- E4 in N4, G4, Q4. rewrite G3 in N4, G4. rewrite Q3 in Q4.
  cbn in N4, G4.
  destruct (step_ask_user_for_details w5 c4 N4) as (N5 & G5 & Q5).
  rewrite <- E5 in N5, G5, Q5. rewrite G4 in G5. rewrite Q4 in Q5.
  destruct (step_gatherer_insufficient w6 c5 N5) as (N6 & G6 & Q6 & H6);
    [assumption|].
  rewrite <- E6 in N6, G6, Q6, H6. rewrite G5 in N6, G6. rewrite Q5 in Q6.
  cbn in N6, G6.
  assert (Hexec : executed [w1; w2; w3; w4; w5; w6] c0
                  = [ product_selector; information_gatherer;
                      ask_user_for_details; information_gatherer;
                      ask_user_for_details; information_gatherer ]).
  { rewrite executed_cons, <- E1 by congruence.
    rewrite executed_cons, <- E2 by congruence.
    rewrite executed_cons, <- E3 by congruence.
    rewrite executed_cons, <- E4 by congruence.
    rewrite executed_cons, <- E5 by congruence.
    rewrite executed_cons, <- E6 by congruence.
    rewrite N0, N1, N2, N3, N4, N5. reflexivity. }
  split; [exact Hexec|]. split; [exact N6|]. split; [exact G6|].
  split; [exact H6|]. split; [exact Q6|].
  change (w1 :: w2 :: w3 :: w4 :: w5 :: w6 :: rest)
    with ([w1; w2; w3; w4; w5; w6] ++ rest)%list.
  unfold times_executed. rewrite executed_app, !count_occ_app, Hexec, Hrun.
  destruct (past_gathering_no_ask rest c6) as [Ha Hg];
    [rewrite N6; reflexivity|].
  unfold times_executed in Ha, Hg. rewrite Ha, Hg. split; reflexivity.
Qed.

Lemma gathering_asks_twice_witness :
  let ws := repeat (dead_world "screen is blank") 30 in
  times_executed ask_user_for_details ws (start "session-1") = 2%nat
  /\ at_node (run (firstn 6 ws) (start "session-1")) = rag_retriever.
Proof.
  intros ws.
  destruct (gathering_asks_twice "session-1" ws eq_refl)
    as (_ & Hnode & _ & _ & _ & Hask & _).
  - vm_compute. lia.
  - split; [exact Hask|exact Hnode].
Defined.

(** C3 as stated fails: with a gatherer that never has enough information
    the loop reaches rag_retriever after asking the user twice, not three
    times. *)
Lemma three_prompts_counterexample :
  ~ (forall (cid : string) (ws : list World),
        forallb gatherer_insufficient ws = true ->
        at_node (run ws (start cid)) = rag_retriever ->
        times_executed ask_user_for_details ws (start cid) = 3%nat).
Proof.
  intros H.
  specialize (H "session-1" (repeat (dead_world "screen is blank") 6)
                eq_refl eq_refl).
  vm_compute in H. discriminate H.
Qed.

(** ** Closing feedback *)

Lemma step_collect_feedback (w : World) (c : Config) :
  at_node c = collect_feedback ->
  at_node (step w c) = log_result
  /\ escalated_to_human (st (step w c)) = escalated_to_human (st c)
  /\ final_answer (st (step w c)) = final_answer (st c)
  /\ feedback_collected (st (step w c)) = true
  /\ match response (call_llm (feedback_llm w)) with
     | None =>
         user_satisfied (st (step w c)) = true
         /\ feedback_uncertain (st (step w c)) = true
     | Some fb =>
         if is_uncertain fb then
           user_satisfied (st (step w c)) = true
           /\ feedback_uncertain (st (step w c)) = true
         else
           user_satisfied (st (step w c)) = is_satisfied fb
           /\ feedback_uncertain (st (step w c)) = false
     end.
Proof.
  intros Hn. rewrite step_unfold by congruence. cbv zeta. rewrite Hn.
  destruct c as [n s o]. destruct s.
  cbn -[call_llm Py.strip].
  destruct (response (call_llm (feedback_llm w))) as [fb|];
    [destruct (is_uncertain fb)|]; cbn; repeat split; reflexivity.
Qed.

(** C9. When the closing input is classified as uncertain, the session
    records user_satisfied = true and feedback_uncertain = true, the row
    written by the terminal logging stage has status success, and the session
    ends without any ticket. *)
Theorem uncertain_feedback_is_success (cid : string) (ws : list World)
  (w : World) (fb : UserFeedback) :
  at_node (run ws (start cid)) = collect_feedback ->
  response (call_llm (feedback_llm w)) = Some fb ->
  is_uncertain fb = true ->
  let c := step w (run ws (start cid)) in
  at_node c = log_result
  /\ user_satisfied (st c) = true
  /\ feedback_uncertain (st c) = true
  /\ forall w',
      at_node (step w' c) = END
      /\ tickets (step w' c) = []
      /\ exists row,
          support_log (step w' c) = (support_log c ++ [row])%list
          /\ log_status row = "success"
          /\ log_user_satisfied row = true
          /\ log_feedback_uncertain row = true.
Proof.
  intros Hn Hresp Hunc c.
  destruct (loop_inv_run ws (start cid) (loop_inv_start cid))
    as (_ & _ & Hfb).
  rewrite Hn in Hfb. destruct Hfb as [_ Hesc].
  destruct (step_collect_feedback w _ Hn) as (Hnode & He & _ & _ & Hsat).
  fold c in Hnode, He, Hsat. rewrite Hresp, Hunc in Hsat.
  destruct Hsat as [Hsat Hflag]. rewrite Hesc in He.
  split; [exact Hnode|]. split; [exact Hsat|]. split; [exact Hflag|].
  intros w'.
  destruct (step_log_result w' c Hnode)
    as (Hend & _ & row & Hlog & Hstatus & _ & Hrs & Hru & _).
  split; [exact Hend|]. split.
  - rewrite step_tickets, Hnode, Hsat, app_nil_r.
    unfold c. rewrite <- run_snoc.
    apply no_ticket_before_log_result.
    rewrite run_snoc. fold c. congruence.
  - exists row. rewrite He, Hsat in Hstatus.
    split; [exact Hlog|]. split; [exact Hstatus|].
    split; congruence.
Qed.

Lemma uncertain_feedback_is_success_witness :
  let ws := session "It does not power on" "I guess it is okay"
                    good_answer uncertain_feedback in
  let c := run (firstn 9 ws) (start "session-1") in
  user_satisfied (st c) = true /\ feedback_uncertain (st c) = true
  /\ tickets (step (support_world "" good_answer uncertain_feedback) c) = [].
Proof.
  intros ws c.
  destruct (uncertain_feedback_is_success "session-1" (firstn 8 ws)
              (support_world "I guess it is okay" good_answer
                             uncertain_feedback)
              {| is_satisfied := true; is_uncertain := true |}
              eq_refl eq_refl eq_refl)
    as (_ & Hsat & Hflag & Hend).
  split; [exact Hsat|]. split; [exact Hflag|].
  exact (proj1 (proj2 (Hend _))).
Defined.

(** ** After the answer formulator *)

Lemma step_answer_formulator (w : World) (c : Config) :
  at_node c = answer_formulator ->
  at_node (step w c) = present_answer
  /\ final_answer (st (step w c))
     = match response (call_llm (formulator_llm w)) with
       | Some formulated => answer formulated
       | None => fallback_answer
       end
  /\ clarification_used (st (step w c)) = clarification_used (st c)
  /\ escalated_to_human (st (step w c)) = escalated_to_human (st c).
Proof.
  intros Hn. rewrite step_unfold by congruence. cbv zeta. rewrite Hn.
  destruct c as [n s o]. destruct s.
  cbn -[call_llm fallback_answer].
  destruct (response (call_llm (formulator_llm w))); cbn; auto.
Qed.

Lemma step_present_answer (w : World) (c : Config) :
  at_node c = present_answer ->
  at_node (step w c)
  = (if clarification_used (st c) then log_pre_feedback
     else ask_for_clarification)
  /\ final_answer (st (step w c)) = final_answer (st c)
  /\ clarification_used (st (step w c)) = clarification_used (st c)
  /\ escalated_to_human (st (step w c)) = false
  /\ In (Print (final_answer (st c))) (out (step w c)).
Proof.
  intros Hn. rewrite step_unfold by congruence. cbv zeta. rewrite Hn.
  destruct c as [n s o]. destruct s.
  cbn -[rule Py.LF]. repeat split.
  apply in_or_app. right. cbn. auto.
Qed.

Lemma step_ask_for_clarification_skip (w : World) (c : Config) :
  at_node c = ask_for_clarification ->
  Py.strip (typed w) = "" ->
  at_node (step w c) = log_pre_feedback
  /\ final_answer (st (step w c)) = final_answer (st c)
  /\ clarification_used (st (step w c)) = true
  /\ escalated_to_human (st (step w c)) = escalated_to_human (st c).
Proof.
  intros Hn Hblank. rewrite step_unfold by congruence. cbv zeta. rewrite Hn.
  destruct c as [n s o]. destruct s.
  cbn -[Py.strip]. rewrite Hblank. cbn. auto.
Qed.

Lemma step_log_pre_feedback (w : World) (c : Config) :
  at_node c = log_pre_feedback ->
  at_node (step w c)
  = (if escalated_to_human (st c) then log_result else collect_feedback)
  /\ st (step w c) = st c.
Proof.
  intros Hn. rewrite step_unfold by congruence. cbv zeta. rewrite Hn.
  cbn. auto.
Qed.

(** From the preliminary log of a session that is not escalated, the loop
    collects feedback, writes the final log and ends. *)
Lemma closing_path (w1 w2 w3 : World) (c : Config) :
  at_node c = log_pre_feedback ->
  escalated_to_human (st c) = false ->
  executed [w1; w2; w3] c = [log_pre_feedback; collect_feedback; log_result]
  /\ at_node (run [w1; w2; w3] c) = END
  /\ final_answer (st (run [w1; w2; w3] c)) = final_answer (st c)
  /\ escalated_to_human (st (run [w1; w2; w3] c)) = false.
Proof.
  intros Hn Hesc. cbn [run fold_left].
  destruct (step_log_pre_feedback w1 c Hn) as (N1 & S1).
  rewrite Hesc in N1.
  remember (step w1 c) as c1 eqn:E1.
  destruct (step_collect_feedback w2 c1 N1) as (N2 & X2 & F2 & _).
  remember (step w2 c1) as c2 eqn:E2.
  destruct (step_log_result w3 c2 N2) as (N3 & S3 & _).
  remember (step w3 c2) as c3 eqn:E3.
  split.
  - rewrite executed_cons, <- E1 by congruence.
    rewrite executed_cons, <- E2 by congruence.
    rewrite executed_cons, <- E3 by congruence.
    rewrite Hn, N1, N2. reflexivity.
  - split; [exact N3|]. rewrite S3, F2, X2, S1. auto.
Qed.

(** C10. When the answer formulator obtains no response, [final_answer]
    becomes the fixed apology, the next node is present_answer, which prints
    it and sets escalated_to_human = false, and the loop goes on to
    ask_for_clarification (or to log_pre_feedback when a clarification was
    already used), never to escalate. If the user skips the clarification
    the session runs through log_pre_feedback, collect_feedback and
    log_result and ends, not escalated, with the apology as its answer. *)
Theorem formulator_failure_apology (w1 w2 : World) (s : AgentState)
  (o : list Output) :
  response (call_llm (formulator_llm w1)) = None ->
  let c0 := mkConfig answer_formulator s o in
  let c1 := step w1 c0 in
  let c2 := step w2 c1 in
  fallback_answer
  = "I apologise, but I am currently unable to formulate a response. "
    ++ "Please try again later or contact Dell support directly."
  /\ at_node c1 = present_answer
  /\ final_answer (st c1) = fallback_answer
  /\ at_node c2 = (if clarification_used s then log_pre_feedback
                   else ask_for_clarification)
  /\ final_answer (st c2) = fallback_answer
  /\ escalated_to_human (st c2) = false
  /\ In (Print fallback_answer) (out c2)
  /\ (clarification_used s = false ->
      forall w3 w4 w5 w6,
        Py.strip (typed w3) = "" ->
        let ws := [w1; w2; w3; w4; w5; w6] in
        executed ws c0
        = [ answer_formulator; present_answer; ask_for_clarification;
            log_pre_feedback; collect_feedback; log_result ]
        /\ at_node (run ws c0) = END
        /\ final_answer (st (run ws c0)) = fallback_answer
        /\ escalated_to_human (st (run ws c0)) = false)
  /\ (clarification_used s = true ->
      forall w3 w4 w5,
        let ws := [w1; w2; w3; w4; w5] in
        executed ws c0
        = [ answer_formulator; present_answer; log_pre_feedback;
            collect_feedback; log_result ]
        /\ at_node (run ws c0) = END
        /\ final_answer (st (run ws c0)) = fallback_answer
        /\ escalated_to_human (st (run ws c0)) = false).
Proof.
  intros Hfail c0 c1 c2.
  assert (N0 : at_node c0 = answer_formulator) by reflexivity.
  assert (U0 : clarification_used (st c0) = clarification_used s)
    by reflexivity.
  destruct (step_answer_formulator w1 c0 N0) as (N1 & F1 & U1 & _).
  fold c1 in N1, F1, U1. rewrite Hfail in F1. rewrite U0 in U1.
  destruct (step_present_answer w2 c1 N1) as (N2 & F2 & U2 & X2 & P2).
  fold c2 in N2, F2, U2, X2, P2. rewrite F1 in F2, P2. rewrite U1 in N2, U2.
  assert (E12 : forall rest,
             executed (w1 :: w2 :: rest) c0
             = answer_formulator :: present_answer :: executed rest c2).
  { intros rest.
    rewrite executed_cons by (rewrite N0; discriminate). fold c1.
    rewrite executed_cons by (rewrite N1; discriminate). fold c2.
    now rewrite N0, N1. }
  assert (R12 : forall rest, run (w1 :: w2 :: rest) c0 = run rest c2)
    by (intros rest; now rewrite !run_cons).
  clearbody c0 c1 c2.
  split; [reflexivity|]. split; [exact N1|]. split; [exact F1|].
  split; [exact N2|]. split; [exact F2|]. split; [exact X2|].
  split; [exact P2|]. split.
  - intros Hunused w3 w4 w5 w6 Hblank ws. subst ws. rewrite Hunused in N2.
    destruct (step_ask_for_clarification_skip w3 c2 N2 Hblank)
      as (N3 & F3 & _ & X3).
    rewrite F2 in F3. rewrite X2 in X3.
    destruct (closing_path w4 w5 w6 (step w3 c2) N3 X3)
      as (Hexec & Hend & Hans & Hesc).
    rewrite E12, R12.
    rewrite executed_cons by (rewrite N2; discriminate).
    rewrite N2, Hexec.
    rewrite (run_cons w3).
    split; [reflexivity|]. split; [exact Hend|].
    rewrite Hans, F3. auto.
  - intros Hused w3 w4 w5 ws. subst ws. rewrite Hused in N2.
    destruct (closing_path w3 w4 w5 c2 N2 X2)
      as (Hexec & Hend & Hans & Hesc).
    rewrite E12, R12, Hexec.
    split; [reflexivity|]. split; [exact Hend|].
    rewrite Hans, F2. auto.
Qed.

Lemma formulator_failure_apology_witness :
  let ws := session "It does not power on" "yes, thanks"
                    (never (OtherException "schema mismatch"))
                    uncertain_feedback in
  let c := run ws (start "session-1") in
  at_node c = END
  /\ final_answer (st c) = fallback_answer
  /\ escalated_to_human (st c) = false
  /\ pdf_fallback_used (st c) = false.
Proof.
  intros ws c.
  set (w := support_world "" (never (OtherException "schema mismatch"))
                          uncertain_feedback).
  set (wr := support_world "yes, thanks"
                           (never (OtherException "schema mismatch"))
                           uncertain_feedback).
  set (c4 := run (firstn 4 ws) (start "session-1")).
  destruct (formulator_failure_apology w w (st c4) (out c4) eq_refl)
    as (_ & _ & _ & _ & _ & _ & _ & Hskip & _).
  destruct (Hskip eq_refl w w wr w eq_refl) as (_ & Hend & Hans & Hesc).
  assert (Hc : c = run [w; w; w; w; wr; w]
                       (mkConfig answer_formulator (st c4) (out c4)))
    by reflexivity.
  rewrite Hc. split; [exact Hend|]. split; [exact Hans|].
  split; [exact Hesc|].
  rewrite <- Hc. reflexivity.
Defined.

(** ** Every session ends *)

(** Case analysis on what a node or a routing function branches on:
    innermost scrutinees only. *)
Ltac case_atom :=
  match goal with
  | |- context [response (call_llm ?o)] =>
      destruct (response (call_llm o)) as [?resp|]
  | |- context [rag_search ?w ?a ?b] => destruct (rag_search w a b)
  | |- context [(?a >=? ?b)%Z] => destruct (a >=? b)%Z eqn:?
  | |- context [ig_has_enough_info ?r] =>
      destruct (ig_has_enough_info r) eqn:?
  | |- context [is_sufficient ?r] => destruct (is_sufficient r) eqn:?
  | |- context [if is_uncertain ?r then _ else _] =>
      destruct (is_uncertain r) eqn:?
  | |- context [is_actionable ?r] => destruct (is_actionable r) eqn:?
  | |- context [Py.truthy ?x] => destruct (Py.truthy x) eqn:?
  | |- context [if ?x then _ else _] => is_var x; destruct x
  end.

Lemma steps_left_decreases (w : World) (c : Config) :
  at_node c <> END -> (steps_left (step w c) < steps_left c)%nat.
Proof.
  intros Hn. rewrite step_unfold by exact Hn. cbv zeta.
  destruct c as [n s o]. cbn [at_node st out] in *.
  unfold steps_left, retrieval_left, gather_left. cbn [at_node st].
  destruct (Node_eq_dec n pdf_fallback) as [->|Hp].
  - cbn [node_fn edge]. unfold route_after_pdf_fallback.
    destruct (pdf_fallback_shape w s) as [E|(a & _ & E)]; rewrite E;
      destruct s; cbn; lia.
  - destruct s; destruct n; try congruence;
      cbn -[Z.add Z.sub Z.geb Z.to_nat Nat.mul Nat.add Py.strip call_llm];
      unfold route_after_gatherer, route_after_quality_checker,
        route_after_present_answer, route_after_clarification,
        route_after_clarification_assessor, route_after_log_pre_feedback;
      repeat (case_atom;
              cbn -[Z.add Z.sub Z.geb Z.to_nat Nat.mul Nat.add Py.strip
                    call_llm] in * );
      repeat match goal with
             | H : (_ >=? _)%Z = true |- _ => apply Z.geb_le in H
             | H : (_ >=? _)%Z = false |- _ =>
                 rewrite Z.geb_leb in H; apply Z.leb_gt in H
             end;
      unfold MAX_GATHERER_ATTEMPTS, MAX_RETRIEVAL_ATTEMPTS in *;
      try discriminate; try lia.
Qed.

Lemma run_reaches_END (ws : list World) (c : Config) :
  (steps_left c <= List.length ws)%nat -> at_node (run ws c) = END.
Proof.
  revert c. induction ws as [|w ws IH]; intros c Hc.
  - cbn in Hc. destruct c as [n s o]. destruct n; cbn in Hc |- *;
      try reflexivity; lia.
  - rewrite run_cons.
    destruct (Node_eq_dec (at_node c) END) as [E|Hn].
    + rewrite step_END by exact E. now rewrite run_END.
    + apply IH. pose proof (steps_left_decreases w c Hn).
      cbn [List.length] in Hc. lia.
Qed.

Lemma steps_left_start (cid : string) : steps_left (start cid) = 27%nat.
Proof. reflexivity. Qed.

(** ** The final answer *)

Lemma notice_nonempty : notice <> "".
Proof. discriminate. Qed.

Lemma fallback_answer_nonempty : fallback_answer <> "".
Proof. discriminate. Qed.

Lemma truthy_nonempty (s : string) : Py.truthy s = true -> s <> "".
Proof. destruct s; [discriminate|discriminate]. Qed.

Lemma answer_inv_start (cid : string) : answer_inv (start cid).
Proof. split; cbn; discriminate. Qed.

Lemma answer_inv_step (w : World) (c : Config) :
  answers_nonempty w = true -> answer_inv c -> answer_inv (step w c).
Proof.
  intros Hw.
  destruct (Node_eq_dec (at_node c) END) as [E|Hn];
    [now rewrite step_END|].
  destruct (Node_eq_dec (at_node c) answer_formulator) as [Ha|Hna].
  { intros [_ Hesc].
    destruct (step_answer_formulator w c Ha) as (N & F & _ & X).
    unfold answer_inv. rewrite N, F, X. split.
    - intros _. unfold answers_nonempty in Hw.
      destruct (response (call_llm (formulator_llm w))) as [f|].
      + now apply truthy_nonempty.
      + apply fallback_answer_nonempty.
    - intros H. apply Hesc in H. rewrite Ha in H. destruct H. discriminate. }
  rewrite step_unfold by exact Hn. cbv zeta.
  destruct c as [n s o]. cbn [at_node st out] in *.
  unfold answer_inv. cbn [at_node st].
  destruct (Node_eq_dec n pdf_fallback) as [->|Hp].
  - cbn [node_fn edge]. unfold route_after_pdf_fallback.
    destruct (pdf_fallback_shape w s) as [E|(a & Hne & E)]; rewrite E;
      destruct s; cbn; intros [H1 H2]; split; intros H;
      try discriminate; try exact Hne;
      apply H2 in H; destruct H; discriminate.
  - pose proof notice_nonempty as Hnotice.
    destruct s; destruct n; try congruence;
      cbn -[Z.add Z.geb Py.strip call_llm notice];
      unfold route_after_gatherer, route_after_quality_checker,
        route_after_present_answer, route_after_clarification,
        route_after_clarification_assessor, route_after_log_pre_feedback;
      intros [H1 H2];
      repeat (case_atom; cbn -[Z.add Z.geb Py.strip call_llm notice] in * );
      split; intros H; try discriminate; try tauto;
      try (apply H2 in H; destruct H; try discriminate; tauto).
  cbn in H |- *. rewrite H. split; [reflexivity|now apply H2].
Qed.

Lemma answer_inv_run (ws : list World) (c : Config) :
  forallb answers_nonempty ws = true -> answer_inv c -> answer_inv (run ws c).
Proof.
  revert c. induction ws as [|w ws IH]; intros c Hws Hc; [exact Hc|].
  cbn [forallb] in Hws. apply andb_true_iff in Hws. destruct Hws as [Hw Hws].
  rewrite run_cons. apply IH; [exact Hws|]. now apply answer_inv_step.
Qed.

(** C8 (amended). If no successful call of the answer formulator returns an
    empty answer, [final_answer] is not empty when the loop is at the
    terminal logging stage (and from the moment an answer, a document
    extract or the escalation notice is stored); in an escalated session it
    is the escalation notice. The terminal stage is reached in every
    session, with or without that condition: after 27 steps at most the
    loop is at END, whatever the user and the oracles do. *)
Theorem final_answer_nonempty (cid : string) (ws : list World) :
  let c := run ws (start cid) in
  ((27 <= List.length ws)%nat -> at_node c = END)
  /\ (forallb answers_nonempty ws = true ->
      (at_node c = log_result \/ at_node c = END -> final_answer (st c) <> "")
      /\ (answered (at_node c) = true -> final_answer (st c) <> "")
      /\ (escalated_to_human (st c) = true -> final_answer (st c) = notice)).
Proof.
  intros c. split.
  - intros Hlen. apply run_reaches_END. now rewrite steps_left_start.
  - intros Hws.
    destruct (answer_inv_run ws (start cid) Hws (answer_inv_start cid))
      as [Hans Hesc].
    fold c in Hans, Hesc.
    split; [|split; [exact Hans|]].
    + intros [E|E]; apply Hans; rewrite E; reflexivity.
    + intros H. now apply Hesc.
Qed.

(** A session with a proper answer reaches the terminal logging stage with
    a non-empty answer; a session whose formulator returns an empty answer
    ends as well. *)
Lemma final_answer_nonempty_witness :
  let ws := session "It does not power on" "I guess it is okay"
                    good_answer uncertain_feedback in
  let ws' := (session "It does not power on" "no"
                      empty_answer uncertain_feedback
              ++ repeat (dead_world "") 17)%list in
  (at_node (run (firstn 9 ws) (start "session-1")) = log_result
   /\ final_answer (st (run (firstn 9 ws) (start "session-1"))) <> "")
  /\ at_node (run ws' (start "session-1")) = END.
Proof.
  intros ws ws'. split; [split; [reflexivity|]|].
  - destruct (final_answer_nonempty "session-1" (firstn 9 ws))
      as (_ & Hanswer).
    destruct (Hanswer eq_refl) as (Hterminal & _).
    apply Hterminal. left. reflexivity.
  - apply (proj1 (final_answer_nonempty "session-1" ws')).
    vm_compute. lia.
Defined.

(** C8 as stated fails: when the formulator succeeds with an empty answer,
    the session reaches the terminal logging stage with an empty
    [final_answer]. *)
Lemma empty_answer_counterexample :
  ~ (forall (cid : string) (ws : list World),
        at_node (run ws (start cid)) = log_result ->
        final_answer (st (run ws (start cid))) <> "").
Proof.
  intros H.
  apply (H "session-1"
           (firstn 9 (session "It does not power on" "no"
                              empty_answer uncertain_feedback))).
  - reflexivity.
  - reflexivity.
Qed.

(** ** Worked examples *)

Example retry_after_two_timeouts :
  call_llm (scripted [Raises APITimeoutError; Raises RateLimitError;
                      Returns 5%nat] (Returns 0%nat))
  = mkRetried (Some 5%nat) [Invoke; SleepFor 1; Invoke; SleepFor 2; Invoke].
Proof. reflexivity. Qed.

Example retry_stops_on_schema_error :
  call_llm (scripted [Raises APIConnectionError;
                      Raises (OtherException "validation error");
                      Returns 5%nat] (Returns 0%nat))
  = mkRetried None [Invoke; SleepFor 1; Invoke].
Proof. reflexivity. Qed.

Example first_seen_wins_the_tie :
  _get_most_frequent_pdf_url
    [ {| query := "q1"; context := "";
         urls := ["b.pdf"; "a.pdf"; "c.html"] |};
      {| query := "q2"; context := "";
         urls := ["a.PDF"; "a.pdf"; "b.pdf"; "c.html"; "c.html"; "c.html"] |} ]
  = Some "b.pdf".
Proof. reflexivity. Qed.

Example sanitised_file_name :
  _sanitise_url_for_filename manual_url ++ "-1.pdf" = manual_file.
Proof. reflexivity. Qed.

(** An actionable clarification resets [retrieval_attempts], which then
    climbs to the maximum again before the fallback and the escalation. *)
Example attempts_after_clarification :
  executed clarified_session (start "session-1")
  = [ product_selector; information_gatherer; rag_retriever; quality_checker;
      answer_formulator; present_answer; ask_for_clarification;
      clarification_assessor; rag_retriever; quality_checker; rag_retriever;
      quality_checker; rag_retriever; quality_checker; pdf_fallback;
      escalate; log_pre_feedback; log_result ]
  /\ map (fun n => retrieval_attempts
                     (st (run (firstn n clarified_session)
                              (start "session-1"))))
         (seq 7 8)
     = [1; 0; 0; 1; 1; 2; 2; 3]%Z.
Proof. split; reflexivity. Qed.

(** The session of the dead world: two prompts for details, three
    retrieval rounds, no PDF, escalation, and a ticket. *)
Example dead_world_session :
  let ws := repeat (dead_world "screen is blank") 16 in
  executed ws (start "session-1")
  = [ product_selector; information_gatherer; ask_user_for_details;
      information_gatherer; ask_user_for_details; information_gatherer;
      rag_retriever; quality_checker; rag_retriever; quality_checker;
      rag_retriever; quality_checker; pdf_fallback; escalate;
      log_pre_feedback; log_result ]
  /\ map log_status (support_log (run ws (start "session-1")))
     = ["escalated"; "escalated"]
  /\ map ticket_escalated (tickets (run ws (start "session-1"))) = [true].
Proof. repeat split; reflexivity. Qed.

(* ================================================================== *)
(** * Further properties *)
(* ================================================================== *)

(** ** The retry loop, in general *)

(** X1. The loop returns a value exactly when one of the three attempts returns
    it and every earlier attempt failed with a transient error. *)
Theorem retry_success_iff {A : Type} (o : Oracle A) (v : A) :
  response (call_llm o) = Some v
  <-> exists k,
        (k < MAX_RETRIES)%nat /\ o k = Returns v
        /\ forall j, (j < k)%nat ->
                     exists e, o j = Raises e /\ is_transient e = true.
Proof.
  rewrite call_llm_unfold. unfold MAX_RETRIES. split.
  - cbn. destruct (o 0%nat) as [a0|e0] eqn:E0; cbn.
    { intros H. injection H as <-. exists 0%nat.
      split; [lia|]. split; [exact E0|]. intros j Hj. lia. }
    destruct (is_transient e0) eqn:T0; cbn; [|discriminate].
    destruct (o 1%nat) as [a1|e1] eqn:E1; cbn.
    { intros H. injection H as <-. exists 1%nat.
      split; [lia|]. split; [exact E1|]. intros j Hj.
      assert (j = 0%nat) as -> by lia. now exists e0. }
    destruct (is_transient e1) eqn:T1; cbn; [|discriminate].
    destruct (o 2%nat) as [a2|e2] eqn:E2; cbn.
    { intros H. injection H as <-. exists 2%nat.
      split; [lia|]. split; [exact E2|]. intros j Hj.
      destruct j as [|[|j]]; [now exists e0|now exists e1|lia]. }
    destruct (is_transient e2); cbn; discriminate.
  - intros (k & Hk & Hv & Hbefore).
    destruct k as [|[|[|k]]]; try lia.
    + cbn. now rewrite Hv.
    + destruct (Hbefore 0%nat) as (e0 & E0 & T0); [lia|].
      cbn. rewrite E0, T0. cbn. now rewrite Hv.
    + destruct (Hbefore 0%nat) as (e0 & E0 & T0); [lia|].
      destruct (Hbefore 1%nat) as (e1 & E1 & T1); [lia|].
      cbn. rewrite E0, T0. cbn. rewrite E1, T1. cbn. now rewrite Hv.
Qed.

Lemma retry_shape {A : Type} (o : Oracle A) :
  let ev := events (call_llm o) in
  (fails_transiently o 0 = false -> ev = [Invoke])
  /\ (fails_transiently o 0 = true -> fails_transiently o 1 = false ->
      ev = [Invoke; SleepFor 1; Invoke])
  /\ (fails_transiently o 0 = true -> fails_transiently o 1 = true ->
      ev = [Invoke; SleepFor 1; Invoke; SleepFor 2; Invoke]).
Proof.
  rewrite call_llm_unfold. unfold fails_transiently. cbn.
  destruct (o 0%nat) as [|e0]; cbn;
    [repeat split; intros; try reflexivity; discriminate|].
  destruct (is_transient e0); cbn;
    [|repeat split; intros; try reflexivity; discriminate].
  destruct (o 1%nat) as [|e1]; cbn;
    [repeat split; intros; try reflexivity; discriminate|].
  destruct (is_transient e1); cbn;
    [|repeat split; intros; try reflexivity; discriminate].
  destruct (o 2%nat) as [|e2]; cbn;
    [repeat split; intros; try reflexivity; discriminate|].
  destruct (is_transient e2); cbn;
    repeat split; intros; try reflexivity; discriminate.
Qed.

(** X2. The events of the loop are calls and sleeps in strict alternation,
    beginning and ending with a call: one call when the first attempt
    returns or fails for good; a call, a sleep of 1s and a call when only
    the first attempt fails transiently; a call, 1s, a call, 2s and a call
    when the first two attempts fail transiently, whatever the third does.
    So the loop calls the model between one and three times, sleeps only
    between two calls, never sleeps the third delay of [RETRY_DELAYS] and
    sleeps three seconds at most in total. *)
Theorem retry_budget {A : Type} (o : Oracle A) :
  let ev := events (call_llm o) in
  ((fails_transiently o 0 = false -> ev = [Invoke])
   /\ (fails_transiently o 0 = true -> fails_transiently o 1 = false ->
       ev = [Invoke; SleepFor 1; Invoke])
   /\ (fails_transiently o 0 = true -> fails_transiently o 1 = true ->
       ev = [Invoke; SleepFor 1; Invoke; SleepFor 2; Invoke]))
  /\ (1 <= calls ev <= MAX_RETRIES)%nat
  /\ S (sleep_count ev) = calls ev
  /\ (sleep_total ev <= 3)%Z
  /\ ~ In (SleepFor (nth 2 RETRY_DELAYS 0%Z)) ev
  /\ last ev Invoke = Invoke.
Proof.
  split; [apply retry_shape|].
  rewrite call_llm_unfold. unfold MAX_RETRIES, calls. cbn.
  destruct (o 0%nat) as [|e0]; cbn;
    [repeat split; try lia; intros [H|[]]; discriminate|].
  destruct (is_transient e0); cbn;
    [|repeat split; try lia; intros [H|[]]; discriminate].
  destruct (o 1%nat) as [|e1]; cbn;
    [repeat split; try lia; intros [H|[H|[H|[]]]]; discriminate|].
  destruct (is_transient e1); cbn;
    [|repeat split; try lia; intros [H|[H|[H|[]]]]; discriminate].
  destruct (o 2%nat) as [|e2]; cbn;
    [repeat split; try lia; intros [H|[H|[H|[H|[H|[]]]]]]; discriminate|].
  destruct (is_transient e2); cbn;
    repeat split; try lia; intros [H|[H|[H|[H|[H|[]]]]]]; discriminate.
Qed.

Lemma retry_budget_witness :
  events (call_llm (scripted [Raises APITimeoutError;
                              Raises (OtherException "validation error")]
                             (Returns 5%nat)))
  = [Invoke; SleepFor 1; Invoke].
Proof.
  apply (proj1 (proj2 (proj1 (retry_budget
                                (scripted
                                   [Raises APITimeoutError;
                                    Raises (OtherException "validation error")]
                                   (Returns 5%nat)))))); reflexivity.
Defined.

(** ** What a session never rewrites *)

Lemma step_grows (w : World) (c : Config) :
  exists entries msgs,
    rag_history (st (step w c)) = (rag_history (st c) ++ entries)%list
    /\ messages (st (step w c)) = (messages (st c) ++ msgs)%list
    /\ chat_id (st (step w c)) = chat_id (st c)
    /\ List.length entries
       = (if Node_eq_dec (at_node c) rag_retriever then 1 else 0)%nat
    /\ (at_node c <> product_selector ->
        product_name (st (step w c)) = product_name (st c))
    /\ (at_node c <> product_selector ->
        at_node (step w c) <> product_selector).
Proof.
  destruct (Node_eq_dec (at_node c) END) as [E|Hn].
  { rewrite step_END by exact E. exists [], []. rewrite !app_nil_r, E.
    repeat split; try reflexivity. discriminate. }
  rewrite step_unfold by exact Hn. cbv zeta.
  destruct c as [n s o]. cbn [at_node st out] in *.
  destruct (Node_eq_dec n pdf_fallback) as [->|Hp].
  - cbn [node_fn edge]. unfold route_after_pdf_fallback.
    destruct (pdf_fallback_shape w s) as [E|(a & _ & E)]; rewrite E;
      destruct s; cbn.
    + exists [], []. rewrite !app_nil_r.
      repeat split; try reflexivity; intros; discriminate.
    + exists []. eexists.
      repeat split; try reflexivity; rewrite ?app_nil_r; try reflexivity;
        intros; discriminate.
  - destruct s; destruct n; try congruence;
      cbn -[Z.add Z.geb Py.strip call_llm];
      unfold route_after_gatherer, route_after_quality_checker,
        route_after_present_answer, route_after_clarification,
        route_after_clarification_assessor, route_after_log_pre_feedback;
      repeat (case_atom; cbn -[Z.add Z.geb Py.strip call_llm] in * );
      first
        [ exists [], []; rewrite !app_nil_r;
          repeat split; try reflexivity; intros; cbn; repeat case_atom; congruence
        | exists []; eexists;
          repeat split; try reflexivity; rewrite ?app_nil_r;
          try reflexivity; intros; cbn; repeat case_atom; congruence
        | eexists; eexists;
          repeat split; try reflexivity; intros; cbn; repeat case_atom; congruence ].
Qed.

Lemma run_app (ws1 ws2 : list World) (c : Config) :
  run (ws1 ++ ws2) c = run ws2 (run ws1 c).
Proof. unfold run. apply fold_left_app. Qed.

Lemma run_grows (ws : list World) (c : Config) :
  exists entries msgs,
    rag_history (st (run ws c)) = (rag_history (st c) ++ entries)%list
    /\ messages (st (run ws c)) = (messages (st c) ++ msgs)%list
    /\ chat_id (st (run ws c)) = chat_id (st c)
    /\ List.length entries = times_executed rag_retriever ws c
    /\ (at_node c <> product_selector ->
        product_name (st (run ws c)) = product_name (st c)).
Proof.
  revert c. induction ws as [|w ws IH]; intros c.
  - exists [], []. rewrite !app_nil_r. now repeat split.
  - rewrite run_cons.
    destruct (step_grows w c) as (e1 & m1 & H1 & M1 & I1 & L1 & P1 & N1).
    destruct (IH (step w c)) as (e2 & m2 & H2 & M2 & I2 & L2 & P2).
    exists (e1 ++ e2)%list, (m1 ++ m2)%list.
    rewrite H2, H1, M2, M1, I2, I1, !app_assoc.
    split; [reflexivity|]. split; [reflexivity|]. split; [reflexivity|].
    split.
    + rewrite length_app, L1, L2. unfold times_executed.
      destruct (Node_eq_dec (at_node c) END) as [E|Hn].
      * rewrite (executed_END (w :: ws)) by exact E.
        rewrite step_END, (executed_END ws) by exact E.
        rewrite E. reflexivity.
      * rewrite executed_cons by exact Hn. cbn [count_occ].
        destruct (Node_eq_dec (at_node c) rag_retriever); reflexivity.
    + intros Hc. rewrite P2 by now apply N1. now apply P1.
Qed.

(** X3. The retrieval history only grows: what a session holds after some steps
    is a prefix of what it holds after any further steps, and its length is
    the number of executions of rag_retriever so far. *)
Theorem rag_history_append_only (cid : string) (ws more : list World) :
  let c := run ws (start cid) in
  (exists entries,
      rag_history (st (run (ws ++ more) (start cid)))
      = (rag_history (st c) ++ entries)%list)
  /\ List.length (rag_history (st c))
     = times_executed rag_retriever ws (start cid).
Proof.
  intros c. split.
  - rewrite run_app. fold c.
    destruct (run_grows more c) as (entries & _ & H & _).
    now exists entries.
  - destruct (run_grows ws (start cid)) as (entries & _ & H & _ & _ & L & _).
    fold c in H. rewrite H. exact L.
Qed.

(** X4. The transcript only grows, the session identifier never changes, and
    the product chosen at the first step is kept to the end. *)
Theorem conversation_append_only (cid : string) (w : World)
  (ws more : list World) :
  let c := run (w :: ws) (start cid) in
  (exists msgs,
      messages (st (run ((w :: ws) ++ more) (start cid)))
      = (messages (st c) ++ msgs)%list)
  /\ (exists msgs,
         messages (st c)
         = (HumanMessage (Py.strip (typed w)) :: msgs)%list)
  /\ chat_id (st c) = cid
  /\ product_name (st c) = selected_product w.
Proof.
  intros c. split; [|split; [|split]].
  - rewrite run_app. fold c.
    destruct (run_grows more c) as (_ & msgs & _ & H & _).
    now exists msgs.
  - unfold c. rewrite run_cons.
    destruct (run_grows ws (step w (start cid))) as (_ & msgs & _ & H & _).
    exists msgs. exact H.
  - destruct (run_grows (w :: ws) (start cid)) as (_ & _ & _ & _ & H & _).
    exact H.
  - unfold c. rewrite run_cons.
    destruct (run_grows ws (step w (start cid))) as (_ & _ & _ & _ & _ & _ & H).
    apply H. discriminate.
Qed.

(** ** Outcomes *)

Lemma pdf_fallback_preamble (w : World) (s : AgentState) :
  fst (pdf_fallback_node w s) = [Set_pdf_fallback_used false]
  \/ exists a,
      Py.startswith a fallback_preamble = true
      /\ fst (pdf_fallback_node w s) =
           [ Set_pdf_fallback_used true; Set_final_answer a;
             Set_messages [AIMessage a] ].
Proof.
  unfold pdf_fallback_node.
  destruct (_get_most_frequent_pdf_url (rag_history s)) as [url|];
    [|now left].
  destruct (_find_pdf_on_disk w url) as [path|]; [|now left].
  destruct (_get_page_count (fitz_open w path) <=? PDF_TOC_PAGE_THRESHOLD)%Z.
  - destruct (negb (Py.truthy (Py.strip _))); [now left|].
    right. eexists. split; [|reflexivity]. reflexivity.
  - destruct (negb (Py.truthy (Py.strip _))); [now left|].
    destruct (response (call_llm (toc_llm w))) as [toc|]; [|now left].
    destruct (negb (has_toc toc)); [now left|].
    destruct (relevant_pages toc); [now left|].
    destruct (negb (Py.truthy (Py.strip _))); [now left|].
    right. eexists. split; [|reflexivity]. reflexivity.
Qed.

Lemma outcome_inv_start (cid : string) : outcome_inv (start cid).
Proof. unfold outcome_inv. cbn. repeat split; discriminate. Qed.

Ltac outcome_solve H1 H2 :=
  repeat split; intros; try discriminate; try tauto; try lia;
  try (match goal with
       | |- ?b = false => destruct b eqn:?; [exfalso|reflexivity]
       end);
  try (match goal with
       | Hb : _ = true |- _ =>
           first [ destruct (H1 Hb) as (?N & ?)
                 | destruct (H2 Hb) as (?N & ?) ];
           first [discriminate | tauto]
       end).

Lemma outcome_inv_step (w : World) (c : Config) :
  loop_inv c -> outcome_inv c -> outcome_inv (step w c).
Proof.
  destruct (Node_eq_dec (at_node c) END) as [E|Hn];
    [now rewrite step_END|].
  rewrite step_unfold by exact Hn. cbv zeta.
  destruct c as [n s o]. cbn [at_node st out] in *.
  unfold loop_inv, outcome_inv, exhausted. cbn [at_node st].
  intros (_ & Hr & _).
  destruct (Node_eq_dec n pdf_fallback) as [->|Hp].
  - cbn [node_fn edge]. unfold route_after_pdf_fallback.
    clear Hr.
    destruct (pdf_fallback_preamble w s) as [E|(a & Ha & E)]; rewrite E;
      clear E;
      destruct s; cbn -[Py.startswith fallback_preamble notice];
      intros (H1 & H2 & H3 & H4);
      specialize (H3 eq_refl); clear H4;
      outcome_solve H1 H2.
  - destruct s; destruct n; try congruence;
      cbn -[Z.add Z.geb Py.strip call_llm Py.startswith fallback_preamble
            notice] in Hr |- *;
      unfold route_after_gatherer, route_after_quality_checker,
        route_after_present_answer, route_after_clarification,
        route_after_clarification_assessor, route_after_log_pre_feedback;
      cbn -[Z.add Z.geb Py.strip call_llm Py.startswith fallback_preamble
            notice];
      intros (H1 & H2 & H3 & H4);
      repeat (case_atom;
              cbn -[Z.add Z.geb Py.strip call_llm Py.startswith
                    fallback_preamble notice] in * );
      repeat match goal with
             | H : (_ >=? _)%Z = true |- _ => apply Z.geb_le in H
             | H : (_ >=? _)%Z = false |- _ =>
                 rewrite Z.geb_leb in H; apply Z.leb_gt in H
             end;
      unfold MAX_RETRIEVAL_ATTEMPTS in *;
      outcome_solve H1 H2.
Qed.

Lemma outcome_inv_run (ws : list World) (c : Config) :
  loop_inv c -> outcome_inv c -> outcome_inv (run ws c).
Proof.
  revert c. induction ws as [|w ws IH]; intros c Hl Ho; [exact Ho|].
  rewrite run_cons. apply IH.
  - now apply loop_inv_step.
  - now apply outcome_inv_step.
Qed.

(** X5. The document fallback is entered, and the escalation after it, only
    when the retrieval loop has used all its attempts and the last round was
    judged insufficient. *)
Theorem fallback_only_after_exhaustion (cid : string) (ws : list World) :
  let c := run ws (start cid) in
  at_node c = pdf_fallback \/ at_node c = escalate ->
  retrieval_attempts (st c) = MAX_RETRIEVAL_ATTEMPTS
  /\ is_context_sufficient (st c) = false
  /\ (at_node c = escalate -> pdf_fallback_used (st c) = false).
Proof.
  intros c H.
  destruct (outcome_inv_run ws (start cid) (loop_inv_start cid)
              (outcome_inv_start cid)) as (_ & _ & Hp & He).
  fold c in Hp, He.
  destruct H as [H|H].
  - destruct (Hp H) as [Hr Hs]. split; [exact Hr|]. split; [exact Hs|].
    intros E. rewrite H in E. discriminate.
  - destruct (He H) as [[Hr Hs] Hu]. auto.
Qed.

Lemma fallback_only_after_exhaustion_witness :
  let c := run (repeat (dead_world "screen is blank") 12)
               (start "session-1") in
  at_node c = pdf_fallback /\ retrieval_attempts (st c) = 3%Z.
Proof.
  intros c. split; [reflexivity|].
  exact (proj1 (fallback_only_after_exhaustion
                  "session-1" (repeat (dead_world "screen is blank") 12)
                  (or_introl eq_refl))).
Defined.

(** X6. At every point of every session the two last-resort outcomes exclude
    each other. An escalated session holds the escalation notice as its
    answer, made no use of the document fallback, exhausted the retrieval
    attempts and recorded no satisfaction. A session whose document fallback
    succeeded is not escalated and keeps the document extract as its
    answer. *)
Theorem outcomes_exclude_each_other (cid : string) (ws : list World) :
  let s := st (run ws (start cid)) in
  (escalated_to_human s = true ->
   pdf_fallback_used s = false
   /\ final_answer s = notice
   /\ retrieval_attempts s = MAX_RETRIEVAL_ATTEMPTS
   /\ user_satisfied s = false)
  /\ (pdf_fallback_used s = true ->
      escalated_to_human s = false
      /\ Py.startswith (final_answer s) fallback_preamble = true
      /\ retrieval_attempts s = MAX_RETRIEVAL_ATTEMPTS).
Proof.
  intros s.
  destruct (outcome_inv_run ws (start cid) (loop_inv_start cid)
              (outcome_inv_start cid)) as (He & Hf & _ & _).
  destruct (loop_inv_run ws (start cid) (loop_inv_start cid))
    as (_ & _ & Hfb).
  fold s in He, Hf. split.
  - intros H. destruct (He H) as (Hn & Ha & Hu & Hr & _).
    split; [exact Hu|]. split; [exact Ha|]. split; [exact Hr|].
    destruct (at_node (run ws (start cid))); try discriminate Hn;
      unfold no_feedback in Hfb; try tauto.
  - intros H. destruct (Hf H) as (_ & Hesc & Hp & Hr & _). auto.
Qed.

(** ** The clarification round *)

Lemma clarification_step (w : World) (c : Config) :
  (at_node c = ask_for_clarification -> clarification_settled (step w c))
  /\ (clarification_settled c -> clarification_settled (step w c))
  /\ (at_node (step w c) = ask_for_clarification ->
      at_node c <> ask_for_clarification ->
      clarification_used (st (step w c)) = false).
Proof.
  destruct (Node_eq_dec (at_node c) END) as [E|Hn].
  { rewrite step_END by exact E. split; [|split].
    - intros H. rewrite E in H. discriminate H.
    - tauto.
    - intros H. rewrite E in H. discriminate H. }
  rewrite step_unfold by exact Hn. cbv zeta.
  destruct c as [n s o]. cbn [at_node st out] in *.
  unfold clarification_settled. cbn [at_node st].
  destruct (Node_eq_dec n pdf_fallback) as [->|Hp].
  - cbn [node_fn edge]. unfold route_after_pdf_fallback.
    destruct (pdf_fallback_shape w s) as [E|(a & _ & E)]; rewrite E;
      destruct s; cbn; repeat split; intros; try discriminate;
      intuition congruence.
  - destruct s; destruct n; try congruence;
      cbn -[Z.add Z.geb Py.strip call_llm];
      unfold route_after_gatherer, route_after_quality_checker,
        route_after_present_answer, route_after_clarification,
        route_after_clarification_assessor, route_after_log_pre_feedback;
      cbn -[Z.add Z.geb Py.strip call_llm];
      repeat (case_atom; cbn -[Z.add Z.geb Py.strip call_llm] in * );
      repeat split; intros; try discriminate; intuition congruence.
Qed.

Lemma settled_never_asks (ws : list World) (c : Config) :
  clarification_settled c ->
  times_executed ask_for_clarification ws c = 0%nat.
Proof.
  unfold times_executed.
  revert c. induction ws as [|w ws IH]; intros c H; [reflexivity|].
  destruct (Node_eq_dec (at_node c) END) as [E|Hn].
  - now rewrite executed_END.
  - rewrite executed_cons by exact Hn. cbn [count_occ].
    destruct (Node_eq_dec (at_node c) ask_for_clarification) as [E|_].
    + destruct H as [_ H]. contradiction.
    + apply IH. now apply clarification_step.
Qed.

Lemma asks_at_most_once (ws : list World) (c : Config) :
  (times_executed ask_for_clarification ws c <= 1)%nat.
Proof.
  unfold times_executed.
  revert c. induction ws as [|w ws IH]; intros c; [cbn; lia|].
  destruct (Node_eq_dec (at_node c) END) as [E|Hn].
  - rewrite executed_END by exact E. cbn. lia.
  - rewrite executed_cons by exact Hn. cbn [count_occ].
    destruct (Node_eq_dec (at_node c) ask_for_clarification) as [E|_].
    + pose proof (settled_never_asks ws (step w c)
                    (proj1 (clarification_step w c) E)) as H0.
      unfold times_executed in H0. rewrite H0. lia.
    + apply IH.
Qed.

Lemma ask_only_when_unused (cid : string) (ws : list World) :
  at_node (run ws (start cid)) = ask_for_clarification ->
  clarification_used (st (run ws (start cid))) = false.
Proof.
  induction ws as [|w ws IH] using rev_ind; [discriminate|].
  rewrite run_snoc. set (c := run ws (start cid)) in *.
  intros H.
  destruct (Node_eq_dec (at_node c) ask_for_clarification) as [E|Hne].
  - destruct (proj1 (clarification_step w c) E) as [_ Hs]. contradiction.
  - now apply (proj2 (proj2 (clarification_step w c))).
Qed.

(** X7. A session prompts for a clarification at most once, and not at all
    from the moment [clarification_used] is set. *)
Theorem clarification_at_most_once (cid : string) (ws more : list World) :
  (times_executed ask_for_clarification ws (start cid) <= 1)%nat
  /\ (clarification_used (st (run ws (start cid))) = true ->
      times_executed ask_for_clarification more (run ws (start cid))
      = 0%nat).
Proof.
  split; [apply asks_at_most_once|].
  intros Hused. apply settled_never_asks. split; [now left|].
  intros E. apply ask_only_when_unused in E. congruence.
Qed.

(** ** The two log files *)

Lemma logs_of_llm {A : Type} (r : Retried A) : logs_of (llm_effects r) = [].
Proof.
  unfold llm_effects, logs_of.
  induction (events r) as [|e l IH]; [reflexivity|exact IH].
Qed.

(** Only the two logging nodes write to the support log. *)
Lemma logs_of_node (n : Node) (w : World) (s : AgentState) :
  n <> log_pre_feedback -> n <> log_result ->
  logs_of (snd (node_fn n w s)) = [].
Proof.
  intros Hp Hr. destruct n; try congruence; cbn [node_fn];
    try reflexivity; try apply logs_of_llm.
  - unfold ask_user_for_details_node. cbn [snd]. now case_match.
  - unfold pdf_fallback_node.
    repeat first [ apply logs_of_llm | reflexivity | case_match ].
Qed.

Lemma step_support_log (w : World) (c : Config) :
  at_node c <> END ->
  support_log (step w c)
  = (support_log c ++ logs_of (snd (node_fn (at_node c) w (st c))))%list.
Proof.
  intros Hn. rewrite step_unfold by exact Hn. cbv zeta.
  unfold support_log at 1. cbn [out]. now rewrite flat_map_app.
Qed.

Lemma step_log_pre_feedback_row (w : World) (c : Config) :
  at_node c = log_pre_feedback ->
  exists row,
    support_log (step w c) = (support_log c ++ [row])%list
    /\ first_row_ok (st c) row.
Proof.
  intros Hn. rewrite step_support_log by congruence. rewrite Hn.
  eexists. split; [reflexivity|].
  unfold first_row_ok. cbn. repeat split; reflexivity.
Qed.

Lemma log_inv_start (cid : string) : log_inv (start cid).
Proof. split; reflexivity. Qed.

Lemma log_inv_step (w : World) (c : Config) :
  log_inv c -> log_inv (step w c).
Proof.
  intros H.
  destruct (Node_eq_dec (at_node c) END) as [E|Hn];
    [now rewrite step_END|].
  destruct (Node_eq_dec (at_node c) log_result) as [El|Hl].
  { unfold log_inv in H. rewrite El in H. destruct H as (Ht & r1 & Hlog & Hr1).
    destruct (step_log_result w c El)
      as (Hend & Hst & row & Hlog' & Hs & He & Hu & Hf & Hc).
    unfold log_inv. rewrite Hend, Hst. split.
    - rewrite step_tickets, El, Ht. reflexivity.
    - exists r1, row. rewrite Hlog', Hlog. split; [reflexivity|].
      split; [exact Hr1|]. unfold final_row_ok. auto. }
  destruct (Node_eq_dec (at_node c) log_pre_feedback) as [Ep|Hp].
  { unfold log_inv in H. rewrite Ep in H. destruct H as (Ht & Hlog).
    destruct (step_log_pre_feedback w c Ep) as (Hnode & Hst).
    destruct (step_log_pre_feedback_row w c Ep) as (row & Hlog' & Hrow).
    assert (Htk : tickets (step w c) = [])
      by (rewrite step_tickets, Ep, Ht; reflexivity).
    rewrite Hlog in Hlog'. cbn [app] in Hlog'.
    unfold log_inv. rewrite Hnode, Hst.
    destruct (escalated_to_human (st c)); (split; [exact Htk|]);
      exists row; auto. }
  destruct (Node_eq_dec (at_node c) collect_feedback) as [Ec|Hc].
  { unfold log_inv in H. rewrite Ec in H. destruct H as (Ht & r1 & Hlog & Hr1).
    destruct (step_collect_feedback w c Ec) as (Hnode & Hesc & _).
    unfold log_inv. rewrite Hnode. split.
    - rewrite step_tickets, Ec, Ht. reflexivity.
    - exists r1. split.
      + rewrite step_support_log by exact Hn.
        rewrite logs_of_node by congruence. now rewrite app_nil_r.
      + unfold first_row_ok in *. rewrite Hesc. exact Hr1. }
  assert (Hbefore : tickets c = [] /\ support_log c = []).
  { unfold log_inv in H. destruct (at_node c); try congruence; exact H. }
  destruct Hbefore as [Ht Hlog].
  assert (Htk : tickets (step w c) = []).
  { rewrite step_tickets, Ht. destruct (at_node c); try congruence;
      reflexivity. }
  assert (Hlg : support_log (step w c) = []).
  { rewrite step_support_log by exact Hn.
    rewrite logs_of_node by assumption. now rewrite Hlog. }
  assert (Hnext : at_node (step w c) <> collect_feedback
                  /\ at_node (step w c) <> log_result
                  /\ at_node (step w c) <> END).
  { rewrite step_unfold by exact Hn. cbv zeta. cbn [at_node].
    destruct (at_node c); try congruence; cbn [edge];
      unfold route_after_gatherer, route_after_quality_checker,
        route_after_pdf_fallback, route_after_present_answer,
        route_after_clarification, route_after_clarification_assessor;
      repeat case_match; repeat split; discriminate. }
  unfold log_inv.
  destruct (at_node (step w c)); try tauto; now split.
Qed.

Lemma log_inv_run (ws : list World) (c : Config) :
  log_inv c -> log_inv (run ws c).
Proof.
  revert c. induction ws as [|w ws IH]; intros c H; [exact H|].
  rewrite run_cons. apply IH. now apply log_inv_step.
Qed.

(** X8. A session that has ended wrote exactly two rows to the support log, a
    preliminary one without feedback and a final one, and at most one
    ticket; it wrote a ticket exactly when its final status is not
    success. Feedback is recorded as collected exactly in the sessions that
    were not escalated. *)
Theorem completed_session_records (cid : string) (ws : list World) :
  let c := run ws (start cid) in
  at_node c = END ->
  exists r1 r2,
    support_log c = [r1; r2]
    /\ log_feedback_collected r1 = false
    /\ log_status r1
       = (if escalated_to_human (st c) then "escalated"
          else "pending_feedback")
    /\ log_feedback_collected r2 = negb (escalated_to_human (st c))
    /\ log_status r2
       = (if escalated_to_human (st c) then "escalated"
          else if user_satisfied (st c) then "success" else "failure")
    /\ (List.length (tickets c) <= 1)%nat
    /\ (tickets c = [] <-> log_status r2 = "success").
Proof.
  intros c Hend.
  pose proof (log_inv_run ws (start cid) (log_inv_start cid)) as H.
  fold c in H. unfold log_inv in H. rewrite Hend in H.
  destruct H as (Ht & r1 & r2 & Hlog & Hr1 & Hr2).
  destruct (loop_inv_run ws (start cid) (loop_inv_start cid))
    as (_ & _ & Hfb).
  fold c in Hfb. rewrite Hend in Hfb.
  destruct Hr1 as (C1 & _ & _ & _ & S1).
  destruct Hr2 as (C2 & _ & _ & _ & S2).
  exists r1, r2.
  split; [exact Hlog|]. split; [exact C1|]. split; [exact S1|].
  split; [exact C2|]. split; [exact S2|].
  rewrite Ht, S2.
  destruct (escalated_to_human (st c)) eqn:He.
  - rewrite (Hfb eq_refl). cbn. split; [lia|]. split; discriminate.
  - destruct (user_satisfied (st c)); cbn; split; try lia;
      split; intros; try reflexivity; discriminate.
Qed.

Lemma completed_session_records_witness :
  let c := run (repeat (dead_world "screen is blank") 16)
               (start "session-1") in
  map log_status (support_log c) = ["escalated"; "escalated"].
Proof.
  intros c.
  destruct (completed_session_records
              "session-1" (repeat (dead_world "screen is blank") 16)
              eq_refl)
    as (r1 & r2 & Hlog & _ & S1 & _ & S2 & _).
  fold c in Hlog. rewrite Hlog. cbn [map].
  rewrite S1, S2. reflexivity.
Defined.

(** X9. In a session that was not escalated a ticket is written exactly when the
    feedback classifier answered, without uncertainty, that the user is not
    satisfied; a failed classifier call and an uncertain answer both count
    as satisfied. The ticket then carries escalated = false and the final
    status is failure. *)
Theorem failure_ticket_iff (cid : string) (ws : list World) (w w' : World) :
  at_node (run ws (start cid)) = collect_feedback ->
  let c := step w' (step w (run ws (start cid))) in
  at_node c = END
  /\ (tickets c <> []
      <-> exists fb,
            response (call_llm (feedback_llm w)) = Some fb
            /\ is_uncertain fb = false /\ is_satisfied fb = false)
  /\ (tickets c <> [] ->
      exists t r1 r2,
        tickets c = [t] /\ ticket_escalated t = false
        /\ ticket_answer_given t = final_answer (st (run ws (start cid)))
        /\ support_log c = [r1; r2] /\ log_status r2 = "failure").
Proof.
  intros Hn c.
  set (c0 := run ws (start cid)) in *.
  destruct (loop_inv_run ws (start cid) (loop_inv_start cid))
    as (_ & _ & Hfb).
  fold c0 in Hfb. rewrite Hn in Hfb. destruct Hfb as [_ Hesc].
  destruct (step_collect_feedback w c0 Hn) as (N1 & E1 & F1 & _ & Hsat).
  rewrite Hesc in E1.
  destruct (step_log_result w' (step w c0) N1) as (N2 & S2 & _).
  fold c in N2, S2.
  pose proof (log_inv_run (ws ++ [w; w']) (start cid) (log_inv_start cid))
    as Hlog.
  rewrite run_app in Hlog. fold c0 in Hlog.
  change (run [w; w'] c0) with c in Hlog.
  unfold log_inv in Hlog. rewrite N2, S2 in Hlog.
  destruct Hlog as (Ht & r1 & r2 & Hrows & _ & Hr2).
  destruct Hr2 as (_ & _ & _ & _ & Hstatus). rewrite E1 in Hstatus.
  split; [exact N2|]. rewrite Ht.
  assert (Hiff : user_satisfied (st (step w c0)) = false
                 <-> exists fb,
                       response (call_llm (feedback_llm w)) = Some fb
                       /\ is_uncertain fb = false /\ is_satisfied fb = false).
  { destruct (response (call_llm (feedback_llm w))) as [fb|].
    - destruct (is_uncertain fb) eqn:Hu; destruct Hsat as [Hs _];
        rewrite Hs; split.
      + discriminate.
      + intros (fb' & Hfb' & Hu' & _). injection Hfb' as <-. congruence.
      + intros Hf. exists fb. auto.
      + intros (fb' & Hfb' & _ & Hs'). injection Hfb' as <-. exact Hs'.
    - destruct Hsat as [Hs _]. rewrite Hs. split; [discriminate|].
      intros (fb & Hfb' & _). discriminate. }
  split.
  - rewrite <- Hiff.
    destruct (user_satisfied (st (step w c0))); split; congruence.
  - intros Hne.
    destruct (user_satisfied (st (step w c0))) eqn:Hs; [congruence|].
    exists (ticket_for (st (step w c0))), r1, r2.
    split; [reflexivity|]. split; [exact E1|]. split; [exact F1|].
    split; [exact Hrows|exact Hstatus].
Qed.

Lemma failure_ticket_iff_witness :
  let ws := session "It does not power on" "no, that did not help"
                    good_answer
                    (always {| is_satisfied := false;
                               is_uncertain := false |}) in
  List.length (tickets (run ws (start "session-1"))) = 1%nat.
Proof.
  intros ws.
  set (fb := always {| is_satisfied := false; is_uncertain := false |}).
  destruct (failure_ticket_iff
              "session-1" (firstn 8 ws)
              (support_world "no, that did not help" good_answer fb)
              (support_world "" good_answer fb) eq_refl)
    as (_ & Hiff & Hticket).
  assert (Hne : tickets (run ws (start "session-1")) <> []).
  { apply Hiff. eexists. split; [reflexivity|]. split; reflexivity. }
  destruct (Hticket Hne) as (t & _ & _ & Ht & _).
  change (tickets (run ws (start "session-1")) = [t]) in Ht.
  now rewrite Ht.
Defined.

(** ** Page extraction *)

Lemma page_part_not_blank (p : Z * string) (rest : string) :
  all_space (page_part p ++ rest) = false.
Proof. reflexivity. Qed.

Lemma joined_parts_blank (l : list (Z * string)) :
  all_space (Py.join (Py.LF ++ Py.LF) (map page_part l)) = true <-> l = [].
Proof.
  destruct l as [|p l]; [split; reflexivity|].
  split; [|discriminate]. intros H. exfalso. cbn [map Py.join] in H.
  destruct (map page_part l).
  - assert (Hp : all_space (page_part p) = false) by reflexivity.
    congruence.
  - rewrite page_part_not_blank in H. discriminate.
Qed.

Lemma map_fst_nil {A B : Type} (l : list (A * B)) :
  l = [] <-> map fst l = [].
Proof. destruct l; split; intros H; try reflexivity; discriminate. Qed.

(** X10. The text returned by [_extract_pages_text] is made of the blocks
    (page marker, line feed, text of the page) of the requested pages that
    exist in the document and have text, in the order of the request and
    separated by an empty line: page numbers outside the document and pages
    without text are skipped silently, each kept page contributes the text
    of that page, and the extract is blank (so the fallback gives up)
    exactly when none of the requested pages exists with text. *)
Theorem extract_pages_text_spec (doc : Pdf) (page_numbers : list Z) :
  (_extract_pages_text doc page_numbers
   = blocks_of doc (filter (page_available doc) page_numbers)
   /\ forall p,
        page_available doc p = true
        <-> (1 <= p <= _get_page_count doc)%Z
            /\ all_space (nth (Z.to_nat (p - 1)) doc "") = false)
  /\ map fst (extracted_pages doc page_numbers)
     = filter (page_available doc) page_numbers
  /\ (forall p t, In (p, t) (extracted_pages doc page_numbers) ->
                  (1 <= p <= _get_page_count doc)%Z
                  /\ t = nth (Z.to_nat (p - 1)) doc ""
                  /\ all_space t = false)
  /\ (Py.truthy (Py.strip (_extract_pages_text doc page_numbers)) = false
      <-> forall p, In p page_numbers -> page_available doc p = false).
Proof.
  split.
  { split; [apply extract_pages_text_blocks|].
    intros p. unfold page_available, has_text.
    rewrite strip_truthy, !andb_true_iff, !Z.leb_le, negb_true_iff.
    tauto. }
  split; [apply extracted_pages_numbers|]. split.
  - intros p t Hin.
    assert (Ht : t = nth (Z.to_nat (p - 1)) doc "")
      by now apply (extracted_pages_text doc page_numbers).
    assert (Hp : In p (filter (page_available doc) page_numbers)).
    { rewrite <- extracted_pages_numbers.
      apply (in_map fst) in Hin. exact Hin. }
    apply filter_In in Hp. destruct Hp as [_ Hp].
    unfold page_available, has_text in Hp.
    apply andb_true_iff in Hp. destruct Hp as [Hr Hx].
    apply andb_true_iff in Hr. destruct Hr as [H1 H2].
    apply Z.leb_le in H1, H2. rewrite strip_truthy in Hx.
    split; [lia|]. split; [exact Ht|]. rewrite Ht.
    now destruct (all_space (nth (Z.to_nat (p - 1)) doc "")).
  - rewrite strip_truthy. unfold _extract_pages_text.
    rewrite negb_false_iff, joined_parts_blank.
    rewrite map_fst_nil, extracted_pages_numbers.
    split.
    + intros Hnil p Hp.
      destruct (page_available doc p) eqn:E; [|reflexivity].
      assert (Hin : In p (filter (page_available doc) page_numbers))
        by (apply filter_In; auto).
      rewrite Hnil in Hin. destruct Hin.
    + intros Hall.
      destruct (filter (page_available doc) page_numbers) as [|p l] eqn:E;
        [reflexivity|].
      assert (Hin : In p (filter (page_available doc) page_numbers))
        by (rewrite E; now left).
      apply filter_In in Hin. destruct Hin as [Hin Hp].
      rewrite (Hall p Hin) in Hp. discriminate.
Qed.

(** Requesting pages 3, 0, 2, 7 and 1 of a manual of three pages whose
    second page is blank gives the blocks of pages 3 and 1. *)
Lemma extract_pages_text_spec_witness :
  _extract_pages_text short_manual [3; 0; 2; 7; 1]%Z
  = "--- Page 3 ---" ++ Py.LF ++ "Press F2 to open the BIOS setup"
    ++ Py.LF ++ Py.LF ++ "--- Page 1 ---" ++ Py.LF ++ "Safety notes".
Proof.
  rewrite (proj1 (proj1 (extract_pages_text_spec short_manual
                           [3; 0; 2; 7; 1]%Z))).
  reflexivity.
Defined.

(** ** File names *)

Lemma take_length (n : nat) (s : string) :
  (String.length (Py.take n s) <= n)%nat.
Proof.
  unfold Py.take. revert n. induction s as [|c s IH]; intros [|n]; cbn;
    try lia. specialize (IH n). lia.
Qed.

Lemma take_chars (n : nat) (s : string) (c : ascii) :
  In c (chars (Py.take n s)) -> In c (chars s).
Proof.
  unfold Py.take, chars. revert n.
  induction s as [|d s IH]; intros [|n]; cbn; try tauto.
  intros [H|H]; [now left|right; now apply (IH n)].
Qed.

Lemma take_all (n : nat) (s : string) :
  (String.length s <= n)%nat -> Py.take n s = s.
Proof.
  unfold Py.take. revert n. induction s as [|c s IH]; intros [|n] H;
    cbn in *; try reflexivity; try lia.
  f_equal. apply IH. lia.
Qed.

Lemma map_chars_chars (f : ascii -> ascii) (s : string) (c : ascii) :
  In c (chars (Py.map_chars f s)) -> exists d, In d (chars s) /\ c = f d.
Proof.
  unfold chars. induction s as [|d s IH]; cbn; [tauto|].
  intros [H|H].
  - exists d. auto.
  - destruct (IH H) as (e & He & ->). exists e. auto.
Qed.

Lemma map_chars_id (f : ascii -> ascii) (s : string) :
  (forall c, In c (chars s) -> f c = c) -> Py.map_chars f s = s.
Proof.
  unfold chars. induction s as [|d s IH]; cbn; intros H; [reflexivity|].
  rewrite (H d) by now left. f_equal. apply IH. auto.
Qed.

Lemma In_existsb (c : ascii) (l : list ascii) :
  In c l <-> existsb (Ascii.eqb c) l = true.
Proof.
  rewrite existsb_exists. split.
  - intros H. exists c. split; [exact H|apply Ascii.eqb_refl].
  - intros (d & Hd & E). apply Ascii.eqb_eq in E. now subst.
Qed.

Lemma sanitise_char_valid (c : ascii) :
  ~ In (sanitise_char c) windows_invalid.
Proof.
  rewrite In_existsb.
  destruct c as [[] [] [] [] [] [] [] []]; vm_compute; discriminate.
Qed.

Lemma sanitise_char_id (c : ascii) :
  ~ In c windows_invalid -> sanitise_char c = c.
Proof.
  rewrite In_existsb. unfold sanitise_char, windows_invalid.
  destruct (existsb _ _); [congruence|reflexivity].
Qed.

Lemma prefix_app (p s : string) :
  String.prefix p s = true -> exists r, s = p ++ r.
Proof.
  revert s. induction p as [|c p IH]; intros s H.
  - now exists s.
  - destruct s as [|d s]; [discriminate H|].
    simpl in H. destruct (ascii_dec c d) as [->|]; [|discriminate H].
    destruct (IH s H) as [r ->]. now exists r.
Qed.

Lemma prefix_of_app (p r : string) : String.prefix p (p ++ r) = true.
Proof.
  induction p as [|c p IH]; [destruct r; reflexivity|].
  simpl. destruct (ascii_dec c c); [exact IH|congruence].
Qed.

Lemma drop_app (p r : string) : Py.drop (String.length p) (p ++ r) = r.
Proof. induction p as [|c p IH]; [reflexivity|exact IH]. Qed.

Lemma strip_scheme_http (rest : string) :
  strip_scheme ("http://" ++ rest) = rest
  /\ strip_scheme ("https://" ++ rest) = rest.
Proof.
  unfold strip_scheme, Py.startswith. split.
  - rewrite prefix_of_app. apply (drop_app "http://").
  - replace (String.prefix "http://" ("https://" ++ rest)) with false
      by reflexivity.
    rewrite prefix_of_app. apply (drop_app "https://").
Qed.

Lemma app_chars (s t : string) :
  chars (s ++ t) = (chars s ++ chars t)%list.
Proof. unfold chars. induction s; cbn; congruence. Qed.

Lemma strip_scheme_id (s : string) :
  ~ In ":"%char (chars s) -> strip_scheme s = s.
Proof.
  intros H. unfold strip_scheme, Py.startswith.
  destruct (String.prefix "http://" s) eqn:E1.
  { apply prefix_app in E1. destruct E1 as [r ->]. exfalso. apply H.
    rewrite app_chars. apply in_or_app. left. cbn. tauto. }
  destruct (String.prefix "https://" s) eqn:E2; [|reflexivity].
  apply prefix_app in E2. destruct E2 as [r ->]. exfalso. apply H.
  rewrite app_chars. apply in_or_app. left. cbn. tauto.
Qed.

(** X11. The local file name of a locator has at most 240 characters and none of
    the characters Windows forbids; a name that is already of this form is
    left unchanged, so sanitising twice changes nothing. *)
Theorem sanitised_name_safe (url : string) :
  let name := _sanitise_url_for_filename url in
  (String.length name <= 240)%nat
  /\ (forall c, In c (chars name) -> ~ In c windows_invalid)
  /\ (forall s,
        (String.length s <= 240)%nat ->
        (forall c, In c (chars s) -> ~ In c windows_invalid) ->
        _sanitise_url_for_filename s = s)
  /\ _sanitise_url_for_filename name = name.
Proof.
  intros name.
  assert (Hlen : (String.length name <= 240)%nat) by apply take_length.
  assert (Hvalid : forall c, In c (chars name) -> ~ In c windows_invalid).
  { intros c Hc. apply take_chars in Hc. apply map_chars_chars in Hc.
    destruct Hc as (d & _ & ->). apply sanitise_char_valid. }
  assert (Hfix : forall s,
             (String.length s <= 240)%nat ->
             (forall c, In c (chars s) -> ~ In c windows_invalid) ->
             _sanitise_url_for_filename s = s).
  { intros s Hs Hc. unfold _sanitise_url_for_filename.
    rewrite strip_scheme_id.
    - rewrite map_chars_id.
      + now apply take_all.
      + intros c Hin. apply sanitise_char_id. now apply Hc.
    - intros Hin. apply (Hc _ Hin). cbn. tauto. }
  split; [exact Hlen|]. split; [exact Hvalid|]. split; [exact Hfix|].
  now apply Hfix.
Qed.

(** X12. Only one leading scheme is removed and both schemes are removed alike:
    the http and the https form of a locator share one local file. *)
Theorem lookup_ignores_scheme (w : World) (rest : string) :
  _sanitise_url_for_filename ("http://" ++ rest)
  = Py.take 240 (Py.map_chars sanitise_char rest)
  /\ _sanitise_url_for_filename ("https://" ++ rest)
     = Py.take 240 (Py.map_chars sanitise_char rest)
  /\ _find_pdf_on_disk w ("http://" ++ rest)
     = _find_pdf_on_disk w ("https://" ++ rest).
Proof.
  destruct (strip_scheme_http rest) as [S1 S2].
  assert (H1 : _sanitise_url_for_filename ("http://" ++ rest)
               = Py.take 240 (Py.map_chars sanitise_char rest))
    by (unfold _sanitise_url_for_filename; now rewrite S1).
  assert (H2 : _sanitise_url_for_filename ("https://" ++ rest)
               = Py.take 240 (Py.map_chars sanitise_char rest))
    by (unfold _sanitise_url_for_filename; now rewrite S2).
  split; [exact H1|]. split; [exact H2|].
  unfold _find_pdf_on_disk. now rewrite H1, H2.
Qed.

(** ** The scraper saves, the fallback finds *)

Lemma first_pdf_filename (base : string) :
  pdf_filename base 1 = base ++ "-1.pdf".
Proof. reflexivity. Qed.

(** Saving never overwrites a file. *)
Lemma save_keeps_files (fuel : nat) (dir dir' : Directory) (base : string)
  (k : Z) (doc : Pdf) :
  save_pdf_from fuel dir base k doc = Some dir' ->
  forall name old, dir name = Some old -> dir' name = Some old.
Proof.
  revert k. induction fuel as [|fuel IH]; intros k H name old Hold;
    [discriminate|].
  cbn [save_pdf_from] in H.
  destruct (dir (pdf_filename base k)) eqn:E.
  - now apply (IH _ H).
  - injection H as <-. unfold write_file.
    destruct (String.eqb name (pdf_filename base k)) eqn:En; [|exact Hold].
    apply String.eqb_eq in En. subst name. congruence.
Qed.

Lemma save_first_name (fuel : nat) (dir dir' : Directory) (base : string)
  (doc : Pdf) :
  save_pdf_from fuel dir base 1 doc = Some dir' ->
  dir' (base ++ "-1.pdf")
  = Some (match dir (base ++ "-1.pdf") with
          | Some old => old
          | None => doc
          end).
Proof.
  destruct fuel as [|fuel]; [discriminate|].
  cbn [save_pdf_from]. rewrite first_pdf_filename.
  destruct (dir (base ++ "-1.pdf")) as [old|] eqn:E.
  - intros H. now apply (save_keeps_files _ _ _ _ _ _ H).
  - intros H. injection H as <-. unfold write_file.
    now rewrite String.eqb_refl.
Qed.

(** X13. When the scraper has stored the PDF of a locator, the fallback finds a
    local file for that locator, under the name whose number is 1. That
    file is the new document if no file of this name existed and the
    earlier download otherwise, because the scraper then stores the new
    one under a higher number; no file that existed is changed. *)
Theorem saved_pdf_is_found (w : World) (fuel : nat) (dir dir' : Directory)
  (url : string) (doc : Pdf) :
  save_pdf fuel dir url doc = Some dir' ->
  let name := _sanitise_url_for_filename url ++ "-1.pdf" in
  _find_pdf_on_disk (with_pdf_dir w dir') url = Some name
  /\ fitz_open (with_pdf_dir w dir') name
     = match dir name with
       | Some old => old
       | None => doc
       end
  /\ (forall other old, dir other = Some old -> dir' other = Some old).
Proof.
  intros H name. unfold save_pdf in H.
  pose proof (save_first_name _ _ _ _ _ H) as Hname. fold name in Hname.
  split; [|split].
  - unfold _find_pdf_on_disk. cbn [pdf_dir with_pdf_dir]. fold name.
    now rewrite Hname.
  - unfold fitz_open. cbn [pdf_dir with_pdf_dir]. now rewrite Hname.
  - now apply (save_keeps_files _ _ _ _ _ _ H).
Qed.

Lemma saved_pdf_is_found_witness :
  let w := dead_world "" in
  let dir' := write_file (pdf_dir w) manual_file short_manual in
  _find_pdf_on_disk (with_pdf_dir w dir') manual_url = Some manual_file
  /\ fitz_open (with_pdf_dir w dir') manual_file = short_manual.
Proof.
  intros w dir'.
  destruct (saved_pdf_is_found w 1 (pdf_dir w) dir' manual_url short_manual
              eq_refl) as (Hfind & Hopen & _).
  split; [exact Hfind|exact Hopen].
Defined.

(** X14. The saving loop ends as soon as a name is free: with the names numbered
    [k] to [k + j - 1] taken and the name numbered [k + j] free, it stores
    the document under that name after [j + 1] tries. *)
Theorem save_pdf_terminates (dir : Directory) (base : string) (doc : Pdf)
  (j : nat) (k : Z) :
  (forall i, (i < j)%nat ->
             dir (pdf_filename base (k + Z.of_nat i)) <> None) ->
  dir (pdf_filename base (k + Z.of_nat j)) = None ->
  forall fuel, (j < fuel)%nat ->
    save_pdf_from fuel dir base k doc
    = Some (write_file dir (pdf_filename base (k + Z.of_nat j)) doc).
Proof.
  revert k. induction j as [|j IH]; intros k Htaken Hfree fuel Hfuel.
  - destruct fuel as [|fuel]; [lia|]. cbn [save_pdf_from].
    replace (k + Z.of_nat 0)%Z with k in * by lia.
    now rewrite Hfree.
  - destruct fuel as [|fuel]; [lia|]. cbn [save_pdf_from].
    destruct (dir (pdf_filename base k)) eqn:E.
    + replace (k + Z.of_nat (S j))%Z with (k + 1 + Z.of_nat j)%Z by lia.
      apply IH.
      * intros i Hi.
        replace (k + 1 + Z.of_nat i)%Z with (k + Z.of_nat (S i))%Z by lia.
        apply Htaken. lia.
      * replace (k + 1 + Z.of_nat j)%Z with (k + Z.of_nat (S j))%Z by lia.
        exact Hfree.
      * lia.
    + exfalso. apply (Htaken 0%nat); [lia|].
      replace (k + Z.of_nat 0)%Z with k by lia. exact E.
Qed.

Lemma save_pdf_terminates_witness :
  let dir := write_file (fun _ => None) manual_file short_manual in
  save_pdf 2 dir manual_url long_manual
  = Some (write_file dir (pdf_filename
                            (_sanitise_url_for_filename manual_url) 2)
                     long_manual).
Proof.
  intros dir.
  apply (save_pdf_terminates dir (_sanitise_url_for_filename manual_url)
           long_manual 1 1).
  - intros i Hi. assert (i = 0%nat) as -> by lia. vm_compute. discriminate.
  - reflexivity.
  - lia.
Defined.

(** ** Product slugs *)

Lemma keep_slug_chars_all (s : string) :
  all_slug_chars (keep_slug_chars s) = true.
Proof.
  induction s as [|c s IH]; [reflexivity|]. cbn [keep_slug_chars].
  destruct (is_slug_char c) eqn:E; [|exact IH].
  cbn [all_slug_chars]. now rewrite E.
Qed.

Lemma collapse_head (s : string) (c : ascii) (r : string) :
  collapse_dashes s = String c r -> exists r', s = String c r'.
Proof.
  revert c r. induction s as [|d s IH]; intros c r H; [discriminate|].
  cbn [collapse_dashes] in H. destruct s as [|e s].
  - injection H as <- _. now exists "".
  - destruct (is_dash d && is_dash e) eqn:E.
    + destruct (IH _ _ H) as [r' Hr']. injection Hr' as -> _.
      apply andb_true_iff in E. destruct E as [Ed Ee].
      unfold is_dash in Ed, Ee. apply Ascii.eqb_eq in Ed, Ee. subst.
      now exists (String "-" s).
    + injection H as <- _. now exists (String e s).
Qed.

Lemma collapse_all (s : string) :
  all_slug_chars s = true -> all_slug_chars (collapse_dashes s) = true.
Proof.
  induction s as [|c s IH]; [reflexivity|]. intros H.
  cbn [all_slug_chars] in H. apply andb_true_iff in H. destruct H as [Hc Hs].
  cbn [collapse_dashes]. destruct s as [|d s].
  - cbn. now rewrite Hc.
  - destruct (is_dash c && is_dash d); [now apply IH|].
    cbn [all_slug_chars]. rewrite Hc. now apply IH.
Qed.

Lemma collapse_no_double (s : string) :
  no_double_dash (collapse_dashes s) = true.
Proof.
  induction s as [|c s IH]; [reflexivity|].
  cbn [collapse_dashes]. destruct s as [|d s]; [reflexivity|].
  destruct (is_dash c && is_dash d) eqn:E; [exact IH|].
  cbn [no_double_dash].
  destruct (collapse_dashes (String d s)) as [|e r] eqn:Er; [reflexivity|].
  rewrite IH, andb_true_r.
  destruct (collapse_head _ _ _ Er) as [r' Hr']. injection Hr' as -> _.
  now rewrite E.
Qed.

Lemma collapse_id (s : string) :
  no_double_dash s = true -> collapse_dashes s = s.
Proof.
  induction s as [|c s IH]; [reflexivity|]. intros H.
  cbn [no_double_dash collapse_dashes] in *. destruct s as [|d s];
    [reflexivity|].
  apply andb_true_iff in H. destruct H as [Hcd Hs].
  apply negb_true_iff in Hcd. rewrite Hcd. f_equal. now apply IH.
Qed.

Lemma lstrip_dashes_props (s : string) :
  no_leading_dash (lstrip_dashes s) = true
  /\ (all_slug_chars s = true -> all_slug_chars (lstrip_dashes s) = true)
  /\ (no_double_dash s = true -> no_double_dash (lstrip_dashes s) = true)
  /\ (no_leading_dash s = true -> lstrip_dashes s = s).
Proof.
  induction s as [|c s (I1 & I2 & I3 & I4)]; [now repeat split|].
  cbn [lstrip_dashes]. destruct (is_dash c) eqn:E.
  - split; [exact I1|]. split; [|split].
    + cbn [all_slug_chars]. intros H. apply andb_true_iff in H. tauto.
    + intros H. apply I3. cbn [no_double_dash] in H.
      destruct s; [reflexivity|]. apply andb_true_iff in H. tauto.
    + cbn. rewrite E. discriminate.
  - split; [cbn; now rewrite E|]. tauto.
Qed.

Lemma rstrip_head (s : string) (c : ascii) (r : string) :
  rstrip_dashes s = String c r -> exists r', s = String c r'.
Proof.
  destruct s as [|d s]; [discriminate|]. cbn [rstrip_dashes].
  destruct (rstrip_dashes s).
  - destruct (is_dash d); [discriminate|].
    intros H. injection H as <- _. now exists s.
  - intros H. injection H as <- _. now exists s.
Qed.

Lemma rstrip_dashes_props (s : string) :
  ends_with_dash (rstrip_dashes s) = false
  /\ (all_slug_chars s = true -> all_slug_chars (rstrip_dashes s) = true)
  /\ (no_double_dash s = true -> no_double_dash (rstrip_dashes s) = true)
  /\ (no_leading_dash s = true -> no_leading_dash (rstrip_dashes s) = true)
  /\ (ends_with_dash s = false -> rstrip_dashes s = s).
Proof.
  induction s as [|c s (I1 & I2 & I3 & I4 & I5)]; [now repeat split|].
  cbn [rstrip_dashes].
  destruct (rstrip_dashes s) as [|e r'] eqn:Er.
  - destruct (is_dash c) eqn:E.
    + split; [reflexivity|]. split; [reflexivity|]. split; [reflexivity|].
      split; [reflexivity|].
      intros H. exfalso. cbn [ends_with_dash] in H.
      destruct s as [|d s]; [congruence|].
      specialize (I5 H). discriminate I5.
    + split; [cbn; exact E|]. split.
      { cbn [all_slug_chars]. intros H. apply andb_true_iff in H.
        destruct H as [H _]. now rewrite H. }
      split; [reflexivity|]. split; [cbn; now rewrite E|].
      intros H. f_equal. cbn [ends_with_dash] in H.
      destruct s as [|d s]; [reflexivity|]. exact (I5 H).
  - destruct (rstrip_head _ _ _ Er) as [s' ->].
    split; [exact I1|]. split.
    { cbn [all_slug_chars]. intros H. apply andb_true_iff in H.
      destruct H as [Hc Hs]. rewrite Hc. now apply I2. }
    split.
    { intros H. cbn [no_double_dash] in H |- *.
      apply andb_true_iff in H. destruct H as [Hce Hs].
      rewrite Hce. now apply I3. }
    split; [tauto|].
    intros H. f_equal. now apply I5.
Qed.

Lemma slug_char_lower (c : ascii) :
  is_slug_char c = true ->
  Py.lower_char c = c /\ Ascii.eqb c " " = false.
Proof.
  destruct c as [[] [] [] [] [] [] [] []]; vm_compute;
    intros H; try discriminate H; split; reflexivity.
Qed.

Lemma slug_chars_unchanged (s : string) :
  all_slug_chars s = true ->
  keep_slug_chars (spaces_to_dashes (Py.lower s)) = s.
Proof.
  induction s as [|c s IH]; [reflexivity|]. intros H.
  cbn [all_slug_chars] in H. apply andb_true_iff in H. destruct H as [Hc Hs].
  destruct (slug_char_lower c Hc) as [Hl Hsp].
  cbn [Py.lower spaces_to_dashes Py.map_chars keep_slug_chars].
  rewrite Hl, Hsp, Hc. f_equal. now apply IH.
Qed.

(** X15. Whatever the product name, the slug handed to the vector store is made
    of lower case letters, digits and single hyphens, with no hyphen at
    either end; a name that is already such a slug, like the ones the
    product selector offers, is passed on unchanged, so normalising twice
    changes nothing. *)
Theorem normalised_product_is_slug (name : string) :
  is_slug (_normalise_product_name name) = true
  /\ (forall slug, is_slug slug = true -> _normalise_product_name slug = slug)
  /\ _normalise_product_name (_normalise_product_name name)
     = _normalise_product_name name.
Proof.
  assert (Hslug : forall n, is_slug (_normalise_product_name n) = true).
  { intros n. unfold _normalise_product_name, strip_dashes, is_slug.
    set (k := keep_slug_chars (spaces_to_dashes (Py.lower n))).
    pose proof (keep_slug_chars_all (spaces_to_dashes (Py.lower n))) as Hk.
    fold k in Hk.
    pose proof (collapse_all k Hk) as Hc1.
    pose proof (collapse_no_double k) as Hc2.
    destruct (lstrip_dashes_props (collapse_dashes k)) as (L1 & L2 & L3 & _).
    destruct (rstrip_dashes_props (lstrip_dashes (collapse_dashes k)))
      as (R1 & R2 & R3 & R4 & _).
    rewrite R2, R3, R4, R1 by auto. reflexivity. }
  assert (Hfix : forall slug, is_slug slug = true ->
                              _normalise_product_name slug = slug).
  { intros slug H. unfold is_slug in H.
    repeat (apply andb_true_iff in H; destruct H as [H ?]).
    unfold _normalise_product_name, strip_dashes.
    rewrite slug_chars_unchanged by assumption.
    rewrite collapse_id by assumption.
    destruct (lstrip_dashes_props slug) as (_ & _ & _ & L4).
    rewrite L4 by assumption.
    destruct (rstrip_dashes_props slug) as (_ & _ & _ & _ & R5).
    apply R5. now apply negb_true_iff. }
  split; [apply Hslug|]. split; [exact Hfix|]. apply Hfix, Hslug.
Qed.

(** ** The cost of a session *)

Lemma llm_calls_app (a b : list Output) :
  llm_calls (a ++ b) = (llm_calls a + llm_calls b)%nat.
Proof.
  induction a as [|x a IH]; [reflexivity|].
  cbn [app llm_calls]. destruct x as [| [|] | |]; cbn; lia.
Qed.

Lemma slept_seconds_app (a b : list Output) :
  slept_seconds (a ++ b) = (slept_seconds a + slept_seconds b)%Z.
Proof.
  induction a as [|x a IH]; [reflexivity|].
  cbn [app slept_seconds]. destruct x as [| [|] | |]; cbn; lia.
Qed.

Lemma llm_effects_cost {A : Type} (o : Oracle A) :
  (llm_calls (llm_effects (call_llm o)) <= 3)%nat
  /\ (slept_seconds (llm_effects (call_llm o)) <= 3)%Z.
Proof.
  rewrite call_llm_unfold. unfold llm_effects. cbn.
  destruct (o 0%nat) as [|e0]; cbn; [lia|].
  destruct (is_transient e0); cbn; [|lia].
  destruct (o 1%nat) as [|e1]; cbn; [lia|].
  destruct (is_transient e1); cbn; [|lia].
  destruct (o 2%nat) as [|e2]; cbn; [lia|].
  destruct (is_transient e2); cbn; lia.
Qed.

(** A node runs the retry loop at most once, and only the seven LLM nodes
    run it. *)
Lemma node_cost (n : Node) (w : World) (s : AgentState) :
  (llm_calls (snd (node_fn n w s)) <= if llm_node n then 3 else 0)%nat
  /\ (slept_seconds (snd (node_fn n w s)) <= if llm_node n then 3 else 0)%Z.
Proof.
  destruct n; cbn [node_fn llm_node];
    try apply llm_effects_cost; try (cbn; lia).
  - unfold ask_user_for_details_node. cbn [snd]. case_match; cbn; lia.
  - unfold pdf_fallback_node.
    repeat first [ apply llm_effects_cost | (cbn; lia) | case_match ].
  - unfold log_result_node. cbn [snd].
    destruct (negb (user_satisfied s)); cbn; lia.
Qed.

Lemma llm_nodes_left_step (w : World) (c : Config) :
  at_node c <> END ->
  (llm_nodes_left (step w c) + (if llm_node (at_node c) then 1 else 0)
   <= llm_nodes_left c)%nat.
Proof.
  intros Hn. rewrite step_unfold by exact Hn. cbv zeta.
  destruct c as [n s o]. cbn [at_node st out] in *.
  unfold llm_nodes_left, retrieval_left, gather_left. cbn [at_node st].
  destruct (Node_eq_dec n pdf_fallback) as [->|Hp].
  - cbn [node_fn edge]. unfold route_after_pdf_fallback.
    destruct (pdf_fallback_shape w s) as [E|(a & _ & E)]; rewrite E;
      destruct s; cbn; lia.
  - destruct s; destruct n; try congruence;
      cbn -[Z.add Z.sub Z.geb Z.to_nat Nat.mul Nat.add Nat.sub Py.strip
            call_llm];
      unfold route_after_gatherer, route_after_quality_checker,
        route_after_present_answer, route_after_clarification,
        route_after_clarification_assessor, route_after_log_pre_feedback;
      cbn -[Z.add Z.sub Z.geb Z.to_nat Nat.mul Nat.add Nat.sub Py.strip
            call_llm];
      repeat (case_atom;
              cbn -[Z.add Z.sub Z.geb Z.to_nat Nat.mul Nat.add Nat.sub
                    Py.strip call_llm] in * );
      repeat match goal with
             | H : (_ >=? _)%Z = true |- _ => apply Z.geb_le in H
             | H : (_ >=? _)%Z = false |- _ =>
                 rewrite Z.geb_leb in H; apply Z.leb_gt in H
             end;
      unfold MAX_GATHERER_ATTEMPTS, MAX_RETRIEVAL_ATTEMPTS in *;
      try discriminate; try lia.
Qed.

Lemma session_cost_step (w : World) (c : Config) :
  (llm_calls (out (step w c)) + 3 * llm_nodes_left (step w c)
   <= llm_calls (out c) + 3 * llm_nodes_left c)%nat
  /\ (slept_seconds (out (step w c)) + 3 * Z.of_nat (llm_nodes_left (step w c))
      <= slept_seconds (out c) + 3 * Z.of_nat (llm_nodes_left c))%Z.
Proof.
  destruct (Node_eq_dec (at_node c) END) as [E|Hn].
  { rewrite step_END by exact E. lia. }
  pose proof (llm_nodes_left_step w c Hn) as Hp.
  destruct (node_cost (at_node c) w (st c)) as [Hc Hs].
  assert (Hout : out (step w c)
                 = (out c ++ snd (node_fn (at_node c) w (st c)))%list)
    by (rewrite step_unfold by exact Hn; reflexivity).
  rewrite Hout, llm_calls_app, slept_seconds_app.
  destruct (llm_node (at_node c)); lia.
Qed.

Lemma session_cost_run (ws : list World) (c : Config) :
  (llm_calls (out (run ws c)) + 3 * llm_nodes_left (run ws c)
   <= llm_calls (out c) + 3 * llm_nodes_left c)%nat
  /\ (slept_seconds (out (run ws c)) + 3 * Z.of_nat (llm_nodes_left (run ws c))
      <= slept_seconds (out c) + 3 * Z.of_nat (llm_nodes_left c))%Z.
Proof.
  revert c. induction ws as [|w ws IH]; intros c;
    [unfold run; cbn [fold_left]; lia|].
  rewrite run_cons.
  destruct (IH (step w c)) as [H1 H2].
  destruct (session_cost_step w c) as [H3 H4]. lia.
Qed.

(** X16. Whatever the user and the oracles do, a whole session makes at most 57
    LLM calls and sleeps at most 57 seconds in its retry loops; a session
    that reaches both bounds, in 27 steps, exists. *)
Theorem session_cost_bound :
  (forall (cid : string) (ws : list World),
      (llm_calls (out (run ws (start cid))) <= 57)%nat
      /\ (slept_seconds (out (run ws (start cid))) <= 57)%Z)
  /\ (let c := run costly_session (start "session-1") in
      at_node c = END
      /\ List.length (executed costly_session (start "session-1")) = 27%nat
      /\ llm_calls (out c) = 57%nat
      /\ slept_seconds (out c) = 57%Z).
Proof.
  split.
  - intros cid ws.
    destruct (session_cost_run ws (start cid)) as [H1 H2].
    change (llm_nodes_left (start cid)) with 19%nat in H1, H2.
    change (llm_calls (out (start cid))) with 0%nat in H1.
    change (slept_seconds (out (start cid))) with 0%Z in H2.
    lia.
  - vm_compute. repeat split; reflexivity.
Qed.

(** ** What retrieval starts from and what it feeds *)

Lemma pipeline_inv_start (cid : string) : pipeline_inv (start cid).
Proof.
  unfold pipeline_inv. cbn. repeat split; try lia; try discriminate.
  all: match goal with
       | H : _ \/ _ |- _ => destruct H as [H'|H']; discriminate H'
       end.
Qed.

Lemma pipeline_inv_step (w : World) (c : Config) :
  loop_inv c -> pipeline_inv c -> pipeline_inv (step w c).
Proof.
  destruct (Node_eq_dec (at_node c) END) as [E|Hn];
    [now rewrite step_END|].
  rewrite step_unfold by exact Hn. cbv zeta.
  destruct c as [n s o]. cbn [at_node st out] in *.
  unfold loop_inv, pipeline_inv. cbn [at_node st]. cbv zeta.
  intros (Hg & Hr & _).
  destruct (Node_eq_dec n pdf_fallback) as [->|Hp].
  - cbn [node_fn edge]. unfold route_after_pdf_fallback. clear Hg Hr.
    destruct (pdf_fallback_shape w s) as [E|(a & _ & E)]; rewrite E;
      clear E; destruct s; cbn; intros (H1 & H0 & H2 & H3 & H4);
      repeat split; intros; try tauto; try lia;
      try (match goal with
           | H : _ \/ _ |- _ => destruct H as [H'|H']; discriminate H'
           end).
  - destruct s; destruct n; try congruence;
      cbn -[Z.add Z.geb Z.of_nat Py.strip call_llm] in Hg, Hr |- *;
      unfold route_after_gatherer, route_after_quality_checker,
        route_after_present_answer, route_after_clarification,
        route_after_clarification_assessor, route_after_log_pre_feedback;
      cbn -[Z.add Z.geb Z.of_nat Py.strip call_llm];
      intros (H1 & H0 & H2 & H3 & H4);
      repeat (case_atom;
              cbn -[Z.add Z.geb Z.of_nat Py.strip call_llm] in * );
      repeat match goal with
             | H : (_ >=? _)%Z = true |- _ => apply Z.geb_le in H
             | H : (_ >=? _)%Z = false |- _ =>
                 rewrite Z.geb_leb in H; apply Z.leb_gt in H
             end;
      unfold MAX_GATHERER_ATTEMPTS, MAX_RETRIEVAL_ATTEMPTS in *;
      rewrite ?length_app; cbn [List.length];
      repeat split; intros; try discriminate; try tauto; try lia;
      try (match goal with
           | H : _ \/ _ |- _ => destruct H as [H'|H']; discriminate H'
           end).
Qed.

Lemma pipeline_inv_run (ws : list World) (c : Config) :
  loop_inv c -> pipeline_inv c -> pipeline_inv (run ws c).
Proof.
  revert c. induction ws as [|w ws IH]; intros c Hl Hp; [exact Hp|].
  rewrite run_cons. apply IH.
  - now apply loop_inv_step.
  - now apply pipeline_inv_step.
Qed.

(** X17. Retrieval starts in one of two ways only: with a question classified by
    the gatherer, or, after exactly three gatherer rounds without enough
    information, with an empty classified question. *)
Theorem retrieval_starts_from (cid : string) (ws : list World) :
  let c := run ws (start cid) in
  past_gathering (at_node c) = true ->
  has_enough_info (st c) = true
  \/ (has_enough_info (st c) = false
      /\ gatherer_attempts (st c) = MAX_GATHERER_ATTEMPTS
      /\ classified_question (st c) = "").
Proof.
  intros c Hpast.
  destruct (pipeline_inv_run ws (start cid) (loop_inv_start cid)
              (pipeline_inv_start cid)) as (H1 & _ & H2 & _).
  fold c in H1, H2.
  destruct (has_enough_info (st c)) eqn:E; [now left|].
  right. split; [reflexivity|]. split; [|now apply H1].
  destruct (H2 Hpast) as [H|H]; [discriminate H|exact H].
Qed.

Lemma retrieval_starts_from_witness :
  let c := run (repeat (dead_world "screen is blank") 6)
               (start "session-1") in
  at_node c = rag_retriever /\ classified_question (st c) = "".
Proof.
  intros c. split; [reflexivity|].
  destruct (retrieval_starts_from
              "session-1" (repeat (dead_world "screen is blank") 6) eq_refl)
    as [H|(_ & _ & H)]; [discriminate H|exact H].
Defined.

(** X18. The answer formulator runs only on a history with at least one entry,
    right after an assessment that found it sufficient and cleared the
    information gap; the document fallback runs only on a history with at
    least three entries. *)
Theorem formulator_and_miner_inputs (cid : string) (ws : list World) :
  let c := run ws (start cid) in
  (at_node c = answer_formulator ->
   is_context_sufficient (st c) = true
   /\ information_gap (st c) = ""
   /\ (1 <= retrieval_attempts (st c) <= MAX_RETRIEVAL_ATTEMPTS)%Z
   /\ (1 <= List.length (rag_history (st c)))%nat)
  /\ (at_node c = pdf_fallback ->
      (3 <= List.length (rag_history (st c)))%nat).
Proof.
  intros c.
  destruct (pipeline_inv_run ws (start cid) (loop_inv_start cid)
              (pipeline_inv_start cid)) as (_ & _ & _ & Hlen & Hans).
  destruct (loop_inv_run ws (start cid) (loop_inv_start cid))
    as (_ & Hr & _).
  destruct (outcome_inv_run ws (start cid) (loop_inv_start cid)
              (outcome_inv_start cid)) as (_ & _ & Hp & _).
  fold c in Hlen, Hans, Hr, Hp.
  destruct (attempts_bound_max (at_node c)) as [_ Hb].
  split.
  - intros E. destruct Hans as (Hs & Hg & H1); [now left|].
    rewrite E in Hlen. cbn in Hlen.
    split; [exact Hs|]. split; [exact Hg|]. split; lia.
  - intros E. destruct (Hp E) as [H3 _]. rewrite E in Hlen. cbn in Hlen.
    unfold MAX_RETRIEVAL_ATTEMPTS in H3. lia.
Qed.

(** ** What the user is shown *)

Lemma shown_inv_step (w : World) (c : Config) :
  shown_inv c -> shown_inv (step w c).
Proof.
  destruct (Node_eq_dec (at_node c) END) as [E|Hn];
    [now rewrite step_END|].
  rewrite step_unfold by exact Hn. cbv zeta.
  destruct c as [n s o]. cbn [at_node st out] in *.
  unfold shown_inv. cbn [at_node st out].
  destruct (Node_eq_dec n pdf_fallback) as [->|Hp].
  - cbn [node_fn edge]. unfold route_after_pdf_fallback.
    destruct (pdf_fallback_shape w s) as [E|(a & _ & E)]; rewrite E;
      destruct s; cbn; exact (fun _ => I).
  - destruct s; destruct n; try congruence;
      cbn -[Z.add Z.geb Py.strip call_llm notice rule Py.LF];
      unfold route_after_gatherer, route_after_quality_checker,
        route_after_present_answer, route_after_clarification,
        route_after_clarification_assessor, route_after_log_pre_feedback;
      cbn -[Z.add Z.geb Py.strip call_llm notice rule Py.LF];
      intros H;
      repeat (case_atom;
              cbn -[Z.add Z.geb Py.strip call_llm notice rule Py.LF] in * );
      try exact I;
      apply in_or_app;
      first [ left; exact H | right; cbn -[notice rule Py.LF]; tauto ].
Qed.

Lemma shown_inv_run (ws : list World) (c : Config) :
  shown_inv c -> shown_inv (run ws c).
Proof.
  revert c. induction ws as [|w ws IH]; intros c H; [exact H|].
  rewrite run_cons. apply IH. now apply shown_inv_step.
Qed.

(** X19. What a session records as its answer is what the user was shown: when
    the loop logs, collects feedback or has ended, the stored
    [final_answer], which is also the answer a ticket reports, has been
    printed. *)
Theorem final_answer_was_shown (cid : string) (ws : list World) :
  let c := run ws (start cid) in
  at_node c = log_pre_feedback \/ at_node c = collect_feedback
  \/ at_node c = log_result \/ at_node c = END ->
  In (Print (final_answer (st c))) (out c)
  /\ forall t, In t (tickets c) -> In (Print (ticket_answer_given t)) (out c).
Proof.
  intros c Hn.
  pose proof (shown_inv_run ws (start cid) I) as H. fold c in H.
  assert (Hshown : In (Print (final_answer (st c))) (out c)).
  { unfold shown_inv in H.
    destruct Hn as [E|[E|[E|E]]]; rewrite E in H; exact H. }
  split; [exact Hshown|].
  intros t Ht.
  destruct (Node_eq_dec (at_node c) END) as [E|Hne].
  - pose proof (log_inv_run ws (start cid) (log_inv_start cid)) as Hl.
    fold c in Hl. unfold log_inv in Hl. rewrite E in Hl.
    destruct Hl as [Htk _]. rewrite Htk in Ht.
    destruct (user_satisfied (st c)); [destruct Ht|].
    destruct Ht as [<-|[]]. exact Hshown.
  - pose proof (no_ticket_before_log_result cid ws Hne) as Hnone.
    fold c in Hnone. rewrite Hnone in Ht. destruct Ht.
Qed.

Lemma final_answer_was_shown_witness :
  let c := run (repeat (dead_world "screen is blank") 16)
               (start "session-1") in
  In (Print notice) (out c).
Proof.
  intros c.
  exact (proj1 (final_answer_was_shown
                  "session-1" (repeat (dead_world "screen is blank") 16)
                  (or_intror (or_intror (or_intror eq_refl))))).
Defined.

Lemma last_ai_snoc (ms : list Message) (q : string) :
  last_ai_from (List.rev (ms ++ [AIMessage q])) = Some q.
Proof. now rewrite rev_app_distr. Qed.

(** X20. When the gatherer lacks information, its follow-up question (the
    fixed request for details if the call failed) is appended to the
    transcript. While rounds remain, the next node is ask_user_for_details:
    it shows the user exactly that question after the word Agent and
    appends the reply to the transcript. In the last round the loop goes to
    retrieval instead and ask_user_for_details never runs again, so the
    user is not asked to reply to that question. *)
Theorem follow_up_question_is_shown (w1 w2 : World) (c : Config)
  (more : list World) :
  at_node c = information_gatherer ->
  gatherer_insufficient w1 = true ->
  let q := match response (call_llm (gatherer_llm w1)) with
           | Some resp => follow_up_question resp
           | None => "Could you please provide more details about your issue?"
           end in
  let c1 := step w1 c in
  messages (st c1) = (messages (st c) ++ [AIMessage q])%list
  /\ ((gatherer_attempts (st c) + 1 < MAX_GATHERER_ATTEMPTS)%Z ->
      at_node c1 = ask_user_for_details
      /\ out (step w2 c1)
         = (out c1 ++ [Print (Py.LF ++ "Agent: " ++ q)])%list
      /\ messages (st (step w2 c1))
         = (messages (st c)
            ++ [AIMessage q; HumanMessage (Py.strip (typed w2))])%list)
  /\ ((MAX_GATHERER_ATTEMPTS <= gatherer_attempts (st c) + 1)%Z ->
      at_node c1 = rag_retriever
      /\ times_executed ask_user_for_details more c1 = 0%nat
      /\ times_executed information_gatherer more c1 = 0%nat).
Proof.
  intros Hn Hw q c1.
  destruct (step_gatherer_insufficient w1 c Hn Hw) as (N1 & _).
  fold c1 in N1.
  assert (Hm : messages (st c1) = (messages (st c) ++ [AIMessage q])%list).
  { unfold c1, q. rewrite step_unfold by congruence. cbv zeta. rewrite Hn.
    unfold gatherer_insufficient in Hw.
    destruct c as [n s o]. destruct s. cbn -[call_llm].
    destruct (response (call_llm (gatherer_llm w1))) as [resp|];
      [rewrite Hw|]; reflexivity. }
  split; [exact Hm|]. split.
  - intros Hlt.
    assert (N1' : at_node c1 = ask_user_for_details).
    { rewrite N1. destruct (_ >=? _)%Z eqn:E; [|reflexivity].
      apply Z.geb_le in E. lia. }
    split; [exact N1'|].
    rewrite step_unfold by congruence. cbv zeta. rewrite N1'.
    cbn [node_fn ask_user_for_details_node fst snd out st].
    rewrite Hm, last_ai_snoc. split; [reflexivity|].
    destruct (st c1) eqn:Es. cbn in Hm |- *. rewrite Hm.
    unfold add_messages. now rewrite <- app_assoc.
  - intros Hge.
    assert (N1' : at_node c1 = rag_retriever).
    { rewrite N1. destruct (_ >=? _)%Z eqn:E; [reflexivity|].
      rewrite Z.geb_leb in E. apply Z.leb_gt in E. lia. }
    split; [exact N1'|].
    apply past_gathering_no_ask. now rewrite N1'.
Qed.

Lemma follow_up_question_is_shown_witness :
  let w := dead_world "screen is blank" in
  let c := run [w; w; w] (start "session-1") in
  In (Print (Py.LF ++ "Agent: "
             ++ "Could you please provide more details about your issue?"))
     (out c).
Proof.
  intros w c.
  destruct (follow_up_question_is_shown w w (step w (start "session-1")) []
              eq_refl eq_refl) as (_ & Hshown & _).
  destruct (Hshown ltac:(vm_compute; reflexivity)) as (_ & Hout & _).
  change (out c = (out (step w (step w (start "session-1")))
                   ++ [Print (Py.LF ++ "Agent: "
                              ++ "Could you please provide more details "
                              ++ "about your issue?")])%list) in Hout.
  rewrite Hout. apply in_or_app. right. now left.
Defined.

(** ** The product choice *)

(** X21. Whatever is typed at the selection prompt, the product is the word
    general or one of the offered candidates: an empty choice, the choice 1,
    a non-numeric or an out-of-range choice selects the first candidate and
    a number within range selects the candidate of that rank. Only an
    empty candidate list makes the selection fail. *)
Theorem chosen_product_is_offered (int_of : string -> option Z)
  (product_line choice_line : string) (candidates : list string) :
  let chosen := choose_slug int_of product_line choice_line candidates in
  let choice := Py.strip choice_line in
  (Py.lower (Py.strip product_line) = "general" -> chosen = Some "general")
  /\ (Py.lower (Py.strip product_line) <> "general" ->
      (candidates = [] -> chosen = None)
      /\ (candidates <> [] ->
          exists slug, chosen = Some slug /\ In slug candidates)
      /\ (forall v,
            choice <> "" -> choice <> "1" -> int_of choice = Some v ->
            (1 <= v <= Z.of_nat (List.length candidates))%Z ->
            chosen = nth_error candidates (Z.to_nat (v - 1)))
      /\ (choice = "" \/ choice = "1" \/ int_of choice = None
          \/ (exists v, int_of choice = Some v
                        /\ (v < 1
                            \/ Z.of_nat (List.length candidates) < v)%Z) ->
          chosen = nth_error candidates 0)).
Proof.
  intros chosen choice. unfold chosen, choose_slug. fold choice. split.
  - intros H. rewrite H. reflexivity.
  - intros H. apply String.eqb_neq in H. rewrite H.
    assert (Hrange : (0 <= choose_index int_of choice candidates)%Z
                     /\ (candidates <> [] ->
                         choose_index int_of choice candidates
                         < Z.of_nat (List.length candidates))%Z).
    { unfold choose_index.
      assert (Hpos : candidates <> [] ->
                     (0 < Z.of_nat (List.length candidates))%Z)
        by (destruct candidates; [congruence|cbn; lia]).
      destruct ((choice =? "") || (choice =? "1")); [split; [lia|exact Hpos]|].
      destruct (int_of choice) as [v|]; [|split; [lia|exact Hpos]].
      cbv zeta.
      destruct ((0 <=? v - 1) && (v - 1 <? Z.of_nat (List.length candidates)))%Z
        eqn:E; cbn [negb]; [|split; [lia|exact Hpos]].
      apply andb_true_iff in E. destruct E as [E1 E2].
      apply Z.leb_le in E1. apply Z.ltb_lt in E2. split; [lia|]. intros _. lia. }
    destruct Hrange as [H0 Hlt].
    split; [|split; [|split]].
    + intros ->. now destruct (Z.to_nat _).
    + intros Hne. specialize (Hlt Hne).
      destruct (nth_error candidates
                  (Z.to_nat (choose_index int_of choice candidates)))
        as [slug|] eqn:E.
      * exists slug. split; [reflexivity|]. now apply nth_error_In in E.
      * apply nth_error_None in E. lia.
    + intros v H1 H2 Hv Hr. unfold choose_index.
      apply String.eqb_neq in H1, H2. rewrite H1, H2, Hv. cbn [orb].
      cbv zeta.
      replace ((0 <=? v - 1) && (v - 1 <? Z.of_nat (List.length candidates)))%Z
        with true; [reflexivity|].
      symmetry. apply andb_true_iff.
      split; [apply Z.leb_le|apply Z.ltb_lt]; lia.
    + intros Hc. unfold choose_index.
      destruct ((choice =? "") || (choice =? "1")) eqn:E0; [reflexivity|].
      apply orb_false_iff in E0. destruct E0 as [E0 E1].
      apply String.eqb_neq in E0, E1.
      destruct Hc as [Hc|[Hc|[Hc|(v & Hv & Hr)]]];
        [congruence|congruence|now rewrite Hc|].
      rewrite Hv. cbv zeta.
      replace ((0 <=? v - 1) && (v - 1 <? Z.of_nat (List.length candidates)))%Z
        with false; [reflexivity|].
      symmetry. apply andb_false_iff.
      destruct Hr; [left; apply Z.leb_gt|right; apply Z.ltb_ge]; lia.
Qed.

Lemma chosen_product_is_offered_witness :
  let int_of := fun s : string => if s =? "2" then Some 2%Z else None in
  choose_slug int_of "xps" " 2 " ["xps-13"; "xps-15"] = Some "xps-15"
  /\ choose_slug int_of "xps" "7" ["xps-13"; "xps-15"] = Some "xps-13".
Proof.
  intros int_of.
  destruct (chosen_product_is_offered int_of "xps" " 2 " ["xps-13"; "xps-15"])
    as (_ & H).
  destruct (H ltac:(vm_compute; discriminate)) as (_ & _ & Hin & _).
  destruct (chosen_product_is_offered int_of "xps" "7" ["xps-13"; "xps-15"])
    as (_ & H').
  destruct (H' ltac:(vm_compute; discriminate)) as (_ & _ & _ & Hout).
  split.
  - apply (Hin 2%Z); vm_compute; try discriminate; try reflexivity.
    split; discriminate.
  - apply Hout. right. right. left. reflexivity.
Defined.

(** ** Sample sessions for the properties above *)

Lemma outcomes_exclude_each_other_witness :
  let dead := run (repeat (dead_world "screen is blank") 14)
                  (start "session-1") in
  let mined := run (repeat (library_world short_manual
                              (never APITimeoutError)) 13)
                   (start "session-1") in
  (escalated_to_human (st dead) = true /\ final_answer (st dead) = notice)
  /\ (pdf_fallback_used (st mined) = true
      /\ escalated_to_human (st mined) = false).
Proof.
  intros dead mined. split.
  - split; [reflexivity|].
    exact (proj1 (proj2 (proj1 (outcomes_exclude_each_other "session-1"
                                  (repeat (dead_world "screen is blank") 14))
                           eq_refl))).
  - split; [reflexivity|].
    exact (proj1 (proj2 (outcomes_exclude_each_other "session-1"
                           (repeat (library_world short_manual
                                      (never APITimeoutError)) 13))
                    eq_refl)).
Defined.

Lemma formulator_and_miner_inputs_witness :
  let asked := run (firstn 4 (session "It does not power on" "thanks"
                                good_answer uncertain_feedback))
                   (start "session-1") in
  let dead := run (repeat (dead_world "screen is blank") 12)
                  (start "session-1") in
  (at_node asked = answer_formulator /\ information_gap (st asked) = "")
  /\ (at_node dead = pdf_fallback
      /\ (3 <= List.length (rag_history (st dead)))%nat).
Proof.
  intros asked dead. split.
  - split; [reflexivity|].
    exact (proj1 (proj2 (proj1 (formulator_and_miner_inputs "session-1"
                                  (firstn 4 (session "It does not power on"
                                               "thanks" good_answer
                                               uncertain_feedback)))
                           eq_refl))).
  - split; [reflexivity|].
    exact (proj2 (formulator_and_miner_inputs "session-1"
                    (repeat (dead_world "screen is blank") 12)) eq_refl).
Defined.

Lemma clarification_at_most_once_witness :
  let c := run (firstn 8 clarified_session) (start "session-1") in
  clarification_used (st c) = true
  /\ times_executed ask_for_clarification (skipn 8 clarified_session) c
     = 0%nat.
Proof.
  intros c. split; [reflexivity|].
  exact (proj2 (clarification_at_most_once "session-1"
                  (firstn 8 clarified_session) (skipn 8 clarified_session))
           eq_refl).
Defined.

Lemma normalised_product_is_slug_witness :
  is_slug "xps-13" = true /\ _normalise_product_name "xps-13" = "xps-13".
Proof.
  split; [reflexivity|].
  exact (proj1 (proj2 (normalised_product_is_slug "XPS 13")) "xps-13" eq_refl).
Defined.

Lemma sanitised_name_safe_witness :
  _sanitise_url_for_filename "a.pdf" = "a.pdf".
Proof.
  apply (proj1 (proj2 (proj2 (sanitised_name_safe "https://dell.com/a.pdf")))).
  - vm_compute. lia.
  - intros c Hc Hin. vm_compute in Hc.
    repeat (destruct Hc as [<-|Hc];
            [vm_compute in Hin; intuition discriminate|]).
    exact Hc.
Defined.

(** ** Termination *)

Lemma executed_bound (ws : list World) (c : Config) :
  (List.length (executed ws c) <= steps_left c)%nat.
Proof.
  revert c. induction ws as [|w ws IH]; intros c; [cbn; lia|].
  destruct (Node_eq_dec (at_node c) END) as [E|Hn].
  - rewrite executed_END by exact E. cbn. lia.
  - rewrite executed_cons by exact Hn. cbn [List.length].
    pose proof (steps_left_decreases w c Hn). specialize (IH (step w c)). lia.
Qed.

(** X22. Every session ends: whatever the user and the oracles do, at most 27
    nodes are executed, any 27 steps reach [END], and once at [END] further
    steps change nothing, neither the state nor the output. *)
Theorem session_terminates (cid : string) (ws more : list World) :
  (List.length (executed ws (start cid)) <= 27)%nat
  /\ ((27 <= List.length ws)%nat -> at_node (run ws (start cid)) = END)
  /\ (at_node (run ws (start cid)) = END ->
      run (ws ++ more) (start cid) = run ws (start cid)
      /\ executed (ws ++ more) (start cid) = executed ws (start cid)).
Proof.
  split; [|split].
  - rewrite <- (steps_left_start cid). apply executed_bound.
  - intros H. apply run_reaches_END. now rewrite steps_left_start.
  - intros H. split.
    + now rewrite run_app, run_END.
    + now rewrite executed_app, (executed_END more), app_nil_r.
Qed.

Lemma session_terminates_witness :
  at_node (run costly_session (start "session-1")) = END
  /\ at_node (run (firstn 26 costly_session) (start "session-1")) <> END.
Proof.
  split.
  - apply (proj1 (proj2 (session_terminates "session-1" costly_session []))).
    vm_compute. lia.
  - vm_compute. discriminate.
Defined.
